(** * BidWriter: the budget engine and the compliance checker

    A shallow embedding of [lib/budget-calc.js] ([calculateBudget]), of
    [lib/templates.js] ([runComplianceChecks], [findSection], [countWords],
    [estimatePages]) and of the text functions of [lib/pdf.js]
    ([escapeHtml], [mdToHtml] and the section loops of [generatePrintHTML]),
    followed by the properties of the engines.

    - Numbers.  JavaScript numbers are IEEE 754 binary64 values.  They are
      modelled by [spec_float] with the binary64 operations of [SpecFloat].
      The budget engine is written once over an interface of number
      operations ([JsNumber]) and read at two instances: [binary64], the
      numbers of the running program, and [exact], the same operations
      without rounding error or overflow (the rationals with [NaN] and the
      infinities), in which the algebraic laws of the budget summary are
      stated.
    - Strings.  A JavaScript string is modelled by [string], one [ascii] per
      code unit: the model covers the code units U+0000..U+00FF.
    - Values.  The properties of a line item hold [undefined], [null], a
      boolean, a Number or a String; a line item is a finite map from
      property names to such values.  The rates of a budget request and the
      limits of a scheme are Numbers.
    - Formatting.  The texts of Numbers inside messages depend on the host
      ([toLocaleString], [Number::toString]) and are parameters of the
      checker. *)

From Stdlib Require Import ZArith NArith QArith Qround Bool List String Ascii Lia.
From Stdlib Require Import SpecFloat.
From stdpp Require Import gmap strings pretty.
Import ListNotations.

Local Open Scope string_scope.

(** ** Strings: the built-ins of [String.prototype] used by the source *)

Module JsString.

(** WhiteSpace and LineTerminator code units below U+0100: TAB, LF, VT, FF,
    CR, SP and NBSP.  This is the class [\s] and the set stripped by
    [trim]. *)
Definition isWhiteSpace (c : ascii) : bool :=
  let n := N_of_ascii c in
  (((9 <=? n) && (n <=? 13)) || (n =? 32) || (n =? 160))%N.

Definition isDigit (c : ascii) : bool :=
  let n := N_of_ascii c in ((48 <=? n) && (n <=? 57))%N.

(** The class [\w]: [A-Za-z0-9_]. *)
Definition isWordChar (c : ascii) : bool :=
  let n := N_of_ascii c in
  (((48 <=? n) && (n <=? 57)) || ((65 <=? n) && (n <=? 90))
   || ((97 <=? n) && (n <=? 122)) || (n =? 95))%N.

(** Lower-case mapping of one code unit: [A-Z] and the Latin-1 capitals
    U+00C0..U+00DE (U+00D7, the multiplication sign, excepted). *)
Definition toLowerChar (c : ascii) : ascii :=
  let n := N_of_ascii c in
  if (((65 <=? n) && (n <=? 90))
      || ((192 <=? n) && (n <=? 222) && negb (n =? 215)))%N
  then ascii_of_N (n + 32) else c.

Fixpoint toLowerCase (s : string) : string :=
  match s with
  | EmptyString => EmptyString
  | String c s' => String (toLowerChar c) (toLowerCase s')
  end.

Fixpoint trimStart (s : string) : string :=
  match s with
  | EmptyString => EmptyString
  | String c s' => if isWhiteSpace c then trimStart s' else s
  end.

Fixpoint trimEnd (s : string) : string :=
  match s with
  | EmptyString => EmptyString
  | String c s' =>
      match trimEnd s' with
      | EmptyString => if isWhiteSpace c then EmptyString else String c EmptyString
      | t => String c t
      end
  end.

Definition trim (s : string) : string := trimEnd (trimStart s).

Fixpoint startsWith (s p : string) : bool :=
  match p, s with
  | EmptyString, _ => true
  | String a p', String b s' => Ascii.eqb a b && startsWith s' p'
  | String _ _, EmptyString => false
  end.

(** [s.includes(sub)] *)
Fixpoint includes (s sub : string) : bool :=
  startsWith s sub
  || match s with
     | EmptyString => false
     | String _ s' => includes s' sub
     end.

(** [l.join(sep)] *)
Fixpoint join (sep : string) (l : list string) : string :=
  match l with
  | [] => EmptyString
  | [x] => x
  | x :: l' => x ++ sep ++ join sep l'
  end.

(** [s.split(/\s+/)]: the pieces between the maximal runs of white space.
    [tok] is the piece being read, [inSep] tells that the previous code
    unit belonged to a separator. *)
Fixpoint splitWs (s tok : string) (inSep : bool) : list string :=
  match s with
  | EmptyString => [tok]
  | String c s' =>
      if isWhiteSpace c
      then if inSep then splitWs s' EmptyString true
           else tok :: splitWs s' EmptyString true
      else splitWs s' (tok ++ String c EmptyString) false
  end.

Definition split_whitespace (s : string) : list string :=
  splitWs s EmptyString false.

Definition isEmpty (s : string) : bool :=
  match s with EmptyString => true | _ => false end.

(** The characters that cannot be written inside a literal here. *)
Definition dquote : string := String "034"%char EmptyString.
Definition pound : string := String "163"%char EmptyString.
Definition newline : string := String "010"%char EmptyString.

End JsString.

(** ** Regular expressions: a backtracking matcher for the patterns of the source

The matcher follows the priorities of ECMAScript's pattern semantics:
alternatives are tried left to right, a greedy star tries one more
iteration before the continuation and a lazy star the continuation first,
an iteration of a star that consumes nothing fails, and a lookahead is
matched on its own.  A position is the code unit before it ([prev],
[None] at the start of the input) and the rest of the input.  Every
iteration of a star consumes at least one code unit, so the length of the
rest bounds the number of iterations: the counter of the loop never runs
out before the input does. *)

Module RegExp.
Import JsString.

Inductive regex : Type :=
| REmpty
| RChar (p : ascii -> bool)
| RSeq (r1 r2 : regex)
| RAlt (r1 r2 : regex)
| RStar (greedy : bool) (r : regex)
| RBol
| REol
| RWordBoundary
| RLookahead (r : regex).

Definition RPlus (greedy : bool) (r : regex) : regex := RSeq r (RStar greedy r).
Definition ROpt (r : regex) : regex := RAlt r REmpty.
Definition RLit (c : ascii) : regex := RChar (Ascii.eqb c).
(** A character of a pattern compiled with the flag [i]. *)
Definition RLitI (c : ascii) : regex :=
  RChar (fun d => Ascii.eqb (toLowerChar c) (toLowerChar d)).

Fixpoint RStr (lit : ascii -> regex) (s : string) : regex :=
  match s with
  | EmptyString => REmpty
  | String c s' => RSeq (lit c) (RStr lit s')
  end.

Definition isWordAt (c : option ascii) : bool :=
  match c with Some a => isWordChar a | None => false end.

Definition next (s : string) : option ascii :=
  match s with String c _ => Some c | EmptyString => None end.

Fixpoint rmatch (A : Type) (r : regex) (prev : option ascii) (s : string)
         (k : option ascii -> string -> option A) {struct r} : option A :=
  match r with
  | REmpty => k prev s
  | RChar p =>
      match s with
      | String c s' => if p c then k (Some c) s' else None
      | EmptyString => None
      end
  | RSeq r1 r2 => rmatch A r1 prev s (fun prev' s' => rmatch A r2 prev' s' k)
  | RAlt r1 r2 =>
      match rmatch A r1 prev s k with
      | Some x => Some x
      | None => rmatch A r2 prev s k
      end
  | RStar greedy r1 =>
      (fix loop (n : nat) (prev : option ascii) (s : string) {struct n} : option A :=
         match n with
         | O => k prev s
         | S n' =>
             let again (_ : unit) :=
               rmatch A r1 prev s
                 (fun prev' s' =>
                    if (String.length s' <? String.length s)%nat
                    then loop n' prev' s' else None) in
             if greedy
             then match again tt with Some x => Some x | None => k prev s end
             else match k prev s with Some x => Some x | None => again tt end
         end) (String.length s) prev s
  | RBol => match prev with None => k prev s | Some _ => None end
  | REol => match s with EmptyString => k prev s | String _ _ => None end
  | RWordBoundary =>
      if xorb (isWordAt prev) (isWordAt (next s)) then k prev s else None
  | RLookahead r1 =>
      match rmatch unit r1 prev s (fun _ _ => Some tt) with
      | Some _ => k prev s
      | None => None
      end
  end.

(** The rest of the input after the match of [r] at this position. *)
Definition matchAt (r : regex) (prev : option ascii) (s : string) : option string :=
  rmatch string r prev s (fun _ s' => Some s').

Definition matched (s rest : string) : string :=
  String.substring 0 (String.length s - String.length rest) s.

(** [s.match(r)] for a pattern without the flag [g]: the text of the
    leftmost match, [None] for [null]. *)
Fixpoint exec (r : regex) (prev : option ascii) (s : string) : option string :=
  match matchAt r prev s with
  | Some rest => Some (matched s rest)
  | None =>
      match s with
      | EmptyString => None
      | String c s' => exec r (Some c) s'
      end
  end.

(** [(s.match(r) || []).length] for a pattern with the flag [g]: the number
    of successive matches.  [skip] counts the code units still covered by
    the previous match; after an empty match the search moves on by one. *)
Fixpoint countMatches (r : regex) (prev : option ascii) (s : string) (skip : nat) : nat :=
  match skip with
  | S skip' =>
      match s with
      | EmptyString => 0
      | String c s' => countMatches r (Some c) s' skip'
      end
  | O =>
      match matchAt r prev s with
      | Some rest =>
          S match s with
            | EmptyString => 0
            | String c s' =>
                countMatches r (Some c) s' (String.length s - String.length rest - 1)
            end
      | None =>
          match s with
          | EmptyString => 0
          | String c s' => countMatches r (Some c) s' 0
          end
      end
  end.

Definition anyChar : regex := RChar (fun _ => true).
Definition whiteSpace : regex := RChar isWhiteSpace.
Definition digit : regex := RChar isDigit.

End RegExp.

(** ** Numbers *)

(** The operations of the Number type used by the source.  [num_dec neg m e]
    is the Number value of the decimal literal [(-)m·10^e]; [num_inf neg] is
    [(-)Infinity]. *)
Class JsNumber (num : Type) : Type := {
  num_nan : num;
  num_inf : bool -> num;
  num_dec : bool -> N -> Z -> num;
  num_add : num -> num -> num;
  num_sub : num -> num -> num;
  num_mul : num -> num -> num;
  num_div : num -> num -> num;
  (** [Math.round] *)
  Math_round : num -> num;
  (** [ToBoolean] of a Number: false for [0], [-0] and [NaN] *)
  ToBoolean : num -> bool;
  (** [ToString] of a Number followed by [parseFloat]: drops the sign of [-0] *)
  reparse : num -> num
}.

Declare Scope js_scope.
Delimit Scope js_scope with js.
Infix "+" := num_add : js_scope.
Infix "-" := num_sub : js_scope.
Infix "*" := num_mul : js_scope.
Infix "/" := num_div : js_scope.
(** [x || d] on Numbers *)
Notation "x '|||' d" := (if ToBoolean x then x else d)
  (at level 50, left associativity) : js_scope.

(** *** binary64 *)

Module Binary64.

Definition prec : Z := 53.
Definition emax : Z := 1024.

Definition number : Type := spec_float.

Definition of_Z (z : Z) : number := binary_normalize prec emax z 0 false.

(** The nearest binary64 value (ties to even) of [(-)m·10^e]. *)
Definition of_decimal (neg : bool) (m : N) (e : Z) : number :=
  match m with
  | N0 => S754_zero neg
  | Npos p =>
      if (0 <=? e)%Z
      then binary_round prec emax neg (p * Z.to_pos (10 ^ e))%positive 0
      else SFdiv prec emax (S754_finite neg p 0)
                 (S754_finite false (Z.to_pos (10 ^ (- e))) 0)
  end.

Definition add : number -> number -> number := SFadd prec emax.
Definition sub : number -> number -> number := SFsub prec emax.
Definition mul : number -> number -> number := SFmul prec emax.
Definition div : number -> number -> number := SFdiv prec emax.

(** [x > y], [x < y], [x >= y] and [x == y] on Numbers. *)
Definition gt (x y : number) : bool := SFltb y x.
Definition lt (x y : number) : bool := SFltb x y.
Definition ge (x y : number) : bool := SFleb y x.
Definition eq (x y : number) : bool := SFeqb x y.

(** An integer result of [Math.round] or [Math.ceil]; a zero result keeps
    the sign of the argument. *)
Definition of_rounded (s : bool) (r : Z) : number :=
  if (r =? 0)%Z then S754_zero s else of_Z r.

(** [Math.round x]: the integer [floor (x + 1/2)], computed exactly. *)
Definition round (x : number) : number :=
  match x with
  | S754_finite s m e =>
      if (0 <=? e)%Z then x
      else let n := cond_Zopp s (Zpos m) in
           of_rounded s ((2 * n + 2 ^ (- e)) / 2 ^ (- e + 1))%Z
  | _ => x
  end.

(** [Math.ceil x] *)
Definition ceil (x : number) : number :=
  match x with
  | S754_finite s m e =>
      if (0 <=? e)%Z then x
      else let n := cond_Zopp s (Zpos m) in
           of_rounded s (- ((- n) / 2 ^ (- e)))%Z
  | _ => x
  end.

Definition truthy (x : number) : bool :=
  match x with
  | S754_zero _ | S754_nan => false
  | _ => true
  end.

Definition drop_zero_sign (x : number) : number :=
  match x with
  | S754_zero _ => S754_zero false
  | _ => x
  end.

Definition isNaN (x : number) : bool :=
  match x with S754_nan => true | _ => false end.

Definition isFinite (x : number) : bool :=
  match x with S754_zero _ | S754_finite _ _ _ => true | _ => false end.

End Binary64.

#[export] Instance binary64 : JsNumber Binary64.number := {|
  num_nan := S754_nan;
  num_inf := S754_infinity;
  num_dec := Binary64.of_decimal;
  num_add := Binary64.add;
  num_sub := Binary64.sub;
  num_mul := Binary64.mul;
  num_div := Binary64.div;
  Math_round := Binary64.round;
  ToBoolean := Binary64.truthy;
  reparse := Binary64.drop_zero_sign
|}.

(** *** Exact numbers: the rationals with [NaN] and the two infinities *)

Module Exact.

Inductive number : Type :=
| XNaN
| XInf (neg : bool)
| XFin (q : Q).

Definition isNeg (q : Q) : bool := (Qnum q <? 0)%Z.
Definition isZero (q : Q) : bool := (Qnum q =? 0)%Z.

Definition of_decimal (neg : bool) (m : N) (e : Z) : number :=
  let v := (inject_Z (Z.of_N m) * Qpower (inject_Z 10) e)%Q in
  XFin (if neg then Qopp v else v).

Definition add (x y : number) : number :=
  match x, y with
  | XNaN, _ | _, XNaN => XNaN
  | XInf a, XInf b => if Bool.eqb a b then x else XNaN
  | XInf _, _ => x
  | _, XInf _ => y
  | XFin p, XFin q => XFin (p + q)%Q
  end.

Definition opp (x : number) : number :=
  match x with
  | XNaN => XNaN
  | XInf a => XInf (negb a)
  | XFin p => XFin (- p)%Q
  end.

Definition sub (x y : number) : number := add x (opp y).

Definition mul (x y : number) : number :=
  match x, y with
  | XNaN, _ | _, XNaN => XNaN
  | XInf a, XInf b => XInf (xorb a b)
  | XInf a, XFin q | XFin q, XInf a =>
      if isZero q then XNaN else XInf (xorb a (isNeg q))
  | XFin p, XFin q => XFin (p * q)%Q
  end.

Definition div (x y : number) : number :=
  match x, y with
  | XNaN, _ | _, XNaN => XNaN
  | XInf _, XInf _ => XNaN
  | XInf a, XFin q => XInf (xorb a (isNeg q))
  | XFin _, XInf _ => XFin 0%Q
  | XFin p, XFin q =>
      if isZero q then (if isZero p then XNaN else XInf (isNeg p))
      else XFin (p / q)%Q
  end.

(** [Math.round x = floor (x + 1/2)] *)
Definition round (x : number) : number :=
  match x with
  | XFin q => XFin (inject_Z (Qfloor (q + (1 # 2))%Q))
  | _ => x
  end.

Definition truthy (x : number) : bool :=
  match x with
  | XNaN => false
  | XInf _ => true
  | XFin q => negb (isZero q)
  end.

(** Equality of exact numbers: [Qeq] on the finite ones. *)
Definition eq (x y : number) : Prop :=
  match x, y with
  | XNaN, XNaN => True
  | XInf a, XInf b => a = b
  | XFin p, XFin q => (p == q)%Q
  | _, _ => False
  end.

Definition isFinite (x : number) : bool :=
  match x with XFin _ => true | _ => false end.

Definition isInfinite (x : number) : bool :=
  match x with XInf _ => true | _ => false end.

(** Rounding of a rational to two decimal places, halves upwards. *)
Definition round2 (q : Q) : Q :=
  (inject_Z (Qfloor (q * 100 + (1 # 2))) / 100)%Q.

End Exact.

#[export] Instance exact : JsNumber Exact.number := {|
  num_nan := Exact.XNaN;
  num_inf := Exact.XInf;
  num_dec := Exact.of_decimal;
  num_add := Exact.add;
  num_sub := Exact.sub;
  num_mul := Exact.mul;
  num_div := Exact.div;
  Math_round := Exact.round;
  ToBoolean := Exact.truthy;
  reparse := fun x => x
|}.

(** ** Values and objects

The values a JSON request body gives to the fields read by the source.
A line item is an object: a finite map from property names to values. *)

Inductive jsval (num : Type) : Type :=
| JUndefined
| JNull
| JBool (b : bool)
| JNumber (x : num)
| JString (s : string).

Arguments JUndefined {num}.
Arguments JNull {num}.
Arguments JBool {num} b.
Arguments JNumber {num} x.
Arguments JString {num} s.

Section Values.
Context {num : Type} `{JsNumber num}.
Import JsString.

(** DecimalDigits at the head of [s]: the value read so far, the number of
    digits read and the rest. *)
Fixpoint readDigits (s : string) (acc : N) (len : Z) : N * Z * string :=
  match s with
  | String c s' =>
      if isDigit c
      then readDigits s' (acc * 10 + (N_of_ascii c - 48))%N (len + 1)%Z
      else (acc, len, s)
  | EmptyString => (acc, len, s)
  end.

Definition readSign (s : string) : bool * string :=
  match s with
  | String "+" r => (false, r)
  | String "-" r => (true, r)
  | _ => (false, s)
  end.

(** The value of an ExponentPart at the head of [s], [0] without one. *)
Definition readExponent (s : string) : Z :=
  match s with
  | String c s' =>
      if (Ascii.eqb c "e" || Ascii.eqb c "E")%bool
      then let '(neg, r) := readSign s' in
           let '(v, len, _) := readDigits r 0%N 0%Z in
           if (len =? 0)%Z then 0%Z
           else if neg then (- Z.of_N v)%Z else Z.of_N v
      else 0%Z
  | EmptyString => 0%Z
  end.

(** [parseFloat] of a String: the longest prefix of the trimmed text that
    is a StrDecimalLiteral, [NaN] without one. *)
Definition parseFloatString (s : string) : num :=
  let '(neg, u) := readSign (trimStart s) in
  if startsWith u "Infinity" then num_inf neg
  else
    let '(ip, ilen, r1) := readDigits u 0%N 0%Z in
    let '(m, flen, r2) :=
      match r1 with
      | String "." r => readDigits r ip 0%Z
      | _ => (ip, 0%Z, r1)
      end in
    if (ilen + flen =? 0)%Z then num_nan
    else num_dec neg m (readExponent r2 - flen)%Z.

(** [parseFloat(v)]: [v] is converted to a String first; [undefined],
    [null] and the booleans give text without a number. *)
Definition parseFloat (v : jsval num) : num :=
  match v with
  | JNumber x => reparse x
  | JString s => parseFloatString s
  | JUndefined | JNull | JBool _ => num_nan
  end.

(** [o.k]: [undefined] for a property that is absent. *)
Definition prop (o : gmap string (jsval num)) (k : string) : jsval num :=
  default JUndefined (o !! k).

(** [o.k] for a property that holds a Number. *)
Definition numberOf (o : gmap string (jsval num)) (k : string) : num :=
  match o !! k with
  | Some (JNumber x) => x
  | _ => num_nan
  end.

End Values.

(** ** lib/budget-calc.js *)

Module Budget.

Section Engine.
Context {num : Type} `{JsNumber num}.
Local Open Scope js_scope.

(** An integer literal. *)
Definition lit (m : N) : num := num_dec false m 0.

Definition DEFAULT_ON_COST_RATE : num := num_dec false 25 (-2).

(** The request body: absent properties take the defaults of the
    destructuring pattern.  The category properties hold arrays of line
    items and the three rates hold Numbers. *)
Record budgetData : Type := {
  staff : option (list (gmap string (jsval num)));
  travel : option (list (gmap string (jsval num)));
  equipment : option (list (gmap string (jsval num)));
  consumables : option (list (gmap string (jsval num)));
  other : option (list (gmap string (jsval num)));
  subcontracting : option (list (gmap string (jsval num)));
  costModel : option string;
  fecRate : option num;
  overheadRate : option num;
  customRate : option num
}.

Record category : Type := {
  items : list (gmap string (jsval num));
  total : num
}.

Record categories : Type := {
  cat_staff : category;
  cat_travel : category;
  cat_equipment : category;
  cat_consumables : category;
  cat_other : category;
  cat_subcontracting : category
}.

Record summary : Type := {
  directCosts : num;
  indirectCosts : num;
  sum_overheadRate : num;
  fullEconomicCost : num;
  sum_costModel : string;
  funderRate : num;
  funderContribution : num;
  institutionContribution : num
}.

Record budget : Type := {
  out_categories : categories;
  out_summary : summary
}.

Definition round (n : num) : num := Math_round (n * lit 100) / lit 100.

Definition sum (arr : list num) : num :=
  round (fold_left (fun a b => a + b) arr (lit 0)).

(** The function mapped over [staff]: the object spread copies the
    properties of the item, then the six computed properties are set. *)
Definition staffItem (item : gmap string (jsval num)) : gmap string (jsval num) :=
  let baseSalary := parseFloat (prop item "salary") ||| lit 0 in
  let fte := (parseFloat (prop item "fte") ||| lit 100) / lit 100 in
  let months := parseFloat (prop item "months") ||| lit 0 in
  let onCostRate := parseFloat (prop item "onCostRate") ||| DEFAULT_ON_COST_RATE in
  let annualCost := baseSalary * fte in
  let monthlyCost := annualCost / lit 12 in
  let totalBase := monthlyCost * months in
  let onCosts := totalBase * onCostRate in
  let totalWithOnCosts := totalBase + onCosts in
  <["total" := JNumber (round totalWithOnCosts)]>
    (<["onCosts" := JNumber (round onCosts)]>
       (<["totalBase" := JNumber (round totalBase)]>
          (<["monthlyCost" := JNumber monthlyCost]>
             (<["annualCost" := JNumber annualCost]>
                (<["fte" := JNumber (fte * lit 100)]> item))))).

(** The function mapped over [travel]. *)
Definition travelItem (item : gmap string (jsval num)) : gmap string (jsval num) :=
  let costPerTrip := parseFloat (prop item "costPerTrip") ||| lit 0 in
  let numTrips := parseFloat (prop item "numTrips") ||| lit 1 in
  <["total" := JNumber (round (costPerTrip * numTrips))]> item.

(** The function mapped over [equipment], [consumables], [other] and
    [subcontracting]. *)
Definition costItem (item : gmap string (jsval num)) : gmap string (jsval num) :=
  <["total" := JNumber (round (parseFloat (prop item "cost") ||| lit 0))]> item.

(** [calc.map(i => i.total)] *)
Definition totals (calc : list (gmap string (jsval num))) : list num :=
  map (fun i => numberOf i "total") calc.

Definition calculateBudget (budgetData : budgetData) : budget :=
  let costModel := default "fEC" (costModel budgetData) in
  let fecRate := default (lit 80) (fecRate budgetData) in
  let overheadRate := default (lit 25) (overheadRate budgetData) in
  let customRate := default (lit 100) (customRate budgetData) in
  let staffCalc := map staffItem (default [] (staff budgetData)) in
  let travelCalc := map travelItem (default [] (travel budgetData)) in
  let equipmentCalc := map costItem (default [] (equipment budgetData)) in
  let consumablesCalc := map costItem (default [] (consumables budgetData)) in
  let otherCalc := map costItem (default [] (other budgetData)) in
  let subCalc := map costItem (default [] (subcontracting budgetData)) in
  let staffTotal := sum (totals staffCalc) in
  let travelTotal := sum (totals travelCalc) in
  let equipmentTotal := sum (totals equipmentCalc) in
  let consumablesTotal := sum (totals consumablesCalc) in
  let otherTotal := sum (totals otherCalc) in
  let subTotal := sum (totals subCalc) in
  let directCosts :=
    staffTotal + travelTotal + equipmentTotal + consumablesTotal
    + otherTotal + subTotal in
  let indirectCosts := round (directCosts * (overheadRate / lit 100)) in
  let fullEconomicCost := round (directCosts + indirectCosts) in
  let '(funderContribution, institutionContribution, rate) :=
    if String.eqb costModel "fEC" then
      let rate := fecRate / lit 100 in
      let funderContribution := round (fullEconomicCost * rate) in
      (funderContribution, round (fullEconomicCost - funderContribution), rate)
    else if String.eqb costModel "full" then
      (fullEconomicCost, lit 0, lit 1)
    else if String.eqb costModel "custom" then
      let rate := customRate / lit 100 in
      let funderContribution := round (fullEconomicCost * rate) in
      (funderContribution, round (fullEconomicCost - funderContribution), rate)
    else
      let rate := fecRate / lit 100 in
      let funderContribution := round (fullEconomicCost * rate) in
      (funderContribution, round (fullEconomicCost - funderContribution), rate) in
  {| out_categories :=
       {| cat_staff := {| items := staffCalc; total := staffTotal |};
          cat_travel := {| items := travelCalc; total := travelTotal |};
          cat_equipment := {| items := equipmentCalc; total := equipmentTotal |};
          cat_consumables := {| items := consumablesCalc; total := consumablesTotal |};
          cat_other := {| items := otherCalc; total := otherTotal |};
          cat_subcontracting := {| items := subCalc; total := subTotal |} |};
     out_summary :=
       {| directCosts := directCosts;
          indirectCosts := indirectCosts;
          sum_overheadRate := overheadRate;
          fullEconomicCost := fullEconomicCost;
          sum_costModel := costModel;
          funderRate := round (rate * lit 100);
          funderContribution := funderContribution;
          institutionContribution := institutionContribution |} |}.

(** The properties written by the map over the staff items. *)
Definition staffWritten : list string :=
  ["fte"; "annualCost"; "monthlyCost"; "totalBase"; "onCosts"; "total"].

(** The six arrays of line items of a request, in the order of the
    categories of the source. *)
Definition lineItems (budgetData : budgetData) : list (gmap string (jsval num)) :=
  default [] (staff budgetData) ++ default [] (travel budgetData)
  ++ default [] (equipment budgetData) ++ default [] (consumables budgetData)
  ++ default [] (other budgetData) ++ default [] (subcontracting budgetData).

End Engine.

Arguments budgetData num : clear implicits.
Arguments category num : clear implicits.
Arguments categories num : clear implicits.
Arguments summary num : clear implicits.
Arguments budget num : clear implicits.

(** The split of the full economic cost, to two decimal places, on the
    numbers of the program: the rounded sum of the two contributions equals
    the full economic cost. *)
Definition splitHolds (s : summary Binary64.number) : bool :=
  Binary64.eq (round (num_add (institutionContribution s) (funderContribution s)))
              (fullEconomicCost s).

(** A request all of whose amounts and rates are finite, over the exact
    numbers: no property of a line item parses to an infinity and the rates
    that are given are rationals. *)
Definition finiteItem (item : gmap string (jsval Exact.number)) : Prop :=
  forall k : string, Exact.isInfinite (parseFloat (prop item k)) = false.

Definition finiteRate (rate : option Exact.number) : Prop :=
  match rate with
  | Some x => Exact.isFinite x = true
  | None => True
  end.

Definition finiteRequest (budgetData : budgetData Exact.number) : Prop :=
  Forall finiteItem (lineItems budgetData)
  /\ finiteRate (fecRate budgetData)
  /\ finiteRate (overheadRate budgetData)
  /\ finiteRate (customRate budgetData).

End Budget.

(** ** lib/templates.js *)

Module Templates.
Import JsString RegExp.

Abbreviation number := Binary64.number.

Inductive severity : Type := pass | warn | fail.

Definition severity_eqb (a b : severity) : bool :=
  match a, b with
  | pass, pass | warn, warn | fail, fail => true
  | _, _ => false
  end.

(** One entry of [results]; [advice] is absent from the [pass] findings
    of the source. *)
Record finding : Type := {
  check : string;
  status : severity;
  message : string;
  advice : option string
}.

(** An entry of [scheme.sections].  A property that is absent or [null] is
    [None]; [required] is the truthiness of the property. *)
Record section : Type := {
  name : string;
  required : bool;
  maxWords : option number;
  maxPages : option number
}.

(** The properties of a scheme read by the checker. *)
Record scheme : Type := {
  maxAmount : option number;
  minAmount : option number;
  maxDuration : option number;
  minDuration : option number;
  sections : option (list section);
  eligibility : option string
}.

Record funderData : Type := {
  schemes : option (list scheme)
}.

Record verdict : Type := {
  overall : severity;
  results : list finding
}.

Definition num (m : N) : number := Binary64.of_decimal false m 0.

(** [countWords] *)
Definition countWords (text : string) : nat :=
  if isEmpty text then 0
  else length (List.filter (fun w => (0 <? String.length w)%nat)
                      (split_whitespace (trim text))).

Definition wordCount (text : string) : number :=
  Binary64.of_Z (Z.of_nat (countWords text)).

(** [estimatePages] *)
Definition estimatePages (text : string) : number :=
  Binary64.ceil (Binary64.div (wordCount text) (num 300)).

(** The pattern built by [findSection] for [sectionName], with the flag
    [i]: the start of the input or a line feed; one or more [#]; white
    space; optionally digits, an optional dot and white space; the name;
    then as few code units as possible up to a position followed by a line
    feed, one or more [#] and a white space, or by the end of the input.
    Every syntax character of the name is escaped by the source, so that
    the name stands for itself. *)
Definition headingPattern (sectionName : string) : regex :=
  RSeq (RAlt RBol (RLit "010"%char))
    (RSeq (RPlus true (RLit "#"%char))
      (RSeq (RStar true whiteSpace)
        (RSeq (ROpt (RSeq (RPlus true digit)
                      (RSeq (ROpt (RLit "."%char)) (RStar true whiteSpace))))
          (RSeq (RStr RLitI sectionName)
            (RSeq (RStar false anyChar)
              (RLookahead
                 (RAlt (RSeq (RLit "010"%char) (RSeq (RPlus true (RLit "#"%char)) whiteSpace))
                       REol))))))).

(** [sections[key]] on the object [sections], given by its properties in
    the order of [Object.keys]. *)
Fixpoint lookup_key (sections : list (string * string)) (key : string) : option string :=
  match sections with
  | [] => None
  | (k, v) :: rest => if String.eqb k key then Some v else lookup_key rest key
  end.

(** The direct match: [sections[sectionName]] when it is truthy. *)
Definition directMatch (sects : list (string * string)) (sectionName : string)
  : option string :=
  match lookup_key sects sectionName with
  | Some v => if isEmpty v then None else Some v
  | None => None
  end.

(** The first key that contains the name or is contained in it, both in
    lower case. *)
Definition fuzzyKey (sects : list (string * string)) (sectionName : string)
  : option string :=
  find (fun k =>
          includes (toLowerCase k) (toLowerCase sectionName)
          || includes (toLowerCase sectionName) (toLowerCase k))
       (map fst sects).

(** The heading of the section in the full text, with what follows it. *)
Definition headingMatch (fullText : option string) (sectionName : string)
  : option string :=
  match fullText with
  | Some text =>
      if isEmpty text then None
      else exec (headingPattern sectionName) None text
  | None => None
  end.

(** [findSection]; [None] is [null]. *)
Definition findSection (sections : option (list (string * string)))
           (fullText : option string) (sectionName : string) : option string :=
  match sections with
  | Some sects =>
      match directMatch sects sectionName with
      | Some v => Some v
      | None =>
          match fuzzyKey sects sectionName with
          | Some key =>
              if isEmpty key then headingMatch fullText sectionName
              else lookup_key sects key
          | None => headingMatch fullText sectionName
          end
      end
  | None => headingMatch fullText sectionName
  end.

Section Checker.

(** [Number.prototype.toLocaleString] depends on the locale of the host
    and the conversion of a Number inside a template literal on
    [Number::toString]; both are parameters of the checker. *)
Variable toLocaleString : number -> string.
Variable toString : number -> string.

(** [parseFloat(v) || 0] *)
Definition parsedOrZero (v : jsval number) : number :=
  let x := parseFloat v in if Binary64.truthy x then x else num 0.

(** The value of an optional property when it is truthy. *)
Definition declared (o : option number) : option number :=
  match o with
  | Some x => if Binary64.truthy x then Some x else None
  | None => None
  end.

(** Budget limits: the maximum. *)
Definition budgetMaximum (scheme : scheme) (budget : jsval number) : list finding :=
  match declared (maxAmount scheme) with
  | Some maxAmount =>
      let budgetNum := parsedOrZero budget in
      if Binary64.gt budgetNum maxAmount then
        [{| check := "Budget Maximum";
            status := fail;
            message := "Budget " ++ pound ++ toLocaleString budgetNum
                       ++ " exceeds maximum " ++ pound
                       ++ toLocaleString maxAmount ++ ".";
            advice := Some ("Reduce your budget to under " ++ pound
                            ++ toLocaleString maxAmount
                            ++ " for this scheme.") |}]
      else if Binary64.gt budgetNum
                (Binary64.mul maxAmount (Binary64.of_decimal false 95 (-2))) then
        [{| check := "Budget Maximum";
            status := warn;
            message := "Budget " ++ pound ++ toLocaleString budgetNum
                       ++ " is within 5% of the " ++ pound
                       ++ toLocaleString maxAmount ++ " maximum.";
            advice := Some "Consider whether you need budget headroom for adjustments." |}]
      else
        [{| check := "Budget Maximum";
            status := pass;
            message := "Budget " ++ pound ++ toLocaleString budgetNum
                       ++ " is within the " ++ pound
                       ++ toLocaleString maxAmount ++ " limit.";
            advice := None |}]
  | None => []
  end.

(** Budget limits: the minimum. *)
Definition budgetMinimum (scheme : scheme) (budget : jsval number) : list finding :=
  match declared (minAmount scheme) with
  | Some minAmount =>
      let budgetNum := parsedOrZero budget in
      if Binary64.lt budgetNum minAmount && Binary64.gt budgetNum (num 0) then
        [{| check := "Budget Minimum";
            status := fail;
            message := "Budget " ++ pound ++ toLocaleString budgetNum
                       ++ " is below the minimum " ++ pound
                       ++ toLocaleString minAmount ++ ".";
            advice := Some ("This scheme requires a minimum budget of " ++ pound
                            ++ toLocaleString minAmount ++ ".") |}]
      else if Binary64.ge budgetNum minAmount then
        [{| check := "Budget Minimum";
            status := pass;
            message := "Budget meets the minimum " ++ pound
                       ++ toLocaleString minAmount ++ " threshold.";
            advice := None |}]
      else []
  | None => []
  end.

(** Duration: the maximum. *)
Definition durationMaximum (scheme : scheme) (duration : jsval number) : list finding :=
  match declared (maxDuration scheme) with
  | Some maxDuration =>
      let dur := parsedOrZero duration in
      if Binary64.gt dur maxDuration then
        [{| check := "Duration";
            status := fail;
            message := "Duration " ++ toString dur ++ " months exceeds maximum "
                       ++ toString maxDuration ++ " months.";
            advice := Some ("Reduce project duration to " ++ toString maxDuration
                            ++ " months or less.") |}]
      else if Binary64.gt dur (num 0) then
        [{| check := "Duration";
            status := pass;
            message := "Duration " ++ toString dur ++ " months is within the "
                       ++ toString maxDuration ++ " month limit.";
            advice := None |}]
      else []
  | None => []
  end.

(** Duration: the minimum. *)
Definition durationMinimum (scheme : scheme) (duration : jsval number) : list finding :=
  match declared (minDuration scheme) with
  | Some minDuration =>
      let dur := parsedOrZero duration in
      if Binary64.lt dur minDuration && Binary64.gt dur (num 0) then
        [{| check := "Duration Minimum";
            status := fail;
            message := "Duration " ++ toString dur
                       ++ " months is below the minimum "
                       ++ toString minDuration ++ " months.";
            advice := Some ("This scheme requires at least "
                            ++ toString minDuration ++ " months duration.") |}]
      else []
  | None => []
  end.

(** [sectionText] is truthy: neither [null] nor the empty string. *)
Definition present (sectionText : option string) : bool :=
  match sectionText with
  | Some t => negb (isEmpty t)
  | None => false
  end.

Definition textOf (sectionText : option string) : string :=
  default EmptyString sectionText.

(** The finding of a required section that is missing or too short. *)
Definition missingSection (reqSection : section) : finding :=
  {| check := "Section: " ++ name reqSection;
     status := fail;
     message := "Required section " ++ dquote ++ name reqSection ++ dquote
                ++ " is missing or too short.";
     advice := Some ("Add a substantive " ++ dquote ++ name reqSection
                     ++ dquote ++ " section to your proposal.") |}.

Definition presentSection (reqSection : section) : finding :=
  {| check := "Section: " ++ name reqSection ++ " (Present)";
     status := pass;
     message := "Required section " ++ dquote ++ name reqSection ++ dquote
                ++ " is present.";
     advice := None |}.

(** The word limit check of one section. *)
Definition wordLimit (reqSection : section) (sectionText : option string)
  : list finding :=
  match declared (maxWords reqSection) with
  | Some maxWords =>
      if present sectionText then
        let wc := wordCount (textOf sectionText) in
        if Binary64.gt wc maxWords then
          [{| check := "Section: " ++ name reqSection ++ " (Word Limit)";
              status := fail;
              message := dquote ++ name reqSection ++ dquote ++ " is "
                         ++ toString wc ++ " words (limit: "
                         ++ toString maxWords ++ ").";
              advice := Some ("Reduce by " ++ toString (Binary64.sub wc maxWords)
                              ++ " words. Current: " ++ toString wc ++ "/"
                              ++ toString maxWords ++ ".") |}]
        else if Binary64.gt wc
                  (Binary64.mul maxWords (Binary64.of_decimal false 9 (-1))) then
          [{| check := "Section: " ++ name reqSection ++ " (Word Limit)";
              status := warn;
              message := dquote ++ name reqSection ++ dquote ++ " is "
                         ++ toString wc ++ "/" ++ toString maxWords
                         ++ " words ("
                         ++ toString (Binary64.round
                                        (Binary64.mul (Binary64.div wc maxWords)
                                                      (num 100)))
                         ++ "%).";
              advice := Some "Close to the word limit. Leave some margin for final edits." |}]
        else if Binary64.gt wc (num 0) then
          [{| check := "Section: " ++ name reqSection ++ " (Word Limit)";
              status := pass;
              message := dquote ++ name reqSection ++ dquote ++ " is "
                         ++ toString wc ++ "/" ++ toString maxWords ++ " words.";
              advice := None |}]
        else []
      else []
  | None => []
  end.

(** The page limit check of one section. *)
Definition pageLimit (reqSection : section) (sectionText : option string)
  : list finding :=
  match declared (maxPages reqSection) with
  | Some maxPages =>
      if present sectionText then
        let pages := estimatePages (textOf sectionText) in
        if Binary64.gt pages maxPages then
          [{| check := "Section: " ++ name reqSection ++ " (Page Limit)";
              status := fail;
              message := dquote ++ name reqSection ++ dquote
                         ++ " is approximately " ++ toString pages
                         ++ " pages (limit: " ++ toString maxPages ++ ").";
              advice := Some ("Estimated at ~300 words/page. Reduce content to fit within "
                              ++ toString maxPages ++ " page(s).") |}]
        else
          [{| check := "Section: " ++ name reqSection ++ " (Page Limit)";
              status := pass;
              message := dquote ++ name reqSection ++ dquote
                         ++ " fits within " ++ toString maxPages ++ " page(s).";
              advice := None |}]
      else []
  | None => []
  end.

(** The body of the loop over [scheme.sections]: the findings pushed for
    one section.  The [continue] of the source ends the iteration after
    the finding of a missing required section. *)
Definition sectionChecks (sections : option (list (string * string)))
           (proposalText : option string) (reqSection : section) : list finding :=
  let sectionText := findSection sections proposalText (name reqSection) in
  if required reqSection
     && (negb (present sectionText)
         || (String.length (trim (textOf sectionText)) <? 50)%nat)
  then [missingSection reqSection]
  else
    (if required reqSection then [presentSection reqSection] else [])
    ++ wordLimit reqSection sectionText
    ++ pageLimit reqSection sectionText.

(** [proposalText || Object.values(sections || {}).join('\n')] *)
Definition fullTextOf (proposalText : option string)
           (sections : option (list (string * string))) : string :=
  let joined := join newline (map snd (default [] sections)) in
  match proposalText with
  | Some t => if isEmpty t then joined else t
  | None => joined
  end.

Definition wordPattern (lit : ascii -> regex) (word : string) : regex :=
  RSeq RWordBoundary (RSeq (RStr lit word) RWordBoundary).

Definition vagueTerms : list string :=
  ["very"; "quite"; "somewhat"; "fairly"; "rather"; "extremely"].

Definition firstPersonCount (fullText : string) : nat :=
  countMatches (wordPattern RLit "I") None fullText 0.

Definition vagueCount (fullText : string) : nat :=
  fold_left (fun count term =>
               (count + countMatches (wordPattern RLitI term) None fullText 0)%nat)
            vagueTerms 0%nat.

Definition totalWordCount (fullText : string) : finding :=
  {| check := "Total Word Count";
     status := pass;
     message := "Total proposal text: "
                ++ toLocaleString (wordCount fullText) ++ " words.";
     advice := None |}.

(** The overall text checks. *)
Definition textChecks (proposalText : option string)
           (sections : option (list (string * string))) : list finding :=
  let fullText := fullTextOf proposalText sections in
  if isEmpty fullText then []
  else
    [totalWordCount fullText]
    ++ (if (10 <? firstPersonCount fullText)%nat then
          [{| check := "First Person Usage";
              status := warn;
              message := "Found "
                         ++ toString (Binary64.of_Z (Z.of_nat (firstPersonCount fullText)))
                         ++ " instances of " ++ dquote ++ "I" ++ dquote
                         ++ ". Most funders prefer " ++ dquote ++ "we" ++ dquote
                         ++ " or passive voice.";
              advice := Some ("Consider using " ++ dquote ++ "we" ++ dquote
                              ++ " for team applications or passive constructions.") |}]
        else [])
    ++ (if (15 <? vagueCount fullText)%nat then
          [{| check := "Vague Language";
              status := warn;
              message := "Found "
                         ++ toString (Binary64.of_Z (Z.of_nat (vagueCount fullText)))
                         ++ " instances of vague qualifiers (very, quite, somewhat, etc.).";
              advice := Some "Replace vague qualifiers with specific, evidence-based language." |}]
        else []).

(** The eligibility note. *)
Definition eligibilityNote (scheme : scheme) : list finding :=
  match eligibility scheme with
  | Some e =>
      if isEmpty e then []
      else [{| check := "Eligibility";
               status := warn;
               message := "Eligibility requirement: " ++ e;
               advice := Some "Ensure you meet this eligibility criterion before submitting." |}]
  | None => []
  end.

Definition attachmentNames : list string :=
  ["CV"; "Letter of Support"; "Ethics Approval"; "Data Management Plan"].

(** The reminder of the required attachments. *)
Definition requiredAttachments (scheme : scheme) : list finding :=
  match sections scheme with
  | Some sects =>
      let attachmentSections :=
        List.filter (fun s =>
                  existsb (fun a => includes (toLowerCase (name s)) (toLowerCase a))
                          attachmentNames)
               sects in
      if (0 <? length attachmentSections)%nat then
        [{| check := "Required Attachments";
            status := warn;
            message := "Don't forget: " ++ join ", " (map name attachmentSections);
            advice := Some "Ensure all required attachments are prepared before submission." |}]
      else []
  | None => []
  end.

(** [funderData.schemes && funderData.schemes[schemeIndex]]; an absent
    [schemeIndex] is [0]. *)
Definition selectedScheme (funderData : funderData) (schemeIndex : option Z)
  : option scheme :=
  match schemes funderData with
  | Some l =>
      let i := default 0%Z schemeIndex in
      if (i <? 0)%Z then None else l !! Z.to_nat i
  | None => None
  end.

Definition noScheme : finding :=
  {| check := "Scheme Selection";
     status := fail;
     message := "No valid scheme selected for compliance checking.";
     advice := Some "Select a specific grant scheme from the funder dropdown." |}.

(** The findings pushed on [results]: the blocks of the source, in their
    order. *)
Definition findings (proposalText : option string)
           (sections : option (list (string * string)))
           (scheme : scheme) (budget duration : jsval number) : list finding :=
  budgetMaximum scheme budget
  ++ budgetMinimum scheme budget
  ++ durationMaximum scheme duration
  ++ durationMinimum scheme duration
  ++ flat_map (sectionChecks sections proposalText)
              (default [] (Templates.sections scheme))
  ++ textChecks proposalText sections
  ++ eligibilityNote scheme
  ++ requiredAttachments scheme.

Definition overallStatus (results : list finding) : severity :=
  let hasFailures := existsb (fun r => severity_eqb (status r) fail) results in
  let hasWarnings := existsb (fun r => severity_eqb (status r) warn) results in
  if hasFailures then fail else if hasWarnings then warn else pass.

Definition runComplianceChecks (proposalText : option string)
           (sections : option (list (string * string)))
           (funderData : funderData) (schemeIndex : option Z)
           (budget duration : jsval number) : verdict :=
  match selectedScheme funderData schemeIndex with
  | None => {| overall := fail; results := [noScheme] |}
  | Some scheme =>
      let results := findings proposalText sections scheme budget duration in
      {| overall := overallStatus results; results := results |}
  end.

End Checker.

(** The findings of a verdict that carry the name [nm], in their order. *)
Definition findingsNamed (nm : string) (v : verdict) : list finding :=
  List.filter (fun f => String.eqb (check f) nm) (results v).

End Templates.

(** ** lib/pdf.js *)

Module Pdf.
Import JsString RegExp.

(** [s.replace(/c/g, by)] for a pattern that is one literal code unit and
    a replacement text without [$]. *)
Fixpoint replaceAll (c : ascii) (by_ : string) (s : string) : string :=
  match s with
  | EmptyString => EmptyString
  | String d s' =>
      if Ascii.eqb d c then by_ ++ replaceAll c by_ s'
      else String d (replaceAll c by_ s')
  end.

(** [escapeHtml] *)
Definition escapeHtml (str : string) : string :=
  replaceAll "034" "&quot;"
    (replaceAll ">" "&gt;"
       (replaceAll "<" "&lt;"
          (replaceAll "&" "&amp;" str))).

(** LineTerminator code units below U+0100: LF and CR. *)
Definition isLineTerminator (c : ascii) : bool :=
  let n := N_of_ascii c in ((n =? 10) || (n =? 13))%N.

(** The atom [.] and, for a pattern with the flag [m], the assertion [$]:
    the end of the input or a position before a line terminator. *)
Definition dot : regex := RChar (fun c => negb (isLineTerminator c)).

Definition eolM : regex := RAlt REol (RLookahead (RChar isLineTerminator)).

(** The assertion [^] of a pattern with the flag [m]: the start of the
    input or a position after a line terminator. *)
Definition atLineStart (prev : option ascii) : bool :=
  match prev with
  | None => true
  | Some c => isLineTerminator c
  end.

(** The match of a pattern at a position; [lineStart] says that the
    pattern opens with [^] under the flag [m], and [r] is what follows the
    assertion. *)
Definition matchHere (lineStart : bool) (r : regex) (prev : option ascii) (s : string)
  : option string :=
  if lineStart && negb (atLineStart prev) then None else matchAt r prev s.

(** [s.replace(r, f)] for a pattern with the flag [g]: the successive
    matches are replaced by what [f] makes of their text and the code units
    between them are kept.  [skip] counts the code units still covered by
    the previous match; after an empty match the search moves on by one
    code unit. *)
Fixpoint replaceMatches (lineStart : bool) (r : regex) (f : string -> string)
         (prev : option ascii) (s : string) (skip : nat) : string :=
  match skip with
  | S skip' =>
      match s with
      | EmptyString => EmptyString
      | String c s' => replaceMatches lineStart r f (Some c) s' skip'
      end
  | O =>
      match matchHere lineStart r prev s with
      | Some rest =>
          f (matched s rest)
          ++ match s with
             | EmptyString => EmptyString
             | String c s' =>
                 match (String.length s - String.length rest)%nat with
                 | O => String c (replaceMatches lineStart r f (Some c) s' 0)
                 | S n => replaceMatches lineStart r f (Some c) s' n
                 end
             end
      | None =>
          match s with
          | EmptyString => EmptyString
          | String c s' => String c (replaceMatches lineStart r f (Some c) s' 0)
          end
      end
  end.

(** [$1] in the replacement text of a pattern made of a prefix of [pre]
    code units, one group and a suffix of [post] code units: the text of
    the match without the prefix and the suffix. *)
Definition group (pre post : nat) (m : string) : string :=
  String.substring pre (String.length m - pre - post) m.

(** [mdToHtml], the function local to [generatePrintHTML].  The last two
    replacements, of [/^/] and of [/$/] without a flag, write at the start
    and at the end of the text. *)
Definition mdToHtml (text : string) : string :=
  if isEmpty text then EmptyString
  else
    let t1 := replaceAll "&" "&amp;" text in
    let t2 := replaceAll "<" "&lt;" t1 in
    let t3 := replaceAll ">" "&gt;" t2 in
    let t4 := replaceMatches true (RSeq (RStr RLit "### ") (RSeq (RPlus true dot) eolM))
                (fun m => "<h4>" ++ group 4 0 m ++ "</h4>") None t3 0 in
    let t5 := replaceMatches true (RSeq (RStr RLit "## ") (RSeq (RPlus true dot) eolM))
                (fun m => "<h3>" ++ group 3 0 m ++ "</h3>") None t4 0 in
    let t6 := replaceMatches true (RSeq (RStr RLit "# ") (RSeq (RPlus true dot) eolM))
                (fun m => "<h2>" ++ group 2 0 m ++ "</h2>") None t5 0 in
    let t7 := replaceMatches false
                (RSeq (RStr RLit "**") (RSeq (RPlus false dot) (RStr RLit "**")))
                (fun m => "<strong>" ++ group 2 2 m ++ "</strong>") None t6 0 in
    let t8 := replaceMatches false
                (RSeq (RLit "*") (RSeq (RPlus false dot) (RLit "*")))
                (fun m => "<em>" ++ group 1 1 m ++ "</em>") None t7 0 in
    let t9 := replaceMatches true (RSeq (RStr RLit "- ") (RSeq (RPlus true dot) eolM))
                (fun m => "<li>" ++ group 2 0 m ++ "</li>") None t8 0 in
    let t10 := replaceMatches false
                 (RPlus true
                    (RSeq (RStr RLit "<li>")
                       (RSeq (RStar true dot)
                          (RSeq (RStr RLit "</li>") (ROpt (RLit "010"))))))
                 (fun m => "<ul>" ++ m ++ "</ul>") None t9 0 in
    let t11 := replaceMatches false (RStr RLit (newline ++ newline))
                 (fun _ => "</p><p>") None t10 0 in
    let t12 := replaceAll "010" "<br>" t11 in
    "<p>" ++ t12 ++ "</p>".

Definition sectionOrder : list string :=
  ["Case for Support";
   "Background and Literature Context";
   "Research Questions and Objectives";
   "Methodology and Research Design";
   "Work Plan and Timeline";
   "Expected Outcomes and Deliverables";
   "Ethical Considerations";
   "Data Management Plan";
   "Pathways to Impact";
   "References"].

(** The markup that [generatePrintHTML] appends to [sectionsHtml] for one
    section. *)
Definition sectionBlock (sectionNum : N) (name content : string) : string :=
  newline ++ "        <div class=" ++ dquote ++ "section" ++ dquote ++ ">"
  ++ newline ++ "          <h2>" ++ pretty sectionNum ++ ". " ++ name ++ "</h2>"
  ++ newline ++ "          <div class=" ++ dquote ++ "section-content" ++ dquote ++ ">"
  ++ mdToHtml content ++ "</div>"
  ++ newline ++ "        </div>".

(** The body of the two loops over the sections: a section whose content
    is truthy is appended under the current number, which moves on. *)
Definition addSection (name : string) (content : option string) (st : string * N)
  : string * N :=
  match content with
  | Some c =>
      if isEmpty c then st
      else (fst st ++ sectionBlock (snd st) name c, (snd st + 1)%N)
  | None => st
  end.

(** [sectionsHtml] and [sectionNum] after the two loops of
    [generatePrintHTML]: first the sections of [sectionOrder], then the
    other properties of [sections] in the order of [Object.entries].  The
    object [sections] is given by its properties in that order. *)
Definition sectionsHtml (sections : list (string * string)) : string * N :=
  let standard :=
    fold_left (fun st name => addSection name (Templates.lookup_key sections name) st)
              sectionOrder (EmptyString, 1%N) in
  fold_left (fun st entry =>
               if existsb (String.eqb (fst entry)) sectionOrder then st
               else addSection (fst entry) (Some (snd entry)) st)
            sections standard.

End Pdf.

(** ** Inputs used in the examples *)

Module Examples.
Import Templates.

(** A rendering of Numbers for the examples: the decimal digits of the
    integer part. *)
Definition integerPart (x : Binary64.number) : Z :=
  match x with
  | S754_finite s m e =>
      cond_Zopp s (if (0 <=? e)%Z then Zpos m * 2 ^ e else Zpos m / 2 ^ (- e))%Z
  | _ => 0%Z
  end.

Definition digits (x : Binary64.number) : string := pretty (integerPart x).

(** A scheme that declares nothing. *)
Definition bareScheme : scheme :=
  {| maxAmount := None; minAmount := None; maxDuration := None;
     minDuration := None; sections := None; eligibility := None |}.

(** A scheme with a maximum award. *)
Definition cappedScheme (maxAmount : Binary64.number) : scheme :=
  {| maxAmount := Some maxAmount; minAmount := None; maxDuration := None;
     minDuration := None; sections := None; eligibility := None |}.

Definition caseForSupport : section :=
  {| name := "Case for Support"; required := true;
     maxWords := Some (num 2000); maxPages := Some (num 6) |}.

(** A scheme with one required section. *)
Definition sectionScheme : scheme :=
  {| maxAmount := None; minAmount := None; maxDuration := None;
     minDuration := None; sections := Some [caseForSupport];
     eligibility := None |}.

Definition funder (s : scheme) : funderData := {| schemes := Some [s] |}.

(** Requests of the budget engine. *)
Definition request {num : Type}
           (staff equipment consumables : list (gmap string (jsval num)))
  : Budget.budgetData num :=
  {| Budget.staff := Some staff; Budget.travel := None;
     Budget.equipment := Some equipment; Budget.consumables := Some consumables;
     Budget.other := None; Budget.subcontracting := None;
     Budget.costModel := None; Budget.fecRate := None;
     Budget.overheadRate := None; Budget.customRate := None |}.

Definition costOf {num : Type} (cost : num) : gmap string (jsval num) :=
  {[ "cost" := JNumber cost ]}.

(** The staff item of the worked example: a salary of 40000 at 100% for
    12 months with on-costs of 25%. *)
Definition researcher {num : Type} `{JsNumber num} : gmap string (jsval num) :=
  {[ "salary" := JNumber (num_dec false 40000 0);
     "fte" := JNumber (num_dec false 100 0);
     "months" := JNumber (num_dec false 12 0);
     "onCostRate" := JNumber (num_dec false 25 (-2)) ]}.

Definition workedExample {num : Type} `{JsNumber num} : Budget.budgetData num :=
  {| Budget.staff := Some [researcher]; Budget.travel := None;
     Budget.equipment := None; Budget.consumables := None;
     Budget.other := None; Budget.subcontracting := None;
     Budget.costModel := Some "fEC";
     Budget.fecRate := Some (num_dec false 80 0);
     Budget.overheadRate := Some (num_dec false 25 0);
     Budget.customRate := None |}.

(** A staff item whose FTE is given as 0. *)
Definition idleResearcher : gmap string (jsval Binary64.number) :=
  {[ "role" := JString "PI"; "fte" := JNumber (S754_zero false) ]}.

End Examples.

(** ** Notions used to state the properties *)

(** Words as runs of code units. *)
Module WordRuns.
Import JsString.

(** The number of maximal runs of code units that are not white space;
    [inWord] tells that the previous code unit belongs to such a run. *)
Fixpoint runs (s : string) (inWord : bool) : nat :=
  match s with
  | EmptyString => 0
  | String c s' =>
      if isWhiteSpace c then runs s' false
      else ((if inWord then 0 else 1) + runs s' true)%nat
  end.

End WordRuns.

Module Numbers.

(** The same Number: equality of the representations, which tells [0] from
    [-0]. *)
Definition same (x y : Binary64.number) : bool :=
  match x, y with
  | S754_zero a, S754_zero b => Bool.eqb a b
  | S754_infinity a, S754_infinity b => Bool.eqb a b
  | S754_nan, S754_nan => true
  | S754_finite s m e, S754_finite s' m' e' =>
      Bool.eqb s s' && Pos.eqb m m' && Z.eqb e e'
  | _, _ => false
  end.

(** The mantissa of a positive integer below [2^53], aligned on 53
    digits. *)
Definition aligned (p : positive) : positive :=
  match (53 - Zpos (digits2_pos p))%Z with
  | Zpos k => Pos.iter xO p k
  | _ => p
  end.

(** [ceil (words / 300)] on the integers. *)
Definition pagesOf (words : Z) : Z := ((words + 299) / 300)%Z.

(** [Math.ceil(words / 300)], as [estimatePages] computes it on Numbers,
    is the Number of [pagesOf words]. *)
Definition pagesAgree (words : Z) : bool :=
  same (Binary64.ceil (Binary64.div (Binary64.of_Z words) (Templates.num 300)))
       (Binary64.of_Z (pagesOf words)).

(** [p] holds of the [S count] integers from [z] on. *)
Fixpoint holdsFrom (p : Z -> bool) (count : nat) (z : Z) : bool :=
  p z && match count with
         | O => true
         | S count' => holdsFrom p count' (z + 1)%Z
         end.

End Numbers.

(** Escaped text and printed sections. *)
Module Printed.
Import JsString RegExp.

(** The code units of a text. *)
Fixpoint codeUnits (s : string) : list ascii :=
  match s with
  | EmptyString => []
  | String c s' => c :: codeUnits s'
  end.

(** The text that stands for one code unit in escaped text: the entity of
    a code unit that is special in HTML, the code unit itself otherwise. *)
Definition entityOf (c : ascii) : string :=
  if Ascii.eqb c "&" then "&amp;"
  else if Ascii.eqb c "<" then "&lt;"
  else if Ascii.eqb c ">" then "&gt;"
  else if Ascii.eqb c "034" then "&quot;"
  else String c EmptyString.

(** The text escaped in one pass. *)
Fixpoint entities (s : string) : string :=
  match s with
  | EmptyString => EmptyString
  | String c s' => entityOf c ++ entities s'
  end.

(** A pattern that can only match a text that starts with [c]. *)
Definition headed (r : regex) (c : ascii) : Prop :=
  forall (A : Type) (prev : option ascii) (s : string)
         (k : option ascii -> string -> option A),
    (forall s', s <> String c s') -> rmatch A r prev s k = None.

(** No position of [s] holds a match of the pattern. *)
Fixpoint nowhere (lineStart : bool) (r : regex) (prev : option ascii) (s : string) : Prop :=
  Pdf.matchHere lineStart r prev s = None
  /\ match s with
     | EmptyString => True
     | String c s' => nowhere lineStart r (Some c) s'
     end.

(** The sections that are rendered, in the order of the page: those of the
    standard order whose content is not empty, then the others. *)
Definition rendered (sections : list (string * string)) : list (string * string) :=
  (flat_map (fun name =>
               match Templates.lookup_key sections name with
               | Some c => if isEmpty c then [] else [(name, c)]
               | None => []
               end) Pdf.sectionOrder
   ++ List.filter (fun entry =>
                     negb (existsb (String.eqb (fst entry)) Pdf.sectionOrder)
                     && negb (isEmpty (snd entry))) sections)%list.

(** The blocks of a list of sections, numbered from [sectionNum] on. *)
Fixpoint numbered (sectionNum : N) (l : list (string * string)) : string :=
  match l with
  | [] => EmptyString
  | (name, content) :: l' =>
      Pdf.sectionBlock sectionNum name content ++ numbered (sectionNum + 1) l'
  end.

End Printed.

(** Variations of a budget request. *)
Module Requests.

Section Updates.
Context {num : Type}.

(** The request [bd] with another cost model, [fecRate] or [customRate]. *)
Definition withCostModel (bd : Budget.budgetData num) (model : option string)
  : Budget.budgetData num :=
  {| Budget.staff := Budget.staff bd; Budget.travel := Budget.travel bd;
     Budget.equipment := Budget.equipment bd;
     Budget.consumables := Budget.consumables bd;
     Budget.other := Budget.other bd;
     Budget.subcontracting := Budget.subcontracting bd;
     Budget.costModel := model; Budget.fecRate := Budget.fecRate bd;
     Budget.overheadRate := Budget.overheadRate bd;
     Budget.customRate := Budget.customRate bd |}.

Definition withFecRate (bd : Budget.budgetData num) (rate : option num)
  : Budget.budgetData num :=
  {| Budget.staff := Budget.staff bd; Budget.travel := Budget.travel bd;
     Budget.equipment := Budget.equipment bd;
     Budget.consumables := Budget.consumables bd;
     Budget.other := Budget.other bd;
     Budget.subcontracting := Budget.subcontracting bd;
     Budget.costModel := Budget.costModel bd; Budget.fecRate := rate;
     Budget.overheadRate := Budget.overheadRate bd;
     Budget.customRate := Budget.customRate bd |}.

Definition withCustomRate (bd : Budget.budgetData num) (rate : option num)
  : Budget.budgetData num :=
  {| Budget.staff := Budget.staff bd; Budget.travel := Budget.travel bd;
     Budget.equipment := Budget.equipment bd;
     Budget.consumables := Budget.consumables bd;
     Budget.other := Budget.other bd;
     Budget.subcontracting := Budget.subcontracting bd;
     Budget.costModel := Budget.costModel bd; Budget.fecRate := Budget.fecRate bd;
     Budget.overheadRate := Budget.overheadRate bd;
     Budget.customRate := rate |}.

End Updates.

(** The whole percentages from 1 to 100 whose division by 100 followed by
    the multiplication by 100 does not give them back as a Number. *)
Definition unstablePercentages : list N := [7; 14; 28; 29; 55; 56; 57; 58]%N.

(** For a staff item whose [fte] is the whole percentage [p]: the value
    read is [p], and the value written back is the same Number as [p]
    unless [p] is one of [unstablePercentages]. *)
Definition fteAgrees (p : N) : bool :=
  let given : Binary64.number := Budget.lit p in
  let read := (parseFloat (JNumber given) ||| Budget.lit 100)%js in
  let written := (read / Budget.lit 100 * Budget.lit 100)%js in
  Numbers.same read given
  && Bool.eqb (Numbers.same written given)
              (negb (existsb (N.eqb p) unstablePercentages)).

End Requests.

(** Rates that come back as they were given. *)
Module Rates.

(** For the rate [p / 100], a percentage with two decimals: the rate
    divided by 100, multiplied by 100 and rounded to two decimals is the
    same Number as the rate. *)
Definition rateAgrees (p : Z) : bool :=
  let given := Binary64.of_decimal false (Z.to_N p) (-2) in
  Numbers.same (Budget.round (given / Budget.lit 100 * Budget.lit 100)%js) given.

End Rates.

(** Amounts that are not negative, over the exact numbers. *)
Module Amounts.

(** A finite exact number that is not negative. *)
Definition notNegative (x : Exact.number) : Prop :=
  match x with
  | Exact.XFin q => (0 <= q)%Q
  | _ => False
  end.

(** [x <= y] on finite exact numbers. *)
Definition atMost (x y : Exact.number) : Prop :=
  match x, y with
  | Exact.XFin p, Exact.XFin q => (p <= q)%Q
  | _, _ => False
  end.

(** A line item none of whose properties parses to a negative number or
    to an infinity. *)
Definition plainItem (item : gmap string (jsval Exact.number)) : Prop :=
  forall k : string,
    match parseFloat (prop item k) with
    | Exact.XFin q => (0 <= q)%Q
    | Exact.XNaN => True
    | Exact.XInf _ => False
    end.

(** An overhead rate that is not negative; a share between 0 and 100. *)
Definition plainOverhead (rate : option Exact.number) : Prop :=
  match rate with
  | Some x => notNegative x
  | None => True
  end.

Definition plainShare (rate : option Exact.number) : Prop :=
  match rate with
  | Some (Exact.XFin q) => (0 <= q)%Q /\ (q <= 100)%Q
  | Some _ => False
  | None => True
  end.

Definition plainRequest (bd : Budget.budgetData Exact.number) : Prop :=
  Forall plainItem (Budget.lineItems bd)
  /\ plainOverhead (Budget.overheadRate bd)
  /\ plainShare (Budget.fecRate bd)
  /\ plainShare (Budget.customRate bd).

End Amounts.

(** Schemes used in the examples. *)
Module Samples.
Import Templates.

(** A scheme with a minimum award. *)
Definition flooredScheme (minAmount : Binary64.number) : scheme :=
  {| maxAmount := None; minAmount := Some minAmount; maxDuration := None;
     minDuration := None; sections := None; eligibility := None |}.

(** A scheme with limits on the duration. *)
Definition timedScheme (minDuration maxDuration : Binary64.number) : scheme :=
  {| maxAmount := None; minAmount := None; maxDuration := Some maxDuration;
     minDuration := Some minDuration; sections := None; eligibility := None |}.

(** A scheme with an eligibility text. *)
Definition restrictedScheme (eligibility : string) : scheme :=
  {| maxAmount := None; minAmount := None; maxDuration := None;
     minDuration := None; sections := None; eligibility := Some eligibility |}.

(** An optional section limited to three words and one page, and a scheme
    that asks for it. *)
Definition methods : section :=
  {| name := "Methods"; required := false;
     maxWords := Some (num 3); maxPages := Some (num 1) |}.

Definition limitedScheme : scheme :=
  {| maxAmount := None; minAmount := None; maxDuration := None;
     minDuration := None; sections := Some [methods]; eligibility := None |}.

End Samples.

(** ** Proof automation *)

(** Findings that do not carry a given name: the cases of a check. *)
Ltac named_cases :=
  repeat match goal with
    | |- Forall _ (let _ := _ in _) => cbv zeta
    | |- Forall _ (match ?x with _ => _ end) => destruct x
    | |- Forall _ (if ?b then _ else _) => destruct b
    | |- Forall _ (_ ++ _) => apply Forall_app_2
    | |- Forall _ [] => constructor
    | |- Forall _ (_ :: _) => constructor; [cbn [Templates.check]; congruence |]
    end.

(** The same for the checks of a section, whose names start with
    [Section: ]; [Hnm] says that the given name does not. *)
Ltac section_named_cases Hnm :=
  repeat match goal with
    | |- Forall _ (let _ := _ in _) => cbv zeta
    | |- Forall _ (match ?x with _ => _ end) => destruct x
    | |- Forall _ (if ?b then _ else _) => destruct b
    | |- Forall _ (_ ++ _) => apply Forall_app_2
    | |- Forall _ [] => constructor
    | |- Forall _ (_ :: _) =>
        constructor;
        [cbn [Templates.check]; intros <-; apply Hnm; eexists; reflexivity |]
    end.

(** A name that does not start with [Section: ]. *)
Ltac not_section_name :=
  let rest := fresh "rest" in
  let Heq := fresh "Heq" in
  intros (rest & Heq); cbn in Heq; discriminate Heq.

(** The findings of a block of the checker: the cases of a check, each
    finding handed to [tac]. *)
Ltac finding_cases tac :=
  repeat match goal with
    | |- Forall _ (let _ := _ in _) => cbv zeta
    | |- Forall _ (match ?x with _ => _ end) => destruct x
    | |- Forall _ (if ?b then _ else _) => destruct b
    | |- Forall _ (_ ++ _) => apply Forall_app_2
    | |- Forall _ [] => constructor
    | |- Forall _ (_ :: _) => constructor; [tac |]
    end.

(** The cases of a code unit of a text to escape: the four special code
    units and the others. *)
Ltac special_cases c :=
  unfold Printed.entityOf;
  destruct (Ascii.eqb_spec c "&") as [->|?];
    [|destruct (Ascii.eqb_spec c "<") as [->|?];
      [|destruct (Ascii.eqb_spec c ">") as [->|?];
        [|destruct (Ascii.eqb_spec c "034") as [->|?]]]].

(** * Properties *)

(** ** The built-ins on known values *)

(** [Math.round] rounds halves towards plus infinity and keeps the sign of
    a zero result. *)
Example Math_round_halves :
  map Binary64.round
      [Binary64.of_decimal false 25 (-1); Binary64.of_decimal true 25 (-1);
       Binary64.of_decimal false 5 (-1); Binary64.of_decimal true 5 (-1)]
  = [Binary64.of_decimal false 3 0; Binary64.of_decimal true 2 0;
     Binary64.of_decimal false 1 0; S754_zero true].
Proof. vm_compute. reflexivity. Qed.

(** [round(1.005)] is [1]: the binary64 value of [1.005 * 100] lies below
    [100.5]. *)
Example round_of_1_005 :
  Budget.round (Binary64.of_decimal false 1005 (-3)) = Binary64.of_decimal false 1 0.
Proof. vm_compute. reflexivity. Qed.

Example parseFloat_reads_a_prefix :
  parseFloat (num := Binary64.number) (JString "  12.5e1 GBP")
  = Binary64.of_decimal false 125 0
  /\ parseFloat (num := Binary64.number) (JString "n/a") = S754_nan
  /\ parseFloat (num := Binary64.number) (JString ".") = S754_nan
  /\ parseFloat (num := Binary64.number) (JString "-Infinity") = S754_infinity true
  /\ parseFloat (num := Binary64.number) (JBool true) = S754_nan.
Proof. vm_compute. repeat split; reflexivity. Qed.

Example countWords_splits_on_white_space :
  Templates.countWords ("  two" ++ JsString.newline ++ "words  ") = 2%nat
  /\ Templates.countWords "" = 0%nat
  /\ Templates.countWords "   " = 0%nat.
Proof. vm_compute. repeat split; reflexivity. Qed.

(** The heading of a section is found in the full text without regard to
    case, numbered or not; the match runs up to the next heading. *)
Example findSection_reads_a_heading :
  Templates.findSection None
    (Some ("# Summary" ++ JsString.newline ++ "## 2. Case for Support"
           ++ JsString.newline ++ "Body." ++ JsString.newline ++ "# Budget"))
    "case for support"
  = Some (JsString.newline ++ "## 2. Case for Support" ++ JsString.newline ++ "Body.").
Proof. vm_compute. reflexivity. Qed.

(** A key of the section map that contains the name answers for it. *)
Example findSection_fuzzy_key :
  Templates.findSection
    (Some [("Summary", "text"); ("The Case for Support (max 6 pages)", "body")])
    None "Case for Support"
  = Some "body".
Proof. vm_compute. reflexivity. Qed.

Example firstPersonCount_whole_words :
  Templates.firstPersonCount "I, I think; xI Ix I" = 3%nat.
Proof. vm_compute. reflexivity. Qed.

(** ** The compliance checker *)

Section FindingNames.
Import JsString RegExp Templates.
Variable toLocaleString toString : Binary64.number -> string.

Lemma selectedScheme_none (fd : funderData) (idx : option Z) :
  schemes fd = None
  \/ (exists l, schemes fd = Some l
                /\ ~ (0 <= default 0 idx < Z.of_nat (length l))%Z) ->
  selectedScheme fd idx = None.
Proof.
  unfold selectedScheme. intros [-> | (l & -> & Hout)]; [reflexivity|].
  destruct (Z.ltb_spec (default 0%Z idx) 0) as [Hneg | Hpos]; [reflexivity|].
  apply lookup_ge_None. lia.
Qed.

Lemma declared_Some (m : Binary64.number) :
  Binary64.truthy m = true -> declared (Some m) = Some m.
Proof. unfold declared. now intros ->. Qed.

(** Every finding of the budget minimum, of the two duration checks, of a
    section, of the text checks, of the eligibility note and of the
    attachment reminder carries a name of its own. *)
Local Abbreviation named nm := (Forall (fun f : finding => check f <> nm)).

Lemma named_app nm l1 l2 : named nm l1 -> named nm l2 -> named nm (l1 ++ l2).
Proof. apply Forall_app_2. Qed.

Lemma budgetMaximum_named nm s b :
  nm <> "Budget Maximum" -> named nm (budgetMaximum toLocaleString s b).
Proof. intros Hnm. unfold budgetMaximum. named_cases. Qed.

Lemma budgetMinimum_named nm s b :
  nm <> "Budget Minimum" -> named nm (budgetMinimum toLocaleString s b).
Proof. intros Hnm. unfold budgetMinimum. named_cases. Qed.

Lemma durationMaximum_named nm s d :
  nm <> "Duration" -> named nm (durationMaximum toString s d).
Proof. intros Hnm. unfold durationMaximum. named_cases. Qed.

Lemma durationMinimum_named nm s d :
  nm <> "Duration Minimum" -> named nm (durationMinimum toString s d).
Proof. intros Hnm. unfold durationMinimum. named_cases. Qed.

Lemma eligibilityNote_named nm s :
  nm <> "Eligibility" -> named nm (eligibilityNote s).
Proof. intros Hnm. unfold eligibilityNote. named_cases. Qed.

Lemma requiredAttachments_named nm s :
  nm <> "Required Attachments" -> named nm (requiredAttachments s).
Proof. intros Hnm. unfold requiredAttachments. named_cases. Qed.

(** The name of a finding of a section starts with [Section: ]. *)
Local Abbreviation sectionName nm := (exists rest, nm = "Section: " ++ rest).

Lemma sectionChecks_named nm sections proposalText r :
  ~ sectionName nm ->
  named nm (sectionChecks toString sections proposalText r).
Proof.
  intros Hnm.
  unfold sectionChecks, wordLimit, pageLimit, missingSection, presentSection.
  section_named_cases Hnm.
Qed.

Lemma sections_named nm sections proposalText l :
  ~ sectionName nm ->
  named nm (flat_map (sectionChecks toString sections proposalText) l).
Proof.
  intros Hnm. induction l as [|r l IH]; [constructor|].
  cbn [flat_map]. apply named_app; [now apply sectionChecks_named | exact IH].
Qed.

Lemma textChecks_without_total nm proposalText sections :
  nm <> "Total Word Count" -> nm <> "First Person Usage" -> nm <> "Vague Language" ->
  named nm (textChecks toLocaleString toString proposalText sections).
Proof. intros H1 H2 H3. unfold textChecks, totalWordCount. named_cases. Qed.

Lemma filter_named nm (l : list finding) :
  named nm l -> List.filter (fun f => String.eqb (check f) nm) l = [].
Proof.
  induction 1 as [|f l Hf _ IH]; [reflexivity|].
  cbn [List.filter]. destruct (String.eqb_spec (check f) nm); [contradiction | exact IH].
Qed.

Lemma findings_after_maximum proposalText sections s budget duration :
  named "Budget Maximum"
    (budgetMinimum toLocaleString s budget
     ++ durationMaximum toString s duration
     ++ durationMinimum toString s duration
     ++ flat_map (sectionChecks toString sections proposalText)
                 (default [] (Templates.sections s))
     ++ textChecks toLocaleString toString proposalText sections
     ++ eligibilityNote s
     ++ requiredAttachments s).
Proof.
  repeat apply Forall_app_2.
  - now apply budgetMinimum_named.
  - now apply durationMaximum_named.
  - now apply durationMinimum_named.
  - apply sections_named. not_section_name.
  - now apply textChecks_without_total.
  - now apply eligibilityNote_named.
  - now apply requiredAttachments_named.
Qed.

End FindingNames.

Section StringFacts.
Import JsString RegExp Templates Examples.

Lemma trimStart_length (s : string) :
  (String.length (trimStart s) <= String.length s)%nat.
Proof.
  induction s as [|c s IH]; cbn [trimStart]; [lia|].
  destruct (isWhiteSpace c); cbn [String.length]; lia.
Qed.

Lemma trimEnd_length (s : string) :
  (String.length (trimEnd s) <= String.length s)%nat.
Proof.
  induction s as [|c s IH]; cbn [trimEnd]; [lia|].
  destruct (trimEnd s) as [|d t].
  - destruct (isWhiteSpace c); cbn [String.length]; lia.
  - cbn [String.length] in *. lia.
Qed.

Lemma trim_length (s : string) :
  (String.length (trim s) <= String.length s)%nat.
Proof.
  unfold trim. pose proof (trimEnd_length (trimStart s)).
  pose proof (trimStart_length s). lia.
Qed.

Lemma isEmpty_true (s : string) : isEmpty s = true <-> s = "".
Proof. destruct s; cbn; split; congruence. Qed.

End StringFacts.

(** C2: when no scheme is resolvable, that is when [funderData] has no
    [schemes] array or the array has no entry at [schemeIndex], the verdict
    is exactly [overall = fail] with the single finding "Scheme Selection",
    whose status is [fail]; none of the other checks contributes. *)
Theorem C2_no_scheme_short_circuits :
  forall (toLocaleString toString : Binary64.number -> string)
         (proposalText : option string) (sections : option (list (string * string)))
         (fd : Templates.funderData) (idx : option Z)
         (budget duration : jsval Binary64.number),
    Templates.schemes fd = None
    \/ (exists l, Templates.schemes fd = Some l
                  /\ ~ (0 <= default 0 idx < Z.of_nat (length l))%Z) ->
    Templates.runComplianceChecks toLocaleString toString proposalText sections
      fd idx budget duration
    = {| Templates.overall := Templates.fail;
         Templates.results := [Templates.noScheme] |}
    /\ Templates.status Templates.noScheme = Templates.fail.
Proof.
  intros tls ts pt secs fd idx b d Hnone. split; [|reflexivity].
  unfold Templates.runComplianceChecks.
  now rewrite (selectedScheme_none fd idx Hnone).
Qed.

Lemma C2_no_scheme_short_circuits_witness :
  Templates.runComplianceChecks Examples.digits Examples.digits (Some "# Case for Support")
    None {| Templates.schemes := None |} (Some 3%Z) (JNumber (Templates.num 1000)) JUndefined
  = {| Templates.overall := Templates.fail;
       Templates.results := [Templates.noScheme] |}
  /\ Templates.status Templates.noScheme = Templates.fail.
Proof.
  apply C2_no_scheme_short_circuits. left. reflexivity.
Defined.

(** C10: when the selected scheme exists but declares no [maxAmount],
    [minAmount], [maxDuration], [minDuration], [sections] or [eligibility],
    and neither a proposal text nor section values are supplied, the verdict
    is [overall = pass] with an empty list of findings. *)
Theorem C10_bare_scheme_passes_without_findings :
  forall (toLocaleString toString : Binary64.number -> string)
         (proposalText : option string) (sections : option (list (string * string)))
         (fd : Templates.funderData) (idx : option Z)
         (budget duration : jsval Binary64.number) (scheme : Templates.scheme),
    Templates.selectedScheme fd idx = Some scheme ->
    Templates.maxAmount scheme = None ->
    Templates.minAmount scheme = None ->
    Templates.maxDuration scheme = None ->
    Templates.minDuration scheme = None ->
    Templates.sections scheme = None ->
    Templates.eligibility scheme = None ->
    proposalText = None \/ proposalText = Some "" ->
    sections = None \/ sections = Some [] ->
    Templates.runComplianceChecks toLocaleString toString proposalText sections
      fd idx budget duration
    = {| Templates.overall := Templates.pass; Templates.results := [] |}.
Proof.
  intros tls ts pt secs fd idx b d s Hsel HmaxA HminA HmaxD HminD Hsecs Helig Hpt Hsecs'.
  unfold Templates.runComplianceChecks. rewrite Hsel.
  assert (Hres : Templates.findings tls ts pt secs s b d = []).
  { unfold Templates.findings, Templates.budgetMaximum, Templates.budgetMinimum,
      Templates.durationMaximum, Templates.durationMinimum,
      Templates.eligibilityNote, Templates.requiredAttachments,
      Templates.textChecks, Templates.fullTextOf.
    rewrite HmaxA, HminA, HmaxD, HminD, Hsecs, Helig.
    destruct Hpt as [-> | ->], Hsecs' as [-> | ->]; reflexivity. }
  rewrite Hres. reflexivity.
Qed.

Lemma C10_bare_scheme_passes_without_findings_witness :
  Templates.runComplianceChecks Examples.digits Examples.digits None None
    (Examples.funder Examples.bareScheme) None (JNumber (Templates.num 50000))
    (JNumber (Templates.num 36))
  = {| Templates.overall := Templates.pass; Templates.results := [] |}.
Proof.
  apply (C10_bare_scheme_passes_without_findings Examples.digits Examples.digits
           None None (Examples.funder Examples.bareScheme) None
           (JNumber (Templates.num 50000)) (JNumber (Templates.num 36))
           Examples.bareScheme);
    try reflexivity; left; reflexivity.
Defined.

Section RunShape.
Import Templates.
Variable toLocaleString toString : Binary64.number -> string.

Lemma results_of_run proposalText sections fd idx budget duration scheme :
  selectedScheme fd idx = Some scheme ->
  results (runComplianceChecks toLocaleString toString proposalText sections
             fd idx budget duration)
  = findings toLocaleString toString proposalText sections scheme budget duration.
Proof. intros Hsel. unfold runComplianceChecks. now rewrite Hsel. Qed.

Lemma budgetMaximum_declared scheme budget m :
  maxAmount scheme = Some m ->
  Binary64.truthy m = true ->
  exists f,
    budgetMaximum toLocaleString scheme budget = [f]
    /\ check f = "Budget Maximum"
    /\ status f =
         (if Binary64.gt (parsedOrZero budget) m then fail
          else if Binary64.gt (parsedOrZero budget)
                    (Binary64.mul m (Binary64.of_decimal false 95 (-2)))
               then warn
               else pass).
Proof.
  intros Hm Ht. unfold budgetMaximum. rewrite Hm, (declared_Some m Ht). cbv zeta.
  destruct (Binary64.gt (parsedOrZero budget) m);
    [|destruct (Binary64.gt (parsedOrZero budget) _)];
    eexists; repeat split.
Qed.

Lemma budgetMaximum_statuses proposalText sections fd idx budget duration scheme m :
  selectedScheme fd idx = Some scheme ->
  maxAmount scheme = Some m ->
  Binary64.truthy m = true ->
  map status
      (findingsNamed "Budget Maximum"
         (runComplianceChecks toLocaleString toString proposalText sections
            fd idx budget duration))
  = [if Binary64.gt (parsedOrZero budget) m then fail
     else if Binary64.gt (parsedOrZero budget)
               (Binary64.mul m (Binary64.of_decimal false 95 (-2)))
          then warn
          else pass].
Proof.
  intros Hsel Hm Ht. unfold findingsNamed.
  rewrite (results_of_run _ _ _ _ _ _ _ Hsel). unfold findings.
  destruct (budgetMaximum_declared scheme budget m Hm Ht) as (f & -> & Hc & Hs).
  cbn [app List.filter]. rewrite Hc. cbn [String.eqb Ascii.eqb Bool.eqb].
  rewrite filter_named by apply findings_after_maximum.
  cbn [map]. now rewrite Hs.
Qed.

End RunShape.

(** C4 (amended): on every run with a resolvable scheme that declares a
    non-zero [maxAmount], exactly one finding named "Budget Maximum" is
    emitted: [fail] if the requested amount exceeds [maxAmount], [warn] if it
    is greater than [maxAmount * 0.95] without exceeding [maxAmount], [pass]
    otherwise.  With [maxAmount = 100000] a budget of 100001 gives [fail],
    96000 gives [warn] and 50000 gives [pass]. *)
Theorem C4_budget_maximum_one_finding :
  (forall (toLocaleString toString : Binary64.number -> string)
          (proposalText : option string) (sections : option (list (string * string)))
          (fd : Templates.funderData) (idx : option Z)
          (budget duration : jsval Binary64.number)
          (scheme : Templates.scheme) (m : Binary64.number),
      Templates.selectedScheme fd idx = Some scheme ->
      Templates.maxAmount scheme = Some m ->
      Binary64.truthy m = true ->
      map Templates.status
          (Templates.findingsNamed "Budget Maximum"
             (Templates.runComplianceChecks toLocaleString toString proposalText
                sections fd idx budget duration))
      = [if Binary64.gt (Templates.parsedOrZero budget) m then Templates.fail
         else if Binary64.gt (Templates.parsedOrZero budget)
                   (Binary64.mul m (Binary64.of_decimal false 95 (-2)))
              then Templates.warn
              else Templates.pass])
  /\ (forall (toLocaleString toString : Binary64.number -> string)
             (proposalText : option string)
             (sections : option (list (string * string)))
             (duration : jsval Binary64.number),
         let statuses (amount : N) :=
           map Templates.status
               (Templates.findingsNamed "Budget Maximum"
                  (Templates.runComplianceChecks toLocaleString toString
                     proposalText sections
                     (Examples.funder (Examples.cappedScheme (Templates.num 100000)))
                     None (JNumber (Templates.num amount)) duration)) in
         statuses 100001%N = [Templates.fail]
         /\ statuses 96000%N = [Templates.warn]
         /\ statuses 50000%N = [Templates.pass]).
Proof.
  split.
  - intros tls ts pt secs fd idx b d s m Hsel Hm Ht.
    exact (budgetMaximum_statuses tls ts pt secs fd idx b d s m Hsel Hm Ht).
  - intros tls ts pt secs d statuses. subst statuses. cbv beta.
    rewrite !(budgetMaximum_statuses tls ts pt secs _ None _ d
                (Examples.cappedScheme (Templates.num 100000)) (Templates.num 100000))
      by reflexivity.
    repeat split; vm_compute; reflexivity.
Qed.

Lemma C4_budget_maximum_one_finding_witness :
  map Templates.status
      (Templates.findingsNamed "Budget Maximum"
         (Templates.runComplianceChecks Examples.digits Examples.digits None None
            (Examples.funder (Examples.cappedScheme (Templates.num 250000)))
            (Some 0%Z) (JString "240000.50") JUndefined))
  = [Templates.warn].
Proof.
  apply (proj1 C4_budget_maximum_one_finding Examples.digits Examples.digits None None
           (Examples.funder (Examples.cappedScheme (Templates.num 250000)))
           (Some 0%Z) (JString "240000.50") JUndefined
           (Examples.cappedScheme (Templates.num 250000)) (Templates.num 250000));
    reflexivity.
Defined.

(** The claim C4 as stated fails for a scheme that declares [maxAmount = 0]:
    the guard [if (scheme.maxAmount)] skips the check, so that no finding
    named "Budget Maximum" is emitted, where the claim asks for exactly
    one. *)
Lemma C4_counterexample_zero_maximum :
  let verdict :=
    Templates.runComplianceChecks Examples.digits Examples.digits None None
      (Examples.funder (Examples.cappedScheme (Templates.num 0)))
      None (JNumber (Templates.num 50000)) JUndefined in
  Templates.maxAmount (Examples.cappedScheme (Templates.num 0)) = Some (S754_zero false)
  /\ Templates.findingsNamed "Budget Maximum" verdict = []
  /\ ~ (exists f, Templates.findingsNamed "Budget Maximum" verdict = [f]).
Proof.
  cbv zeta. repeat split; try reflexivity.
  intros (f & Hf). vm_compute in Hf. discriminate Hf.
Qed.

Section SectionShape.
Import JsString Templates.
Variable toLocaleString toString : Binary64.number -> string.

Lemma sectionChecks_missing sections proposalText r :
  required r = true ->
  (findSection sections proposalText (name r) = None
   \/ exists t, findSection sections proposalText (name r) = Some t
                /\ (String.length t < 50)%nat) ->
  sectionChecks toString sections proposalText r = [missingSection r].
Proof.
  intros Hreq Hmiss. unfold sectionChecks. cbv zeta. rewrite Hreq. cbn [andb].
  destruct Hmiss as [-> | (t & -> & Hlen)]; [reflexivity|].
  change (textOf (Some t)) with t.
  assert (Hshort : (String.length (trim t) <? 50)%nat = true).
  { apply Nat.ltb_lt. pose proof (trim_length t). lia. }
  rewrite Hshort, orb_true_r. reflexivity.
Qed.

(** A section is unresolved when the section map has neither a direct nor
    a usable fuzzy match for its name and the full text has no heading for
    it. *)
Lemma findSection_unresolved (sections : option (list (string * string)))
      (proposalText : option string) (nm : string) :
  (forall sects, sections = Some sects ->
                 directMatch sects nm = None
                 /\ (fuzzyKey sects nm = None \/ fuzzyKey sects nm = Some "")) ->
  headingMatch proposalText nm = None ->
  findSection sections proposalText nm = None.
Proof.
  intros Hmap Htext. unfold findSection.
  destruct sections as [sects|]; [|exact Htext].
  destruct (Hmap sects eq_refl) as (-> & [-> | ->]); exact Htext.
Qed.

Lemma findSection_absent (sections : option (list (string * string)))
      (proposalText : option string) (nm : string) :
  sections = None \/ sections = Some [] ->
  proposalText = None \/ proposalText = Some "" ->
  findSection sections proposalText nm = None.
Proof. intros [-> | ->] [-> | ->]; reflexivity. Qed.

Lemma textChecks_total proposalText sections :
  fullTextOf proposalText sections <> "" ->
  List.filter (fun g => String.eqb (check g) "Total Word Count")
    (textChecks toLocaleString toString proposalText sections)
  = [totalWordCount toLocaleString (fullTextOf proposalText sections)].
Proof.
  intros Hne. unfold textChecks. cbv zeta.
  destruct (isEmpty (fullTextOf proposalText sections)) eqn:Hempty.
  { apply isEmpty_true in Hempty. contradiction. }
  cbn [app List.filter totalWordCount check String.eqb Ascii.eqb Bool.eqb andb].
  f_equal. apply filter_named.
  apply Forall_app_2;
    match goal with
    | |- Forall _ (if ?c then _ else _) =>
        destruct c; repeat constructor; cbn [check]; discriminate
    end.
Qed.

Lemma textChecks_empty proposalText sections :
  fullTextOf proposalText sections = "" ->
  textChecks toLocaleString toString proposalText sections = [].
Proof. intros Hempty. unfold textChecks. cbv zeta. now rewrite Hempty. Qed.

Lemma total_word_count_findings proposalText sections fd idx budget duration scheme :
  selectedScheme fd idx = Some scheme ->
  findingsNamed "Total Word Count"
    (runComplianceChecks toLocaleString toString proposalText sections
       fd idx budget duration)
  = List.filter (fun g => String.eqb (check g) "Total Word Count")
      (textChecks toLocaleString toString proposalText sections).
Proof.
  intros Hsel. unfold findingsNamed.
  rewrite (results_of_run toLocaleString toString _ _ _ _ _ _ _ Hsel).
  unfold findings. rewrite !List.filter_app.
  rewrite (filter_named _ (budgetMaximum _ _ _)) by now apply budgetMaximum_named.
  rewrite (filter_named _ (budgetMinimum _ _ _)) by now apply budgetMinimum_named.
  rewrite (filter_named _ (durationMaximum _ _ _)) by now apply durationMaximum_named.
  rewrite (filter_named _ (durationMinimum _ _ _)) by now apply durationMinimum_named.
  rewrite (filter_named _ (flat_map _ _))
    by (apply sections_named; intros (rest & Heq); cbn in Heq; discriminate Heq).
  rewrite (filter_named _ (eligibilityNote _)) by now apply eligibilityNote_named.
  rewrite (filter_named _ (requiredAttachments _)) by now apply requiredAttachments_named.
  cbn [app]. now rewrite app_nil_r.
Qed.

End SectionShape.



(** C7 (amended): on every run that passes the scheme validity step, the
    text checked is the proposal text or, when that is absent or empty, the
    section values joined by line feeds.  When this text is not empty,
    exactly one finding named "Total Word Count" is emitted; it has status
    [pass] and its message reports the word count of the text.  When the
    text is empty no such finding is emitted. *)
Theorem C7_total_word_count_when_text :
  forall (toLocaleString toString : Binary64.number -> string)
         (proposalText : option string) (sections : option (list (string * string)))
         (fd : Templates.funderData) (idx : option Z)
         (budget duration : jsval Binary64.number) (scheme : Templates.scheme),
    Templates.selectedScheme fd idx = Some scheme ->
    let fullText := Templates.fullTextOf proposalText sections in
    let emitted :=
      Templates.findingsNamed "Total Word Count"
        (Templates.runComplianceChecks toLocaleString toString proposalText sections
           fd idx budget duration) in
    (forall t, proposalText = Some t -> t <> "" -> fullText = t)
    /\ (proposalText = None \/ proposalText = Some "" ->
        fullText = JsString.join JsString.newline (map snd (default [] sections)))
    /\ (fullText <> "" ->
        emitted = [Templates.totalWordCount toLocaleString fullText]
        /\ Templates.status (Templates.totalWordCount toLocaleString fullText)
           = Templates.pass
        /\ Templates.message (Templates.totalWordCount toLocaleString fullText)
           = "Total proposal text: "
             ++ toLocaleString (Binary64.of_Z (Z.of_nat (Templates.countWords fullText)))
             ++ " words.")
    /\ (fullText = "" -> emitted = []).
Proof.
  intros tls ts pt secs fd idx b d s Hsel fullText emitted.
  repeat split.
  - intros t -> Ht. subst fullText. unfold Templates.fullTextOf.
    now destruct t.
  - intros [-> | ->]; reflexivity.
  - subst emitted.
    rewrite (total_word_count_findings tls ts pt secs fd idx b d s Hsel).
    now apply textChecks_total.
  - intros Hempty. subst emitted.
    rewrite (total_word_count_findings tls ts pt secs fd idx b d s Hsel).
    now rewrite textChecks_empty.
Qed.

Lemma C7_total_word_count_when_text_witness :
  Templates.findingsNamed "Total Word Count"
    (Templates.runComplianceChecks Examples.digits Examples.digits
       (Some "We will study I and we.") None
       (Examples.funder Examples.bareScheme) None JUndefined JUndefined)
  = [{| Templates.check := "Total Word Count";
        Templates.status := Templates.pass;
        Templates.message := "Total proposal text: 6 words.";
        Templates.advice := None |}].
Proof.
  pose proof (C7_total_word_count_when_text Examples.digits Examples.digits
                (Some "We will study I and we.") None
                (Examples.funder Examples.bareScheme) None JUndefined JUndefined
                Examples.bareScheme eq_refl) as (_ & _ & Hemit & _).
  destruct Hemit as (Hemit & _); [discriminate|].
  exact Hemit.
Defined.

(** The claim C7 as stated fails when the proposal text and the section
    values are both empty: the results hold no finding at all, and so no
    [pass] finding named "Total Word Count". *)
Lemma C7_counterexample_empty_text :
  let verdict :=
    Templates.runComplianceChecks Examples.digits Examples.digits (Some "") (Some [])
      (Examples.funder Examples.bareScheme) None JUndefined JUndefined in
  Templates.results verdict = []
  /\ ~ (exists f, In f (Templates.results verdict)
                  /\ Templates.check f = "Total Word Count"
                  /\ Templates.status f = Templates.pass).
Proof.
  cbv zeta. split; [reflexivity|].
  intros (f & Hin & _). vm_compute in Hin. exact Hin.
Qed.

(** ** The budget engine *)

Section ObjectFacts.
Context {num : Type} `{JsNumber num}.
Implicit Types (item : gmap string (jsval num)) (k : string).

Lemma prop_insert_eq item k v : prop (<[k := v]> item) k = v.
Proof. unfold prop. now rewrite lookup_insert_eq. Qed.

Lemma prop_insert_ne item k k' v : k <> k' -> prop (<[k := v]> item) k' = prop item k'.
Proof. intros Hne. unfold prop. now rewrite lookup_insert_ne. Qed.

Lemma numberOf_insert_eq item k x : numberOf (<[k := JNumber x]> item) k = x.
Proof. unfold numberOf. now rewrite lookup_insert_eq. Qed.

Lemma staffItem_total item :
  numberOf (Budget.staffItem item) "total"
  = (let baseSalary := parseFloat (prop item "salary") ||| Budget.lit 0 in
     let fte := (parseFloat (prop item "fte") ||| Budget.lit 100) / Budget.lit 100 in
     let months := parseFloat (prop item "months") ||| Budget.lit 0 in
     let onCostRate :=
       parseFloat (prop item "onCostRate") ||| Budget.DEFAULT_ON_COST_RATE in
     let totalBase := baseSalary * fte / Budget.lit 12 * months in
     Budget.round (totalBase + totalBase * onCostRate))%js.
Proof. unfold Budget.staffItem. cbv zeta. now rewrite numberOf_insert_eq. Qed.

Lemma travelItem_total item :
  numberOf (Budget.travelItem item) "total"
  = (Budget.round ((parseFloat (prop item "costPerTrip") ||| Budget.lit 0)
                   * (parseFloat (prop item "numTrips") ||| Budget.lit 1)))%js.
Proof. unfold Budget.travelItem. cbv zeta. now rewrite numberOf_insert_eq. Qed.

Lemma costItem_total item :
  numberOf (Budget.costItem item) "total"
  = (Budget.round (parseFloat (prop item "cost") ||| Budget.lit 0))%js.
Proof. unfold Budget.costItem. now rewrite numberOf_insert_eq. Qed.

Lemma staffItem_other_fields item k :
  k ∉ Budget.staffWritten -> Budget.staffItem item !! k = item !! k.
Proof.
  intros Hk. unfold Budget.staffWritten in Hk.
  rewrite !not_elem_of_cons in Hk. destruct Hk as (? & ? & ? & ? & ? & ? & _).
  unfold Budget.staffItem. cbv zeta.
  now rewrite !lookup_insert_ne by congruence.
Qed.

Lemma travelItem_other_fields item k :
  k <> "total" -> Budget.travelItem item !! k = item !! k.
Proof. intros Hk. unfold Budget.travelItem. cbv zeta. now rewrite lookup_insert_ne. Qed.

Lemma costItem_other_fields item k :
  k <> "total" -> Budget.costItem item !! k = item !! k.
Proof. intros Hk. unfold Budget.costItem. now rewrite lookup_insert_ne. Qed.

Lemma staffItem_dom item :
  dom (Budget.staffItem item) = list_to_set Budget.staffWritten ∪ dom item.
Proof.
  unfold Budget.staffItem, Budget.staffWritten. cbv zeta.
  rewrite !dom_insert_L. cbn [list_to_set]. set_solver.
Qed.

Lemma travelItem_dom item : dom (Budget.travelItem item) = {["total"]} ∪ dom item.
Proof. unfold Budget.travelItem. cbv zeta. now rewrite dom_insert_L. Qed.

Lemma costItem_dom item : dom (Budget.costItem item) = {["total"]} ∪ dom item.
Proof. unfold Budget.costItem. now rewrite dom_insert_L. Qed.

Lemma Forall2_map_self {A B : Type} (R : A -> B -> Prop) (f : A -> B) (l : list A) :
  (forall x, R x (f x)) -> Forall2 R l (map f l).
Proof. intros HR. induction l; cbn; constructor; auto. Qed.

End ObjectFacts.





Section ExactFacts.

(** The value of an integer literal over the exact numbers. *)
Lemma lit_exact (n : N) :
  Budget.lit (num := Exact.number) n = Exact.XFin (inject_Z (Z.of_N n) * 1)%Q.
Proof. reflexivity. Qed.

Lemma exact_add (p q : Q) :
  (Exact.XFin p + Exact.XFin q)%js = Exact.XFin (p + q)%Q.
Proof. reflexivity. Qed.

Lemma exact_sub (p q : Q) :
  (Exact.XFin p - Exact.XFin q)%js = Exact.XFin (p + - q)%Q.
Proof. reflexivity. Qed.

Lemma exact_mul (p q : Q) :
  (Exact.XFin p * Exact.XFin q)%js = Exact.XFin (p * q)%Q.
Proof. reflexivity. Qed.

Lemma exact_div_lit (q : Q) (p : positive) :
  (Exact.XFin q / Budget.lit (Npos p))%js
  = Exact.XFin (q / (inject_Z (Zpos p) * 1))%Q.
Proof. reflexivity. Qed.

Lemma round_exact (q : Q) :
  Budget.round (Exact.XFin q)
  = Exact.XFin
      (inject_Z (Qfloor (q * (inject_Z 100 * 1) + (1 # 2))) / (inject_Z 100 * 1))%Q.
Proof. reflexivity. Qed.

Lemma round_exact_round2 (q : Q) :
  Exact.eq (Budget.round (Exact.XFin q)) (Exact.XFin (Exact.round2 q)).
Proof.
  rewrite round_exact. unfold Exact.eq, Exact.round2.
  assert (Hq : (q * (inject_Z 100 * 1) + (1 # 2) == q * 100 + (1 # 2))%Q) by ring.
  rewrite Hq. field.
Qed.

Lemma round2_comp (p q : Q) : (p == q)%Q -> (Exact.round2 p == Exact.round2 q)%Q.
Proof. intros Hpq. unfold Exact.round2. now rewrite Hpq. Qed.

Lemma staff_total_exact (item : gmap string (jsval Exact.number)) (s f m r : Q) :
  (parseFloat (prop item "salary") ||| Budget.lit 0)%js = Exact.XFin s ->
  (parseFloat (prop item "fte") ||| Budget.lit 100)%js = Exact.XFin f ->
  (parseFloat (prop item "months") ||| Budget.lit 0)%js = Exact.XFin m ->
  (parseFloat (prop item "onCostRate") ||| Budget.DEFAULT_ON_COST_RATE)%js
  = Exact.XFin r ->
  Exact.eq (numberOf (Budget.staffItem item) "total")
           (Exact.XFin (Exact.round2 ((s * (f / 100) / 12 * m) * (1 + r)))).
Proof.
  intros Hs Hf Hm Hr. rewrite staffItem_total. cbv zeta.
  rewrite Hs, Hf, Hm, Hr.
  repeat (rewrite exact_div_lit || rewrite exact_mul || rewrite exact_add).
  match goal with
  | |- Exact.eq (Budget.round (Exact.XFin ?q)) _ =>
      pose proof (round_exact_round2 q) as Hround;
      destruct (Budget.round (Exact.XFin q)) as [| |p]; try contradiction
  end.
  cbn [Exact.eq] in *. rewrite Hround. apply round2_comp. field.
Qed.

End ExactFacts.



Section SplitFacts.

Lemma Qfloor_half (z : Z) : Qfloor (inject_Z z + (1 # 2)) = z.
Proof.
  unfold Qfloor, Qplus, inject_Z. cbn.
  symmetry. apply (Z.div_unique _ _ _ 1); lia.
Qed.

Lemma finite_inv (x : Exact.number) :
  Exact.isFinite x = true -> exists q, x = Exact.XFin q.
Proof. destruct x; try discriminate. eauto. Qed.

Lemma round_finite (x : Exact.number) :
  Exact.isFinite x = true -> Exact.isFinite (Budget.round x) = true.
Proof. intros (q & ->)%finite_inv. reflexivity. Qed.

Lemma add_finite (x y : Exact.number) :
  Exact.isFinite x = true -> Exact.isFinite y = true ->
  Exact.isFinite (x + y)%js = true.
Proof. intros (p & ->)%finite_inv (q & ->)%finite_inv. reflexivity. Qed.

Lemma mul_finite (x y : Exact.number) :
  Exact.isFinite x = true -> Exact.isFinite y = true ->
  Exact.isFinite (x * y)%js = true.
Proof. intros (p & ->)%finite_inv (q & ->)%finite_inv. reflexivity. Qed.

Lemma div_lit_finite (x : Exact.number) (p : positive) :
  Exact.isFinite x = true -> Exact.isFinite (x / Budget.lit (Npos p))%js = true.
Proof. intros (q & ->)%finite_inv. reflexivity. Qed.

Lemma default_finite (v : jsval Exact.number) (d : Exact.number) :
  Exact.isInfinite (parseFloat v) = false ->
  Exact.isFinite d = true ->
  Exact.isFinite (parseFloat v ||| d)%js = true.
Proof.
  intros Hv Hd. destruct (parseFloat v) as [| |q]; try discriminate.
  - exact Hd.
  - cbn [ToBoolean exact Exact.truthy]. now destruct (negb (Exact.isZero q)).
Qed.

(** The split of a full economic cost that is a rounded finite amount, at
    a finite rate. *)
Lemma split_exact (q rate : Q) :
  let fullEconomicCost := Budget.round (Exact.XFin q) in
  let funderContribution := Budget.round (fullEconomicCost * Exact.XFin rate)%js in
  let institutionContribution :=
    Budget.round (fullEconomicCost - funderContribution)%js in
  Exact.eq (institutionContribution + funderContribution)%js fullEconomicCost.
Proof.
  cbv zeta. rewrite (round_exact q).
  set (a := Qfloor (q * (inject_Z 100 * 1) + (1 # 2))).
  rewrite exact_mul, round_exact.
  set (b := Qfloor (inject_Z a / (inject_Z 100 * 1) * rate * (inject_Z 100 * 1) + (1 # 2))).
  rewrite exact_sub, round_exact.
  assert (Hd : Qfloor ((inject_Z a / (inject_Z 100 * 1)
                        + - (inject_Z b / (inject_Z 100 * 1)))
                       * (inject_Z 100 * 1) + (1 # 2)) = (a - b)%Z).
  { rewrite <- (Qfloor_half (a - b)). apply Qfloor_comp.
    unfold Z.sub. rewrite inject_Z_plus, inject_Z_opp. field. }
  rewrite Hd, exact_add. cbn [Exact.eq].
  unfold Z.sub. rewrite inject_Z_plus, inject_Z_opp. field.
Qed.

Lemma split_full (q : Q) :
  Exact.eq (Budget.lit 0 + Budget.round (Exact.XFin q))%js
           (Budget.round (Exact.XFin q)).
Proof. rewrite round_exact, lit_exact, exact_add. cbn [Exact.eq]. ring. Qed.

End SplitFacts.

Section FiniteRequests.
Implicit Types (item : gmap string (jsval Exact.number)).

Lemma lit_finite (n : N) : Exact.isFinite (Budget.lit n) = true.
Proof. reflexivity. Qed.

Lemma staffItem_finite item :
  Budget.finiteItem item ->
  Exact.isFinite (numberOf (Budget.staffItem item) "total") = true.
Proof.
  intros Hitem. rewrite staffItem_total. cbv zeta.
  apply round_finite.
  assert (Hbase : Exact.isFinite
            ((parseFloat (prop item "salary") ||| Budget.lit 0)
             * ((parseFloat (prop item "fte") ||| Budget.lit 100) / Budget.lit 100)
             / Budget.lit 12
             * (parseFloat (prop item "months") ||| Budget.lit 0))%js = true).
  { apply mul_finite; [apply div_lit_finite, mul_finite; [|apply div_lit_finite]|];
      apply default_finite; auto using lit_finite. }
  apply add_finite; [exact Hbase|].
  apply mul_finite; [exact Hbase|].
  apply default_finite; [apply Hitem | reflexivity].
Qed.

Lemma travelItem_finite item :
  Budget.finiteItem item ->
  Exact.isFinite (numberOf (Budget.travelItem item) "total") = true.
Proof.
  intros Hitem. rewrite travelItem_total.
  apply round_finite, mul_finite; apply default_finite; auto using lit_finite.
Qed.

Lemma costItem_finite item :
  Budget.finiteItem item ->
  Exact.isFinite (numberOf (Budget.costItem item) "total") = true.
Proof.
  intros Hitem. rewrite costItem_total.
  apply round_finite, default_finite; auto using lit_finite.
Qed.

Lemma fold_finite (l : list Exact.number) (acc : Exact.number) :
  Forall (fun x => Exact.isFinite x = true) l ->
  Exact.isFinite acc = true ->
  Exact.isFinite (fold_left (fun a b => a + b)%js l acc) = true.
Proof.
  intros Hl. revert acc. induction Hl as [|x l Hx _ IH]; intros acc Hacc; [exact Hacc|].
  cbn [fold_left]. apply IH. now apply add_finite.
Qed.

Lemma sum_finite (f : gmap string (jsval Exact.number) -> gmap string (jsval Exact.number))
      (l : list (gmap string (jsval Exact.number))) :
  (forall item, Budget.finiteItem item ->
                Exact.isFinite (numberOf (f item) "total") = true) ->
  Forall Budget.finiteItem l ->
  Exact.isFinite (Budget.sum (Budget.totals (map f l))) = true.
Proof.
  intros Hf Hl. unfold Budget.sum, Budget.totals.
  apply round_finite, fold_finite; [|reflexivity].
  induction Hl as [|item l Hitem _ IH]; cbn [map]; constructor; auto.
Qed.

Lemma rate_finite (rate : option Exact.number) (n : N) :
  Budget.finiteRate rate -> Exact.isFinite (default (Budget.lit n) rate) = true.
Proof. destruct rate as [x|]; [intros Hx; exact Hx | reflexivity]. Qed.

End FiniteRequests.

Section SummaryFacts.

Lemma binary64_eq_refl (x : Binary64.number) :
  Binary64.isNaN x = false -> Binary64.eq x x = true.
Proof.
  destruct x as [s|s| |s m e]; try discriminate; intros _;
    unfold Binary64.eq, SFeqb, SFcompare.
  - reflexivity.
  - now destruct s.
  - rewrite Z.compare_refl, Pos.compare_cont_refl. now destruct s.
Qed.

Lemma binary64_zero_add (x : Binary64.number) :
  Binary64.isNaN x = false ->
  Binary64.eq (S754_zero false + x)%js x = true.
Proof.
  intros Hx. destruct x as [s|s| |s m e]; try discriminate.
  - now destruct s.
  - now destruct s.
  - apply (binary64_eq_refl (S754_finite s m e)). reflexivity.
Qed.

Lemma full_model_binary64 (bd : Budget.budgetData Binary64.number) :
  Budget.costModel bd = Some "full" ->
  let s := Budget.out_summary (Budget.calculateBudget bd) in
  Budget.funderContribution s = Budget.fullEconomicCost s
  /\ Budget.institutionContribution s = S754_zero false
  /\ (Binary64.isNaN (Budget.fullEconomicCost s) = false ->
      Binary64.eq (Budget.institutionContribution s + Budget.funderContribution s)%js
                  (Budget.fullEconomicCost s) = true).
Proof.
  intros Hmodel. unfold Budget.calculateBudget. rewrite Hmodel. cbv zeta.
  cbn [from_option id String.eqb Ascii.eqb Bool.eqb Budget.out_summary
       Budget.funderContribution Budget.institutionContribution
       Budget.fullEconomicCost].
  repeat split. apply binary64_zero_add.
Qed.

Lemma contributions_exact (bd : Budget.budgetData Exact.number) :
  Budget.finiteRequest bd ->
  let s := Budget.out_summary (Budget.calculateBudget bd) in
  Exact.eq (Budget.institutionContribution s + Budget.funderContribution s)%js
           (Budget.fullEconomicCost s).
Proof.
  intros (Hitems & Hfec & Hover & Hcustom).
  unfold Budget.lineItems in Hitems.
  repeat (apply Forall_app in Hitems; destruct Hitems as [? Hitems]).
  unfold Budget.calculateBudget. cbv zeta.
  match goal with
  | |- context [Budget.round (?d + Budget.round (?d * ?r))%js] =>
      assert (Hdirect : Exact.isFinite d = true)
        by (repeat apply add_finite;
            auto using sum_finite, staffItem_finite, travelItem_finite,
              costItem_finite);
      assert (Hfull : Exact.isFinite (d + Budget.round (d * r))%js = true)
        by (apply add_finite; [exact Hdirect|];
            apply round_finite, mul_finite; [exact Hdirect|];
            apply div_lit_finite, rate_finite; assumption);
      destruct (finite_inv _ Hfull) as (q & ->)
  end.
  destruct (finite_inv _ (div_lit_finite _ 100 (rate_finite _ 80 Hfec)))
    as (rf & Hrf).
  destruct (finite_inv _ (div_lit_finite _ 100 (rate_finite _ 100 Hcustom)))
    as (rc & Hrc).
  repeat match goal with
         | |- context [if String.eqb ?a ?b then _ else _] => destruct (String.eqb a b)
         end;
    cbn [Budget.out_summary Budget.institutionContribution
         Budget.funderContribution Budget.fullEconomicCost];
    rewrite ?Hrf, ?Hrc;
    first [apply split_exact | apply split_full].
Qed.

End SummaryFacts.


Lemma finiteItem_of_values (item : gmap string (jsval Exact.number)) :
  map_Forall (fun _ v => Exact.isInfinite (parseFloat v) = false) item ->
  Budget.finiteItem item.
Proof.
  intros Hitem k. unfold prop.
  destruct (item !! k) as [v|] eqn:Hk; [exact (Hitem k v Hk) | reflexivity].
Qed.



(** The same failure with finite figures: for a cost of 37339298266656.22
    and the default rates every figure of the summary is finite, and the
    rounded sum of the two contributions differs from the full economic
    cost. *)
Lemma split_fails_on_large_finite_amount :
  let s :=
    Budget.out_summary
      (Budget.calculateBudget
         (Examples.request []
            [Examples.costOf (Binary64.of_decimal false 3733929826665622 (-2))] [])) in
  Binary64.isFinite (Budget.fullEconomicCost s) = true
  /\ Binary64.isFinite (Budget.funderContribution s) = true
  /\ Binary64.isFinite (Budget.institutionContribution s) = true
  /\ Budget.splitHolds s = false.
Proof. vm_compute. repeat split; reflexivity. Qed.

(** C5: the item subtotals, the category totals, the indirect costs, the
    full economic cost and the contributions are results of [round], but
    [directCosts] is the plain sum of the category totals.  For an equipment
    cost of 0.1 and a consumables cost of 0.2 the category totals are 0.1 and
    0.2, [directCosts] is 0.30000000000000004 and differs from its rounding
    to two decimal places, 0.3. *)
Theorem C5_direct_costs_are_not_rounded :
  let out :=
    Budget.calculateBudget
      (Examples.request []
         [Examples.costOf (Binary64.of_decimal false 1 (-1))]
         [Examples.costOf (Binary64.of_decimal false 2 (-1))]) in
  let s := Budget.out_summary out in
  Budget.total (Budget.cat_equipment (Budget.out_categories out))
  = Binary64.of_decimal false 1 (-1)
  /\ Budget.total (Budget.cat_consumables (Budget.out_categories out))
     = Binary64.of_decimal false 2 (-1)
  /\ Budget.directCosts s = S754_finite false 5404319552844596 (-54)
  /\ Budget.round (Budget.directCosts s) = Binary64.of_decimal false 3 (-1)
  /\ Binary64.eq (Budget.directCosts s) (Budget.round (Budget.directCosts s)) = false
  /\ Binary64.eq (Budget.indirectCosts s) (Budget.round (Budget.indirectCosts s)) = true
  /\ Binary64.eq (Budget.fullEconomicCost s) (Budget.round (Budget.fullEconomicCost s))
     = true.
Proof. vm_compute. repeat split; reflexivity. Qed.

(** * Further properties of the code

    The properties below cover what the claims leave out of
    [lib/templates.js], [lib/budget-calc.js] and [lib/pdf.js]. *)

(** ** Words *)

Section WordFacts.
Import JsString Templates WordRuns.

Local Abbreviation nonEmpty := (fun w : string => (0 <? String.length w)%nat).
Local Abbreviation words l := (length (List.filter nonEmpty l)).

Lemma append_nil_l (s : string) : EmptyString ++ s = s.
Proof. reflexivity. Qed.

Lemma append_cons (c : ascii) (a b : string) : String c a ++ b = String c (a ++ b).
Proof. reflexivity. Qed.

Lemma append_nonEmpty (tok : string) (c : ascii) :
  nonEmpty (tok ++ String c EmptyString) = true.
Proof. destruct tok; reflexivity. Qed.

Lemma splitWs_runs (s : string) :
  (forall tok, nonEmpty tok = true ->
               words (splitWs s tok false) = S (runs s true))
  /\ (forall inSep, words (splitWs s EmptyString inSep) = runs s false).
Proof.
  induction s as [|c s [IHword IHsep]]; split.
  - intros tok Htok. cbn [splitWs List.filter]. now rewrite Htok.
  - intros inSep. reflexivity.
  - intros tok Htok. cbn [splitWs runs]. destruct (isWhiteSpace c).
    + cbn [List.filter]. rewrite Htok. cbn [length]. now rewrite IHsep.
    + now rewrite IHword by apply append_nonEmpty.
  - intros inSep. cbn [splitWs runs]. destruct (isWhiteSpace c).
    + destruct inSep; [apply IHsep|].
      cbn [List.filter String.length Nat.ltb Nat.leb]. apply IHsep.
    + now rewrite IHword by reflexivity.
Qed.

Lemma runs_trimStart (s : string) : runs (trimStart s) false = runs s false.
Proof.
  induction s as [|c s IH]; [reflexivity|].
  cbn [trimStart]. destruct (isWhiteSpace c) eqn:Hc; cbn [runs]; now rewrite Hc.
Qed.

Lemma runs_trimEnd (s : string) (inWord : bool) :
  runs (trimEnd s) inWord = runs s inWord.
Proof.
  revert inWord. induction s as [|c s IH]; intros inWord; [reflexivity|].
  cbn [trimEnd runs]. destruct (trimEnd s) as [|d t] eqn:Ht.
  - destruct (isWhiteSpace c) eqn:Hc.
    + now rewrite <- IH.
    + cbn [runs]. now rewrite Hc, <- IH.
  - cbn [runs]. fold (runs (String d t)).
    destruct (isWhiteSpace c); now rewrite <- IH.
Qed.

Lemma countWords_runs (text : string) : countWords text = runs text false.
Proof.
  unfold countWords. destruct text as [|c s]; [reflexivity|].
  cbn [isEmpty]. unfold split_whitespace, trim.
  rewrite (proj2 (splitWs_runs _)), runs_trimEnd, runs_trimStart. reflexivity.
Qed.

Lemma runs_append (a b : string) (c : ascii) (inWord : bool) :
  isWhiteSpace c = true ->
  runs (a ++ String c b) inWord = (runs a inWord + runs b false)%nat.
Proof.
  intros Hc. revert inWord. induction a as [|d a IH]; intros inWord.
  - rewrite append_nil_l. cbn [runs]. now rewrite Hc.
  - rewrite append_cons. cbn [runs]. destruct (isWhiteSpace d); rewrite IH; lia.
Qed.

Lemma countWords_join (l : list string) :
  countWords (join newline l) = list_sum (map countWords l).
Proof.
  rewrite countWords_runs.
  induction l as [|x l IH]; [reflexivity|].
  destruct l as [|y l].
  - cbn [join map]. unfold list_sum. cbn [fold_right]. rewrite countWords_runs. lia.
  - change (join newline (x :: y :: l)) with (x ++ newline ++ join newline (y :: l)).
    unfold newline at 1. rewrite append_cons, append_nil_l.
    rewrite runs_append by reflexivity. rewrite IH.
    rewrite <- (countWords_runs x). reflexivity.
Qed.

End WordFacts.

(** X1: [countWords] counts the maximal runs of code units that are not white
    space: white space at either end and the length of the separators do
    not matter, and the words of two texts joined by a white space code
    unit add up. *)
Theorem countWords_counts_runs :
  (forall text : string, Templates.countWords text = WordRuns.runs text false)
  /\ (forall (a b : string) (c : ascii),
         JsString.isWhiteSpace c = true ->
         Templates.countWords (a ++ String c b)
         = (Templates.countWords a + Templates.countWords b)%nat)
  /\ (forall text : string,
         Templates.countWords (JsString.trim text) = Templates.countWords text).
Proof.
  split; [exact countWords_runs|]. split.
  - intros a b c Hc. rewrite !countWords_runs. now apply runs_append.
  - intros text. rewrite !countWords_runs. unfold JsString.trim.
    now rewrite runs_trimEnd, runs_trimStart.
Qed.

(** ** Sections of the proposal *)

Section MatcherFacts.
Import JsString RegExp Templates.

(** Whatever a pattern matches, the continuation is run on a rest that is
    not longer than the input. *)
Lemma rmatch_shrinks (A : Type) (r : regex) :
  forall (prev : option ascii) (s : string)
         (k : option ascii -> string -> option A) (x : A),
    rmatch A r prev s k = Some x ->
    exists prev' s',
      (String.length s' <= String.length s)%nat /\ k prev' s' = Some x.
Proof.
  induction r as [|p|r1 IH1 r2 IH2|r1 IH1 r2 IH2|greedy r1 IH1| | | |r1 IH1];
    intros prev s k x Hm; cbn [rmatch] in Hm.
  - eauto.
  - destruct s as [|c s']; [discriminate|].
    destruct (p c); [|discriminate].
    exists (Some c), s'. cbn [String.length]. split; [lia | exact Hm].
  - apply IH1 in Hm as (p1 & s1 & Hlen1 & Hm).
    apply IH2 in Hm as (p2 & s2 & Hlen2 & Hm).
    exists p2, s2. split; [lia | exact Hm].
  - destruct (rmatch A r1 prev s k) as [y|] eqn:H1.
    + injection Hm as ->. now apply IH1 in H1.
    + now apply IH2 in Hm.
  - revert Hm. generalize (String.length s) at 1. intros n. revert prev s.
    induction n as [|n IHn]; intros prev s Hm.
    + eauto.
    + match type of Hm with
      | (if greedy then match ?again with _ => _ end else _) = _ =>
          assert (Hagain : again = Some x ->
                           exists prev' s',
                             (String.length s' <= String.length s)%nat
                             /\ k prev' s' = Some x)
      end.
      { intros H1. apply IH1 in H1 as (p1 & s1 & Hlen1 & H1).
        destruct (String.length s1 <? String.length s)%nat; [|discriminate].
        apply IHn in H1 as (p2 & s2 & Hlen2 & H2).
        exists p2, s2. split; [lia | exact H2]. }
      destruct greedy.
      * match type of Hm with
        | match ?again with _ => _ end = _ => destruct again as [y|] eqn:H1
        end.
        -- injection Hm as ->. now apply Hagain.
        -- eauto.
      * destruct (k prev s) as [y|] eqn:Hk.
        -- injection Hm as ->. eauto.
        -- now apply Hagain.
  - destruct prev; [discriminate | eauto].
  - destruct s; [eauto | discriminate].
  - destruct (xorb _ _); [eauto | discriminate].
  - destruct (rmatch unit r1 prev s _); [eauto | discriminate].
Qed.

Lemma matchAt_shrinks (r : regex) (prev : option ascii) (s rest : string) :
  matchAt r prev s = Some rest -> (String.length rest <= String.length s)%nat.
Proof.
  unfold matchAt. intros Hm.
  apply rmatch_shrinks in Hm as (p & s' & Hlen & Hm). now injection Hm as ->.
Qed.

Lemma substring_prefix (n : nat) (s : string) :
  exists post, s = String.substring 0 n s ++ post.
Proof.
  revert n. induction s as [|c s IH]; intros n.
  - exists "". now destruct n.
  - destruct n as [|n]; cbn [String.substring].
    + now exists (String c s).
    + destruct (IH n) as (post & Hpost). exists post.
      rewrite append_cons. now rewrite <- Hpost.
Qed.

(** The text of a match of [exec] is a contiguous part of the input, and
    the pattern matches at the position where it starts. *)
Lemma exec_contiguous (r : regex) (s : string) :
  forall (prev : option ascii) (m : string),
    exec r prev s = Some m ->
    exists pre post s0 prev0 rest,
      s = pre ++ s0 /\ s0 = m ++ post
      /\ matchAt r prev0 s0 = Some rest /\ m = matched s0 rest
      /\ (prev0 = None -> prev = None /\ pre = "").
Proof.
  induction s as [|c s IH]; intros prev m Hex; cbn [exec] in Hex.
  - destruct (matchAt r prev "") as [rest|] eqn:Hm; [|discriminate].
    injection Hex as <-.
    destruct (substring_prefix (String.length "" - String.length rest) "") as (post & Hpost).
    exists "", post, "", prev, rest. repeat split; auto.
  - destruct (matchAt r prev (String c s)) as [rest|] eqn:Hm.
    + injection Hex as <-.
      destruct (substring_prefix (String.length (String c s) - String.length rest)
                  (String c s)) as (post & Hpost).
      exists "", post, (String c s), prev, rest. repeat split; auto.
    + apply IH in Hex as (pre & post & s0 & prev0 & rest & -> & Hs0 & Hm0 & Hmd & Hstart).
      exists (String c pre), post, s0, prev0, rest.
      split; [reflexivity|]. split; [exact Hs0|]. split; [exact Hm0|].
      split; [exact Hmd|].
      intros ->. now destruct (Hstart eq_refl).
Qed.

Lemma rmatch_lit (A : Type) (c : ascii) (prev : option ascii) (s : string)
      (k : option ascii -> string -> option A) (x : A) :
  rmatch A (RLit c) prev s k = Some x ->
  exists s', s = String c s' /\ k (Some c) s' = Some x.
Proof.
  cbn [rmatch RLit]. destruct s as [|d s']; [discriminate|].
  destruct (Ascii.eqb_spec c d) as [<-|]; [eauto | discriminate].
Qed.

Lemma matched_cons (c : ascii) (s rest : string) :
  (String.length rest <= String.length s)%nat ->
  matched (String c s) rest = String c (matched s rest).
Proof.
  intros Hlen. unfold matched. cbn [String.length].
  replace (S (String.length s) - String.length rest)%nat
    with (S (String.length s - String.length rest)) by lia.
  reflexivity.
Qed.

(** A match of a pattern that opens like the heading pattern starts with
    [#] at the start of the input, or with a line feed followed by [#]. *)
Lemma heading_opening (tail : regex) (prev : option ascii) (s rest : string) :
  matchAt (RSeq (RAlt RBol (RLit "010")) (RSeq (RPlus true (RLit "#")) tail))
          prev s = Some rest ->
  (prev = None /\ exists body, matched s rest = String "#" body)
  \/ (exists body, matched s rest = String "010" (String "#" body)).
Proof.
  unfold matchAt. intros Hm.
  change (match rmatch string RBol prev s
                  (fun p s' => rmatch string (RSeq (RPlus true (RLit "#")) tail) p s'
                                 (fun _ s'' => Some s'')) with
          | Some x => Some x
          | None => rmatch string (RLit "010") prev s
                      (fun p s' => rmatch string (RSeq (RPlus true (RLit "#")) tail) p s'
                                     (fun _ s'' => Some s''))
          end = Some rest) in Hm.
  assert (Hhash : forall p s1 x,
             rmatch string (RSeq (RPlus true (RLit "#")) tail) p s1
               (fun _ s'' => Some s'') = Some x ->
             exists s2, s1 = String "#" s2
                        /\ (String.length x <= String.length s2)%nat).
  { intros p s1 x H1.
    change (rmatch string (RLit "#") p s1
              (fun p' s' => rmatch string (RStar true (RLit "#")) p' s'
                 (fun p'' s'' => rmatch string tail p'' s'' (fun _ s3 => Some s3)))
            = Some x) in H1.
    apply rmatch_lit in H1 as (s2 & -> & H1).
    apply rmatch_shrinks in H1 as (p3 & s3 & Hlen3 & H1).
    apply rmatch_shrinks in H1 as (p4 & s4 & Hlen4 & H1).
    injection H1 as ->. exists s2. split; [reflexivity | lia]. }
  destruct (rmatch string RBol prev s _) as [y|] eqn:Hbol.
  - injection Hm as ->. left. cbn [rmatch] in Hbol.
    destruct prev; [discriminate|]. split; [reflexivity|].
    apply Hhash in Hbol as (s2 & -> & Hlen).
    rewrite matched_cons by exact Hlen. eauto.
  - right. apply rmatch_lit in Hm as (s1 & -> & Hm).
    apply Hhash in Hm as (s2 & -> & Hlen).
    rewrite matched_cons by (cbn [String.length]; lia).
    rewrite matched_cons by exact Hlen. eauto.
Qed.

Lemma lookup_key_In (sects : list (string * string)) (key v : string) :
  lookup_key sects key = Some v -> In (key, v) sects.
Proof.
  induction sects as [|[k w] sects IH]; [discriminate|].
  cbn [lookup_key]. destruct (String.eqb_spec k key) as [->|].
  - intros [= ->]. now left.
  - intros H. right. auto.
Qed.

Lemma headingMatch_contiguous (fullText : option string) (nm r : string) :
  headingMatch fullText nm = Some r ->
  exists text pre post,
    fullText = Some text /\ text = pre ++ r ++ post
    /\ ((pre = "" /\ exists body, r = String "#" body)
        \/ exists body, r = String "010" (String "#" body)).
Proof.
  unfold headingMatch. destruct fullText as [text|]; [|discriminate].
  destruct (isEmpty text); [discriminate|]. intros Hex.
  apply exec_contiguous in Hex
    as (pre & post & s0 & prev0 & rest & -> & Hs0 & Hm & -> & Hstart).
  exists (pre ++ s0), pre, post. split; [reflexivity|]. split; [now rewrite <- Hs0|].
  apply heading_opening in Hm as [(-> & body & Hbody) | (body & Hbody)].
  - left. split; [now destruct (Hstart eq_refl) | eauto].
  - right. eauto.
Qed.

End MatcherFacts.



Section SectionMap.
Import JsString Templates.

Lemma startsWith_refl (s : string) : startsWith s s = true.
Proof. induction s as [|c s IH]; [reflexivity|]. cbn. now rewrite Ascii.eqb_refl. Qed.

Lemma includes_refl (s : string) : includes s s = true.
Proof. destruct s; cbn [includes]; now rewrite startsWith_refl. Qed.

Lemma lookup_key_Some (sects : list (string * string)) (key : string) :
  In key (map fst sects) -> exists v, lookup_key sects key = Some v.
Proof.
  induction sects as [|[k w] sects IH]; [intros []|].
  cbn [map fst In lookup_key]. destruct (String.eqb_spec k key) as [->|Hne].
  - eauto.
  - intros [Heq | Hin]; [contradiction | auto].
Qed.

(** The key the fuzzy match settles on. *)
Lemma fuzzyKey_found (sects : list (string * string)) (nm k : string) :
  In k (map fst sects) ->
  includes (toLowerCase k) (toLowerCase nm)
  || includes (toLowerCase nm) (toLowerCase k) = true ->
  exists key, fuzzyKey sects nm = Some key /\ In key (map fst sects).
Proof.
  intros Hin Hk. unfold fuzzyKey.
  destruct (find _ (map fst sects)) as [key|] eqn:Hfind.
  - exists key. split; [reflexivity|]. now apply find_some in Hfind.
  - exfalso. apply (find_none _ _ Hfind k) in Hin. cbv beta in Hin. congruence.
Qed.

End SectionMap.



(** ** The verdict *)

Section VerdictFacts.
Import JsString RegExp Templates.
Variable toLocaleString toString : Binary64.number -> string.

Local Abbreviation run := (runComplianceChecks toLocaleString toString).
Local Abbreviation allFindings := (findings toLocaleString toString).

(** A property of every finding of a run follows from the property for the
    findings of each block. *)
Lemma Forall_findings (P : finding -> Prop) proposalText sections s budget duration :
  Forall P (budgetMaximum toLocaleString s budget) ->
  Forall P (budgetMinimum toLocaleString s budget) ->
  Forall P (durationMaximum toString s duration) ->
  Forall P (durationMinimum toString s duration) ->
  (forall r, Forall P (sectionChecks toString sections proposalText r)) ->
  Forall P (textChecks toLocaleString toString proposalText sections) ->
  Forall P (eligibilityNote s) ->
  Forall P (requiredAttachments s) ->
  Forall P (allFindings proposalText sections s budget duration).
Proof.
  intros H1 H2 H3 H4 H5 H6 H7 H8. unfold findings.
  repeat apply Forall_app_2; auto.
  induction (default [] (Templates.sections s)) as [|r l IH]; [constructor|].
  cbn [flat_map]. apply Forall_app_2; auto.
Qed.

Lemma Forall_results (P : finding -> Prop) proposalText sections fd idx budget duration :
  P noScheme ->
  (forall s, selectedScheme fd idx = Some s ->
             Forall P (allFindings proposalText sections s budget duration)) ->
  Forall P (results (run proposalText sections fd idx budget duration)).
Proof.
  intros Hno Hsome. unfold runComplianceChecks.
  destruct (selectedScheme fd idx) as [s|]; cbn [results]; auto.
Qed.

(** The findings with a given name, block by block. *)
Lemma findingsNamed_blocks nm proposalText sections fd idx budget duration s :
  selectedScheme fd idx = Some s ->
  let named l := List.filter (fun f => String.eqb (check f) nm) l in
  findingsNamed nm (run proposalText sections fd idx budget duration)
  = (named (budgetMaximum toLocaleString s budget)
     ++ named (budgetMinimum toLocaleString s budget)
     ++ named (durationMaximum toString s duration)
     ++ named (durationMinimum toString s duration)
     ++ named (flat_map (sectionChecks toString sections proposalText)
                        (default [] (Templates.sections s)))
     ++ named (textChecks toLocaleString toString proposalText sections)
     ++ named (eligibilityNote s)
     ++ named (requiredAttachments s))%list.
Proof.
  intros Hsel named. unfold findingsNamed.
  rewrite (results_of_run toLocaleString toString _ _ _ _ _ _ _ Hsel).
  unfold findings, named. now rewrite !List.filter_app.
Qed.

Lemma filter_all_named nm (l : list finding) :
  Forall (fun f => check f = nm) l ->
  List.filter (fun f => String.eqb (check f) nm) l = l.
Proof.
  induction 1 as [|f l Hf _ IH]; [reflexivity|].
  cbn [List.filter]. rewrite Hf, String.eqb_refl. now rewrite IH.
Qed.

Lemma overallStatus_fail (l : list finding) :
  overallStatus l = fail <-> Exists (fun f => status f = fail) l.
Proof.
  unfold overallStatus. rewrite List.Exists_exists.
  destruct (existsb (fun r => severity_eqb (status r) fail) l) eqn:Hf.
  - split; [intros _|reflexivity].
    apply existsb_exists in Hf as (f & Hin & Hs). exists f. split; [exact Hin|].
    now destruct (status f).
  - split.
    + destruct (existsb (fun r => severity_eqb (status r) warn) l); intros H; discriminate H.
    + intros (f & Hin & Hs). exfalso.
      assert (existsb (fun r => severity_eqb (status r) fail) l = true) as Ht.
      { apply existsb_exists. exists f. split; [exact Hin | now rewrite Hs]. }
      congruence.
Qed.

Lemma overallStatus_pass (l : list finding) :
  overallStatus l = pass <-> Forall (fun f => status f = pass) l.
Proof.
  unfold overallStatus. rewrite List.Forall_forall.
  destruct (existsb (fun r => severity_eqb (status r) fail) l) eqn:Hf.
  - split; [discriminate|]. intros Hall.
    apply existsb_exists in Hf as (f & Hin & Hs).
    rewrite (Hall f Hin) in Hs. discriminate.
  - destruct (existsb (fun r => severity_eqb (status r) warn) l) eqn:Hw.
    + split; [discriminate|]. intros Hall.
      apply existsb_exists in Hw as (f & Hin & Hs).
      rewrite (Hall f Hin) in Hs. discriminate.
    + split; [intros _|reflexivity]. intros f Hin.
      destruct (status f) eqn:Hs; [reflexivity| |].
      * assert (existsb (fun r => severity_eqb (status r) warn) l = true) as Ht.
        { apply existsb_exists. exists f. split; [exact Hin | now rewrite Hs]. }
        congruence.
      * assert (existsb (fun r => severity_eqb (status r) fail) l = true) as Ht.
        { apply existsb_exists. exists f. split; [exact Hin | now rewrite Hs]. }
        congruence.
Qed.

Lemma overall_of_run proposalText sections fd idx budget duration :
  overall (run proposalText sections fd idx budget duration)
  = overallStatus (results (run proposalText sections fd idx budget duration)).
Proof.
  unfold runComplianceChecks. now destruct (selectedScheme fd idx).
Qed.

End VerdictFacts.

(** X4: every finding with status [fail] or [warn] carries an advice and no
    finding with status [pass] does, on every run. *)
Theorem advice_accompanies_every_problem :
  forall (toLocaleString toString : Binary64.number -> string)
         (proposalText : option string) (sections : option (list (string * string)))
         (fd : Templates.funderData) (idx : option Z)
         (budget duration : jsval Binary64.number),
    Forall (fun f => Templates.advice f = None <-> Templates.status f = Templates.pass)
           (Templates.results
              (Templates.runComplianceChecks toLocaleString toString proposalText
                 sections fd idx budget duration)).
Proof.
  intros tls ts pt secs fd idx b d.
  apply Forall_results; [cbn; split; discriminate|].
  intros s _.
  apply Forall_findings; intros;
    unfold Templates.budgetMaximum, Templates.budgetMinimum,
      Templates.durationMaximum, Templates.durationMinimum,
      Templates.sectionChecks, Templates.wordLimit, Templates.pageLimit,
      Templates.missingSection, Templates.presentSection,
      Templates.textChecks, Templates.totalWordCount,
      Templates.eligibilityNote, Templates.requiredAttachments;
    finding_cases ltac:(cbn [Templates.advice Templates.status];
                        split; first [discriminate | reflexivity]).
Qed.

(** X5: a finding with status [fail] comes from the scheme selection, from a
    budget or duration limit or from a section; a finding with status
    [warn] comes from the budget maximum, from the word limit of a section,
    from the two style checks, from the eligibility note or from the
    attachment reminder; a finding with status [pass] never comes from the
    scheme selection, the duration minimum, the style checks, the
    eligibility note or the attachment reminder. *)
Theorem statuses_by_check :
  forall (toLocaleString toString : Binary64.number -> string)
         (proposalText : option string) (sections : option (list (string * string)))
         (fd : Templates.funderData) (idx : option Z)
         (budget duration : jsval Binary64.number),
    Forall (fun f =>
              match Templates.status f with
              | Templates.fail =>
                  In (Templates.check f)
                     ["Scheme Selection"; "Budget Maximum"; "Budget Minimum";
                      "Duration"; "Duration Minimum"]
                  \/ exists rest, Templates.check f = "Section: " ++ rest
              | Templates.warn =>
                  In (Templates.check f)
                     ["Budget Maximum"; "First Person Usage"; "Vague Language";
                      "Eligibility"; "Required Attachments"]
                  \/ exists nm, Templates.check f = "Section: " ++ nm ++ " (Word Limit)"
              | Templates.pass =>
                  ~ In (Templates.check f)
                       ["Scheme Selection"; "Duration Minimum"; "First Person Usage";
                        "Vague Language"; "Eligibility"; "Required Attachments"]
              end)
           (Templates.results
              (Templates.runComplianceChecks toLocaleString toString proposalText
                 sections fd idx budget duration)).
Proof.
  intros tls ts pt secs fd idx b d.
  apply Forall_results; [cbn; auto|].
  intros s _.
  apply Forall_findings; intros;
    unfold Templates.budgetMaximum, Templates.budgetMinimum,
      Templates.durationMaximum, Templates.durationMinimum,
      Templates.sectionChecks, Templates.wordLimit, Templates.pageLimit,
      Templates.missingSection, Templates.presentSection,
      Templates.textChecks, Templates.totalWordCount,
      Templates.eligibilityNote, Templates.requiredAttachments;
    finding_cases ltac:(cbn [Templates.check Templates.status];
                        first [ discriminate
                              | left; cbn [In]; tauto
                              | right; eexists; reflexivity
                              | cbn [In];
                                intuition (try discriminate;
                                           match goal with
                                           | Heq : _ = _ |- _ =>
                                               cbn in Heq; discriminate Heq
                                           end) ]).
Qed.

(** X6: the overall status is the worst status among the findings: [fail]
    exactly when some finding fails, [pass] exactly when every finding
    passes (in particular when there is none), [warn] otherwise. *)
Theorem overall_is_the_worst_status :
  forall (toLocaleString toString : Binary64.number -> string)
         (proposalText : option string) (sections : option (list (string * string)))
         (fd : Templates.funderData) (idx : option Z)
         (budget duration : jsval Binary64.number),
    let v := Templates.runComplianceChecks toLocaleString toString proposalText
               sections fd idx budget duration in
    (Templates.overall v = Templates.fail
     <-> Exists (fun f => Templates.status f = Templates.fail) (Templates.results v))
    /\ (Templates.overall v = Templates.pass
        <-> Forall (fun f => Templates.status f = Templates.pass) (Templates.results v))
    /\ (Templates.overall v = Templates.warn
        <-> Exists (fun f => Templates.status f = Templates.warn) (Templates.results v)
            /\ Forall (fun f => Templates.status f <> Templates.fail) (Templates.results v)).
Proof.
  intros tls ts pt secs fd idx b d v. subst v.
  rewrite overall_of_run.
  set (l := Templates.results _).
  pose proof (overallStatus_fail l) as Hfail.
  pose proof (overallStatus_pass l) as Hpass.
  split; [exact Hfail|]. split; [exact Hpass|].
  rewrite List.Exists_exists, List.Forall_forall.
  rewrite List.Exists_exists in Hfail. rewrite List.Forall_forall in Hpass.
  destruct (Templates.overallStatus l) eqn:Ho.
  - split; [discriminate|]. intros ((f & Hin & Hs) & _).
    rewrite (proj1 Hpass eq_refl f Hin) in Hs. discriminate.
  - split; [intros _|reflexivity]. split.
    + destruct (List.Exists_dec (fun f => Templates.status f = Templates.warn) l)
        as [Hex | Hno].
      { intros f. destruct (Templates.status f); [right|left|right]; congruence. }
      * now apply List.Exists_exists.
      * exfalso.
        assert (Templates.warn = Templates.pass) as Habs; [|discriminate].
        apply Hpass. intros f Hin.
        destruct (Templates.status f) eqn:Hs; [reflexivity| |].
        -- exfalso. apply Hno. apply List.Exists_exists. eauto.
        -- assert (Templates.warn = Templates.fail) as Habs; [|discriminate].
           apply Hfail. eauto.
    + intros f Hin Hs.
      assert (Templates.warn = Templates.fail) as Habs; [|discriminate].
      apply Hfail. eauto.
  - split; [discriminate|]. intros (_ & Hall).
    destruct (proj1 Hfail eq_refl) as (f & Hin & Hs). exfalso. exact (Hall f Hin Hs).
Qed.

Section NamedBlocks.
Import JsString RegExp Templates.
Variable toLocaleString toString : Binary64.number -> string.

Local Abbreviation run := (runComplianceChecks toLocaleString toString).

(** The findings named after one of the checks outside the section loop
    and the text checks are the findings of the block of that check. *)
Ltac block_of_name Hsel :=
  rewrite (findingsNamed_blocks toLocaleString toString _ _ _ _ _ _ _ _ Hsel);
  cbv zeta;
  rewrite ?(filter_named _ (budgetMaximum _ _ _))
    by (apply budgetMaximum_named; discriminate);
  rewrite ?(filter_named _ (budgetMinimum _ _ _))
    by (apply budgetMinimum_named; discriminate);
  rewrite ?(filter_named _ (durationMaximum _ _ _))
    by (apply durationMaximum_named; discriminate);
  rewrite ?(filter_named _ (durationMinimum _ _ _))
    by (apply durationMinimum_named; discriminate);
  rewrite ?(filter_named _ (flat_map _ _))
    by (apply sections_named; not_section_name);
  rewrite ?(filter_named _ (textChecks _ _ _ _))
    by (apply textChecks_without_total; discriminate);
  rewrite ?(filter_named _ (eligibilityNote _))
    by (apply eligibilityNote_named; discriminate);
  rewrite ?(filter_named _ (requiredAttachments _))
    by (apply requiredAttachments_named; discriminate);
  cbn [app]; rewrite ?app_nil_r;
  apply filter_all_named.

Lemma budgetMinimum_findings proposalText sections fd idx budget duration s :
  selectedScheme fd idx = Some s ->
  findingsNamed "Budget Minimum" (run proposalText sections fd idx budget duration)
  = budgetMinimum toLocaleString s budget.
Proof.
  intros Hsel. block_of_name Hsel.
  unfold budgetMinimum. finding_cases ltac:(reflexivity).
Qed.

Lemma durationMaximum_findings proposalText sections fd idx budget duration s :
  selectedScheme fd idx = Some s ->
  findingsNamed "Duration" (run proposalText sections fd idx budget duration)
  = durationMaximum toString s duration.
Proof.
  intros Hsel. block_of_name Hsel.
  unfold durationMaximum. finding_cases ltac:(reflexivity).
Qed.

Lemma durationMinimum_findings proposalText sections fd idx budget duration s :
  selectedScheme fd idx = Some s ->
  findingsNamed "Duration Minimum" (run proposalText sections fd idx budget duration)
  = durationMinimum toString s duration.
Proof.
  intros Hsel. block_of_name Hsel.
  unfold durationMinimum. finding_cases ltac:(reflexivity).
Qed.

Lemma eligibility_findings proposalText sections fd idx budget duration s :
  selectedScheme fd idx = Some s ->
  findingsNamed "Eligibility" (run proposalText sections fd idx budget duration)
  = eligibilityNote s.
Proof.
  intros Hsel. block_of_name Hsel.
  unfold eligibilityNote. finding_cases ltac:(reflexivity).
Qed.

Lemma attachment_findings proposalText sections fd idx budget duration s :
  selectedScheme fd idx = Some s ->
  findingsNamed "Required Attachments" (run proposalText sections fd idx budget duration)
  = requiredAttachments s.
Proof.
  intros Hsel. block_of_name Hsel.
  unfold requiredAttachments. finding_cases ltac:(reflexivity).
Qed.

Lemma parsedOrZero_falsy (v : jsval Binary64.number) :
  Binary64.truthy (parseFloat v) = false -> parsedOrZero v = S754_zero false.
Proof. unfold parsedOrZero. cbv zeta. now intros ->. Qed.

Lemma positive_not_le_zero (m : Binary64.number) :
  Binary64.gt m (S754_zero false) = true -> Binary64.ge (S754_zero false) m = false.
Proof. now destruct m as [[]|[]| |[] ? ?]. Qed.

Lemma findingsNamed_In nm (v : verdict) (f : finding) :
  In f (findingsNamed nm v) -> In f (results v).
Proof. unfold findingsNamed. rewrite List.filter_In. tauto. Qed.

End NamedBlocks.

(** X7: the budget minimum: for a scheme that declares a non-zero [minAmount],
    a positive budget below the minimum gives one [fail] finding, a budget
    that reaches the minimum one [pass] finding, and any other budget no
    finding.  A budget that is absent, not numeric or zero is never held
    against a positive minimum. *)
Theorem budget_minimum_outcomes :
  forall (toLocaleString toString : Binary64.number -> string)
         (proposalText : option string) (sections : option (list (string * string)))
         (fd : Templates.funderData) (idx : option Z)
         (budget duration : jsval Binary64.number)
         (scheme : Templates.scheme) (m : Binary64.number),
    Templates.selectedScheme fd idx = Some scheme ->
    Templates.minAmount scheme = Some m ->
    Binary64.truthy m = true ->
    let budgetNum := Templates.parsedOrZero budget in
    let emitted :=
      Templates.findingsNamed "Budget Minimum"
        (Templates.runComplianceChecks toLocaleString toString proposalText sections
           fd idx budget duration) in
    map Templates.status emitted
    = (if Binary64.lt budgetNum m && Binary64.gt budgetNum (Templates.num 0)
       then [Templates.fail]
       else if Binary64.ge budgetNum m then [Templates.pass] else [])
    /\ (Binary64.truthy (parseFloat budget) = false ->
        Binary64.gt m (Templates.num 0) = true ->
        emitted = []).
Proof.
  intros tls ts pt secs fd idx b d s m Hsel Hm Ht budgetNum emitted.
  subst emitted budgetNum.
  rewrite (budgetMinimum_findings tls ts pt secs fd idx b d s Hsel).
  unfold Templates.budgetMinimum. rewrite Hm, (declared_Some m Ht). cbv zeta.
  split.
  - destruct (Binary64.lt (Templates.parsedOrZero b) m
              && Binary64.gt (Templates.parsedOrZero b) (Templates.num 0));
      [reflexivity|].
    now destruct (Binary64.ge (Templates.parsedOrZero b) m).
  - intros Hfalsy Hpos. rewrite (parsedOrZero_falsy b Hfalsy).
    change (Templates.num 0) with (S754_zero false) in *.
    rewrite (positive_not_le_zero m Hpos), andb_false_r. reflexivity.
Qed.

Lemma budget_minimum_outcomes_witness :
  map Templates.status
      (Templates.findingsNamed "Budget Minimum"
         (Templates.runComplianceChecks Examples.digits Examples.digits None None
            (Examples.funder (Samples.flooredScheme (Templates.num 10000)))
            None (JString "2500") JUndefined))
  = [Templates.fail].
Proof.
  apply (proj1 (budget_minimum_outcomes Examples.digits Examples.digits None None
                  (Examples.funder (Samples.flooredScheme (Templates.num 10000)))
                  None (JString "2500") JUndefined
                  (Samples.flooredScheme (Templates.num 10000)) (Templates.num 10000)
                  eq_refl eq_refl eq_refl)).
Defined.

(** X8: the duration limits: for a scheme that declares a non-zero
    [maxDuration], a duration above it gives one [fail] finding named
    "Duration" and any other positive duration one [pass] finding; for a
    scheme that declares a non-zero [minDuration], a positive duration below
    it gives one [fail] finding named "Duration Minimum" and any other
    duration none, so that this check never reports a [pass].  A duration
    that is absent, not numeric or zero gives no finding of either name
    (the maximum not being negative). *)
Theorem duration_limit_outcomes :
  forall (toLocaleString toString : Binary64.number -> string)
         (proposalText : option string) (sections : option (list (string * string)))
         (fd : Templates.funderData) (idx : option Z)
         (budget duration : jsval Binary64.number) (scheme : Templates.scheme),
    Templates.selectedScheme fd idx = Some scheme ->
    let dur := Templates.parsedOrZero duration in
    let emitted (nm : string) :=
      Templates.findingsNamed nm
        (Templates.runComplianceChecks toLocaleString toString proposalText sections
           fd idx budget duration) in
    (forall maxDuration,
        Templates.maxDuration scheme = Some maxDuration ->
        Binary64.truthy maxDuration = true ->
        map Templates.status (emitted "Duration")
        = (if Binary64.gt dur maxDuration then [Templates.fail]
           else if Binary64.gt dur (Templates.num 0) then [Templates.pass] else []))
    /\ (forall minDuration,
           Templates.minDuration scheme = Some minDuration ->
           Binary64.truthy minDuration = true ->
           map Templates.status (emitted "Duration Minimum")
           = (if Binary64.lt dur minDuration && Binary64.gt dur (Templates.num 0)
              then [Templates.fail] else []))
    /\ (Binary64.truthy (parseFloat duration) = false ->
        (forall maxDuration, Templates.maxDuration scheme = Some maxDuration ->
                             Binary64.lt maxDuration (Templates.num 0) = false) ->
        emitted "Duration" = [] /\ emitted "Duration Minimum" = []).
Proof.
  intros tls ts pt secs fd idx b d s Hsel dur emitted. subst emitted dur. cbv beta.
  rewrite (durationMaximum_findings tls ts pt secs fd idx b d s Hsel).
  rewrite (durationMinimum_findings tls ts pt secs fd idx b d s Hsel).
  unfold Templates.durationMaximum, Templates.durationMinimum.
  split; [|split].
  - intros M -> Ht. rewrite (declared_Some M Ht). cbv zeta.
    destruct (Binary64.gt (Templates.parsedOrZero d) M); [reflexivity|].
    now destruct (Binary64.gt (Templates.parsedOrZero d) (Templates.num 0)).
  - intros m -> Ht. rewrite (declared_Some m Ht). cbv zeta.
    now destruct (Binary64.lt (Templates.parsedOrZero d) m
                  && Binary64.gt (Templates.parsedOrZero d) (Templates.num 0)).
  - intros Hfalsy Hmax. rewrite (parsedOrZero_falsy d Hfalsy).
    change (Templates.num 0) with (S754_zero false) in *.
    split.
    + destruct (Templates.maxDuration s) as [M|]; [|reflexivity].
      unfold Templates.declared.
      destruct (Binary64.truthy M); [|reflexivity]. cbv zeta.
      change (Binary64.gt (S754_zero false) M) with (Binary64.lt M (S754_zero false)).
      now rewrite (Hmax M eq_refl).
    + destruct (Templates.declared (Templates.minDuration s)) as [m|]; [|reflexivity].
      cbv zeta. now rewrite andb_false_r.
Qed.

Lemma duration_limit_outcomes_witness :
  let scheme := Samples.timedScheme (Templates.num 12) (Templates.num 60) in
  let verdict :=
    Templates.runComplianceChecks Examples.digits Examples.digits None None
      (Examples.funder scheme) None JUndefined (JNumber (Templates.num 6)) in
  map Templates.status (Templates.findingsNamed "Duration" verdict) = [Templates.pass]
  /\ map Templates.status (Templates.findingsNamed "Duration Minimum" verdict)
     = [Templates.fail].
Proof.
  cbv zeta.
  pose proof (duration_limit_outcomes Examples.digits Examples.digits None None
                (Examples.funder (Samples.timedScheme (Templates.num 12) (Templates.num 60)))
                None JUndefined (JNumber (Templates.num 6))
                (Samples.timedScheme (Templates.num 12) (Templates.num 60)) eq_refl)
    as (Hmax & Hmin & _).
  split.
  - exact (Hmax (Templates.num 60) eq_refl eq_refl).
  - exact (Hmin (Templates.num 12) eq_refl eq_refl).
Defined.

(** X9: the eligibility note and the attachment reminder are warnings that do
    not depend on the proposal: a scheme with an eligibility text, or with a
    section whose name contains "CV", "Letter of Support", "Ethics Approval"
    or "Data Management Plan" in any case, gives exactly one [warn] finding
    of that name whatever the proposal holds, and so never an overall
    [pass]. *)
Theorem reminders_prevent_a_pass :
  forall (toLocaleString toString : Binary64.number -> string)
         (proposalText : option string) (sections : option (list (string * string)))
         (fd : Templates.funderData) (idx : option Z)
         (budget duration : jsval Binary64.number) (scheme : Templates.scheme),
    Templates.selectedScheme fd idx = Some scheme ->
    let v := Templates.runComplianceChecks toLocaleString toString proposalText
               sections fd idx budget duration in
    (forall e, Templates.eligibility scheme = Some e -> e <> "" ->
               (exists f, Templates.findingsNamed "Eligibility" v = [f]
                          /\ Templates.status f = Templates.warn
                          /\ Templates.message f = "Eligibility requirement: " ++ e)
               /\ Templates.overall v <> Templates.pass)
    /\ (forall sects r a,
           Templates.sections scheme = Some sects -> In r sects ->
           In a Templates.attachmentNames ->
           JsString.includes (JsString.toLowerCase (Templates.name r))
                             (JsString.toLowerCase a) = true ->
           (exists f, Templates.findingsNamed "Required Attachments" v = [f]
                      /\ Templates.status f = Templates.warn)
           /\ Templates.overall v <> Templates.pass).
Proof.
  intros tls ts pt secs fd idx b d s Hsel v.
  assert (Hwarn : forall nm f,
             Templates.findingsNamed nm v = [f] ->
             Templates.status f = Templates.warn ->
             Templates.overall v <> Templates.pass).
  { intros nm f Hf Hs Hpass. subst v. rewrite overall_of_run in Hpass.
    apply overallStatus_pass in Hpass. rewrite List.Forall_forall in Hpass.
    rewrite (Hpass f) in Hs; [discriminate|].
    apply (findingsNamed_In nm). rewrite Hf. now left. }
  split.
  - intros e He Hne.
    assert (Hf : Templates.findingsNamed "Eligibility" v
                 = [{| Templates.check := "Eligibility";
                       Templates.status := Templates.warn;
                       Templates.message := "Eligibility requirement: " ++ e;
                       Templates.advice :=
                         Some "Ensure you meet this eligibility criterion before submitting." |}]).
    { subst v. rewrite (eligibility_findings tls ts pt secs fd idx b d s Hsel).
      unfold Templates.eligibilityNote. rewrite He.
      destruct e; [contradiction | reflexivity]. }
    split; [eexists; split; [exact Hf | split; reflexivity]|].
    now apply (Hwarn _ _ Hf).
  - intros sects r a Hsects Hr Ha Hinc.
    assert (Hf : exists f, Templates.findingsNamed "Required Attachments" v = [f]
                           /\ Templates.status f = Templates.warn).
    { subst v. rewrite (attachment_findings tls ts pt secs fd idx b d s Hsel).
      unfold Templates.requiredAttachments. rewrite Hsects. cbv zeta.
      match goal with
      | |- context [List.filter ?p sects] =>
          assert (Hin : In r (List.filter p sects))
      end.
      { apply List.filter_In. split; [exact Hr|].
        apply existsb_exists. exists a. split; [exact Ha | exact Hinc]. }
      match goal with
      | |- context [List.filter ?p sects] => destruct (List.filter p sects) as [|x l]
      end; [destruct Hin|].
      cbn [length Nat.ltb Nat.leb]. eexists. split; reflexivity. }
    split; [exact Hf|].
    destruct Hf as (f & Hf & Hs). now apply (Hwarn _ _ Hf).
Qed.

Lemma reminders_prevent_a_pass_witness :
  exists f,
    Templates.findingsNamed "Eligibility"
      (Templates.runComplianceChecks Examples.digits Examples.digits None None
         (Examples.funder (Samples.restrictedScheme "UK research organisations"))
         None JUndefined JUndefined)
    = [f]
    /\ Templates.status f = Templates.warn
    /\ Templates.message f = "Eligibility requirement: UK research organisations".
Proof.
  refine (proj1 (proj1 (reminders_prevent_a_pass Examples.digits Examples.digits None None
                          (Examples.funder
                             (Samples.restrictedScheme "UK research organisations"))
                          None JUndefined JUndefined
                          (Samples.restrictedScheme "UK research organisations")
                          eq_refl)
                   "UK research organisations" eq_refl _)).
  discriminate.
Defined.

(** X10: without a proposal text the checker counts the words of the section
    values joined by line feeds: the total it reports is the sum of the word
    counts of the sections. *)
Theorem total_word_count_adds_the_sections :
  forall (toLocaleString toString : Binary64.number -> string)
         (proposalText : option string) (sects : list (string * string))
         (fd : Templates.funderData) (idx : option Z)
         (budget duration : jsval Binary64.number) (scheme : Templates.scheme),
    Templates.selectedScheme fd idx = Some scheme ->
    proposalText = None \/ proposalText = Some "" ->
    JsString.join JsString.newline (map snd sects) <> "" ->
    map Templates.message
        (Templates.findingsNamed "Total Word Count"
           (Templates.runComplianceChecks toLocaleString toString proposalText
              (Some sects) fd idx budget duration))
    = ["Total proposal text: "
       ++ toLocaleString
            (Binary64.of_Z
               (Z.of_nat (list_sum (map (fun kv => Templates.countWords (snd kv)) sects))))
       ++ " words."].
Proof.
  intros tls ts pt sects fd idx b d s Hsel Hpt Hne.
  rewrite (total_word_count_findings tls ts pt (Some sects) fd idx b d s Hsel).
  assert (Hfull : Templates.fullTextOf pt (Some sects)
                  = JsString.join JsString.newline (map snd sects)).
  { destruct Hpt as [-> | ->]; reflexivity. }
  rewrite textChecks_total by now rewrite Hfull.
  rewrite Hfull. cbn [map Templates.totalWordCount Templates.message].
  unfold Templates.wordCount. now rewrite countWords_join, map_map.
Qed.

Lemma total_word_count_adds_the_sections_witness :
  map Templates.message
      (Templates.findingsNamed "Total Word Count"
         (Templates.runComplianceChecks Examples.digits Examples.digits None
            (Some [("Summary", "A short summary."); ("Methods", "  Two   methods ")])
            (Examples.funder Examples.bareScheme) None JUndefined JUndefined))
  = ["Total proposal text: 5 words."].
Proof.
  apply (total_word_count_adds_the_sections Examples.digits Examples.digits None
           [("Summary", "A short summary."); ("Methods", "  Two   methods ")]
           (Examples.funder Examples.bareScheme) None JUndefined JUndefined
           Examples.bareScheme eq_refl (or_introl eq_refl)).
  discriminate.
Defined.

(** ** Limits of a section *)

Section IntegerNumbers.
Import Numbers.
Local Open Scope Z_scope.

Lemma digits2_pos_size (p : positive) : digits2_pos p = Pos.size p.
Proof. induction p; cbn; congruence. Qed.

Lemma iter_xO_digits (p k : positive) :
  digits2_pos (Pos.iter xO p k) = (digits2_pos p + k)%positive.
Proof.
  induction k as [|k IH] using Pos.peano_ind.
  - cbn. lia.
  - rewrite Pos.iter_succ. cbn [digits2_pos]. rewrite IH. lia.
Qed.

Lemma iter_xO_value (p k : positive) :
  Zpos (Pos.iter xO p k) = Zpos p * 2 ^ Zpos k.
Proof.
  induction k as [|k IH] using Pos.peano_ind.
  - cbn. lia.
  - rewrite Pos.iter_succ, Pos2Z.inj_succ, Z.pow_succ_r by lia.
    rewrite Pos2Z.inj_xO, IH. lia.
Qed.

Lemma of_Z_pos (p : positive) :
  Zpos (digits2_pos p) <= 53 ->
  Binary64.of_Z (Zpos p)
  = S754_finite false (aligned p) (Zpos (digits2_pos p) - 53).
Proof.
  intros Hd. unfold Binary64.of_Z, binary_normalize, binary_round.
  set (d := Zpos (digits2_pos p)) in *.
  assert (Hfexp : fexp Binary64.prec Binary64.emax (d + 0) = d - 53).
  { unfold fexp, emin, Binary64.prec, Binary64.emax. lia. }
  rewrite Hfexp. unfold shl_align, aligned. fold d.
  assert (Haux : forall m : positive,
             Zpos (digits2_pos m) = 53 ->
             binary_round_aux Binary64.prec Binary64.emax false (Zpos m) (d - 53) loc_Exact
             = S754_finite false m (d - 53)).
  { intros m Hm. unfold binary_round_aux, shr_fexp. cbn [Zdigits2 shr_record_of_loc].
    rewrite Hm.
    assert (Hz : fexp Binary64.prec Binary64.emax (53 + (d - 53)) - (d - 53) = 0).
    { unfold fexp, emin, Binary64.prec, Binary64.emax. lia. }
    rewrite Hz. cbn [shr shr_m loc_of_shr_record round_nearest_even Zdigits2].
    rewrite Hm, Hz. cbn [shr shr_m].
    assert (Hle : (d - 53 <=? Binary64.emax - Binary64.prec) = true).
    { apply Z.leb_le. unfold Binary64.emax, Binary64.prec. lia. }
    now rewrite Hle. }
  destruct (d - 53 - 0) as [|k|k] eqn:Hk; try lia.
  - assert (Hd53 : 53 - d = 0) by lia. rewrite Hd53.
    assert (H0 : d - 53 = 0) by lia. rewrite H0 in *. apply Haux. lia.
  - assert (Hd53 : 53 - d = Zpos k) by lia. rewrite Hd53. apply Haux.
    rewrite iter_xO_digits. lia.
Qed.

Lemma aligned_value (p : positive) :
  Zpos (digits2_pos p) <= 53 ->
  Zpos (aligned p) = Zpos p * 2 ^ (53 - Zpos (digits2_pos p)).
Proof.
  intros Hd. unfold aligned.
  destruct (53 - Zpos (digits2_pos p)) as [|k|k] eqn:Hk; try lia.
  apply iter_xO_value.
Qed.

Lemma digits2_pos_bounds (p : positive) :
  2 ^ (Zpos (digits2_pos p) - 1) <= Zpos p < 2 ^ Zpos (digits2_pos p).
Proof.
  rewrite digits2_pos_size.
  pose proof (Pos.size_gt p) as Hgt. pose proof (Pos.size_le p) as Hle.
  apply Pos2Z.pos_lt_pos in Hgt. apply Pos2Z.pos_le_pos in Hle.
  rewrite Pos2Z.inj_pow in Hgt, Hle.
  split; [|exact Hgt].
  replace (Zpos (Pos.size p)) with (Z.succ (Zpos (Pos.size p) - 1)) in Hle by lia.
  rewrite Z.pow_succ_r in Hle by lia. lia.
Qed.

Lemma digits2_pos_le_53 (p : positive) :
  Zpos p < 2 ^ 53 -> Zpos (digits2_pos p) <= 53.
Proof.
  intros Hp. destruct (digits2_pos_bounds p) as (Hlow & _).
  destruct (Z.le_gt_cases (Zpos (digits2_pos p)) 53) as [Hle | Hgt]; [exact Hle|].
  exfalso.
  assert (2 ^ 53 <= 2 ^ (Zpos (digits2_pos p) - 1)) by (apply Z.pow_le_mono_r; lia).
  lia.
Qed.

(** Integers below [2^53] are compared as Numbers the way they are
    compared as integers. *)
Lemma of_Z_compare (a b : Z) :
  0 <= a < 2 ^ 53 -> 0 <= b < 2 ^ 53 ->
  SFcompare (Binary64.of_Z a) (Binary64.of_Z b) = Some (a ?= b).
Proof.
  intros Ha Hb.
  destruct a as [|p|p]; [|pose proof (digits2_pos_le_53 p ltac:(lia)) as Hp|lia];
    (destruct b as [|q|q]; [|pose proof (digits2_pos_le_53 q ltac:(lia)) as Hq|lia]);
    rewrite ?of_Z_pos by assumption; try reflexivity.
  cbn [SFcompare].
  destruct (digits2_pos_bounds p) as (Hp1 & Hp2).
  destruct (digits2_pos_bounds q) as (Hq1 & Hq2).
  set (dp := Zpos (digits2_pos p)) in *. set (dq := Zpos (digits2_pos q)) in *.
  f_equal.
  destruct (Z.compare_spec (dp - 53) (dq - 53)) as [Heq | Hlt | Hgt].
  - rewrite Pos.compare_cont_spec.
    replace (Pos.switch_Eq Eq (aligned p ?= aligned q)%positive)
      with (aligned p ?= aligned q)%positive
      by now destruct (aligned p ?= aligned q)%positive.
    change (Pos.compare (aligned p) (aligned q))
      with (Z.compare (Zpos (aligned p)) (Zpos (aligned q))).
    rewrite !aligned_value by assumption. fold dp dq.
    replace dq with dp by lia.
    symmetry. apply Zmult_compare_compat_r.
    apply Z.lt_gt. apply Z.pow_pos_nonneg; lia.
  - symmetry. apply Z.compare_lt_iff.
    assert (2 ^ dp <= 2 ^ (dq - 1)) by (apply Z.pow_le_mono_r; lia). lia.
  - symmetry. apply Z.compare_gt_iff.
    assert (2 ^ dq <= 2 ^ (dp - 1)) by (apply Z.pow_le_mono_r; lia). lia.
Qed.

Lemma of_Z_gt (a b : Z) :
  0 <= a < 2 ^ 53 -> 0 <= b < 2 ^ 53 ->
  Binary64.gt (Binary64.of_Z a) (Binary64.of_Z b) = (b <? a).
Proof.
  intros Ha Hb. unfold Binary64.gt, SFltb, Z.ltb. now rewrite of_Z_compare.
Qed.

Lemma of_Z_lt (a b : Z) :
  0 <= a < 2 ^ 53 -> 0 <= b < 2 ^ 53 ->
  Binary64.lt (Binary64.of_Z a) (Binary64.of_Z b) = (a <? b).
Proof.
  intros Ha Hb. unfold Binary64.lt, SFltb, Z.ltb. now rewrite of_Z_compare.
Qed.

Lemma of_Z_ge (a b : Z) :
  0 <= a < 2 ^ 53 -> 0 <= b < 2 ^ 53 ->
  Binary64.ge (Binary64.of_Z a) (Binary64.of_Z b) = (b <=? a).
Proof.
  intros Ha Hb. unfold Binary64.ge, SFleb, Z.leb. rewrite of_Z_compare by assumption.
  now destruct (b ?= a).
Qed.

(** An integer literal is the Number of the integer. *)
Lemma num_of_Z (m : N) : Templates.num m = Binary64.of_Z (Z.of_N m).
Proof.
  destruct m as [|p]; [reflexivity|].
  unfold Templates.num, Binary64.of_decimal, Binary64.of_Z.
  cbn [Z.leb Z.compare Z.of_N binary_normalize].
  change (Z.to_pos (10 ^ 0)) with 1%positive. now rewrite Pos.mul_1_r.
Qed.

End IntegerNumbers.

Section PageFacts.
Import Numbers.

Lemma same_eq (x y : Binary64.number) : same x y = true -> x = y.
Proof.
  destruct x as [a|a| |s m e], y as [b|b| |s' m' e']; cbn [same]; try discriminate.
  - now intros ->%Bool.eqb_prop.
  - now intros ->%Bool.eqb_prop.
  - reflexivity.
  - intros ((->%Bool.eqb_prop & ->%Pos.eqb_eq)%andb_prop & ->%Z.eqb_eq)%andb_prop.
    reflexivity.
Qed.

Lemma holdsFrom_spec (p : Z -> bool) (count : nat) (z k : Z) :
  holdsFrom p count z = true ->
  (z <= k <= z + Z.of_nat count)%Z -> p k = true.
Proof.
  revert z. induction count as [|count IH]; intros z Hall Hk;
    cbn [holdsFrom] in Hall; apply andb_prop in Hall as (Hz & Hrest).
  - replace k with z by lia. exact Hz.
  - destruct (Z.eq_dec k z) as [->|Hne]; [exact Hz|].
    apply (IH (z + 1)%Z Hrest). lia.
Qed.

Lemma pages_agree_up_to_50000 :
  holdsFrom pagesAgree (Z.to_nat 50000) 0 = true.
Proof. vm_compute. reflexivity. Qed.

Lemma estimatePages_bounded (text : string) :
  (Z.of_nat (Templates.countWords text) <= 50000)%Z ->
  Templates.estimatePages text
  = Binary64.of_Z (pagesOf (Z.of_nat (Templates.countWords text))).
Proof.
  intros Hn. unfold Templates.estimatePages, Templates.wordCount.
  apply same_eq. change (pagesAgree (Z.of_nat (Templates.countWords text)) = true).
  apply (holdsFrom_spec pagesAgree (Z.to_nat 50000) 0 _ pages_agree_up_to_50000).
  lia.
Qed.

End PageFacts.

Section SectionLimits.
Import JsString Templates WordRuns Numbers.
Variable toLocaleString toString : Binary64.number -> string.

Lemma runs_length (s : string) (inWord : bool) :
  (runs s inWord <= String.length s)%nat.
Proof.
  revert inWord. induction s as [|c s IH]; intros inWord; [cbn; lia|].
  cbn [runs String.length]. destruct (isWhiteSpace c).
  - specialize (IH false). lia.
  - specialize (IH true). destruct inWord; lia.
Qed.

Lemma countWords_length (text : string) :
  (countWords text <= String.length text)%nat.
Proof. rewrite countWords_runs. apply runs_length. Qed.

(** The findings of the iteration for a section whose text is resolved
    and, when the section is required, long enough. *)
Lemma sectionChecks_resolved sections proposalText r t :
  findSection sections proposalText (name r) = Some t ->
  t <> "" ->
  (required r = true -> (50 <= String.length (trim t))%nat) ->
  sectionChecks toString sections proposalText r
  = ((if required r then [presentSection r] else [])
     ++ wordLimit toString r (Some t) ++ pageLimit toString r (Some t))%list.
Proof.
  intros Hfound Hne Hlong. unfold sectionChecks. cbv zeta. rewrite Hfound.
  change (textOf (Some t)) with t.
  assert (Hpresent : present (Some t) = true).
  { destruct t; [contradiction | reflexivity]. }
  rewrite Hpresent. cbn [negb orb].
  destruct (required r); [|reflexivity].
  cbn [andb].
  assert (Hlen : (String.length (trim t) <? 50)%nat = false).
  { apply Nat.ltb_ge. now apply Hlong. }
  now rewrite Hlen.
Qed.

Lemma sectionChecks_in_results proposalText sections fd idx budget duration s sects r f :
  selectedScheme fd idx = Some s ->
  Templates.sections s = Some sects -> In r sects ->
  In f (sectionChecks toString sections proposalText r) ->
  In f (results (runComplianceChecks toLocaleString toString proposalText sections
                   fd idx budget duration)).
Proof.
  intros Hsel Hsects Hr Hf.
  rewrite (results_of_run toLocaleString toString _ _ _ _ _ _ _ Hsel).
  unfold findings. rewrite Hsects. cbn [from_option id].
  rewrite !in_app_iff. do 4 right. left.
  apply in_flat_map. eauto.
Qed.

Lemma declared_num (m : N) : (0 < m)%N -> (m < 2 ^ 53)%N ->
  declared (Some (num m)) = Some (num m).
Proof.
  intros Hpos Hlt. apply declared_Some. rewrite num_of_Z.
  destruct m as [|p]; [lia|].
  change (Z.of_N (N.pos p)) with (Zpos p).
  rewrite of_Z_pos; [reflexivity|]. apply digits2_pos_le_53.
  apply N2Z.inj_lt in Hlt. rewrite N2Z.inj_pow in Hlt. exact Hlt.
Qed.

Lemma wordLimit_statuses r t (m : N) :
  t <> "" ->
  (Z.of_nat (String.length t) < 2 ^ 53)%Z ->
  maxWords r = Some (num m) -> (0 < m)%N -> (m < 2 ^ 53)%N ->
  map status (wordLimit toString r (Some t))
  = (if (Z.of_N m <? Z.of_nat (countWords t))%Z then [fail]
     else if Binary64.gt (wordCount t)
               (Binary64.mul (num m) (Binary64.of_decimal false 9 (-1)))
          then [warn]
          else if (0 <? countWords t)%nat then [pass] else []).
Proof.
  intros Hne Hlen Hmax Hpos Hlt. unfold wordLimit.
  rewrite Hmax, (declared_num m Hpos Hlt).
  assert (Hpresent : present (Some t) = true).
  { destruct t; [contradiction | reflexivity]. }
  rewrite Hpresent. change (textOf (Some t)) with t. cbv zeta.
  pose proof (countWords_length t) as Hw.
  assert (Hm : (0 <= Z.of_N m < 2 ^ 53)%Z).
  { split; [lia|]. apply N2Z.inj_lt in Hlt. now rewrite N2Z.inj_pow in Hlt. }
  assert (Hgt : Binary64.gt (wordCount t) (num m)
                = (Z.of_N m <? Z.of_nat (countWords t))%Z).
  { unfold wordCount. rewrite num_of_Z. apply of_Z_gt; [lia | exact Hm]. }
  assert (Hzero : Binary64.gt (wordCount t) (num 0) = (0 <? countWords t)%nat).
  { unfold wordCount. rewrite num_of_Z. rewrite of_Z_gt by (cbn; lia).
    change (Z.of_N 0) with 0%Z.
    destruct (countWords t); reflexivity. }
  rewrite Hgt, Hzero.
  destruct (Z.of_N m <? Z.of_nat (countWords t))%Z; [reflexivity|].
  destruct (Binary64.gt (wordCount t) (Binary64.mul _ _)); [reflexivity|].
  now destruct (0 <? countWords t)%nat.
Qed.

Lemma pageLimit_statuses r t (p : N) :
  t <> "" ->
  (Z.of_nat (countWords t) <= 50000)%Z ->
  maxPages r = Some (num p) -> (0 < p)%N -> (p < 2 ^ 53)%N ->
  map status (pageLimit toString r (Some t))
  = [if (300 * Z.of_N p <? Z.of_nat (countWords t))%Z then fail else pass].
Proof.
  intros Hne Hw Hmax Hpos Hlt. unfold pageLimit.
  rewrite Hmax, (declared_num p Hpos Hlt).
  assert (Hpresent : present (Some t) = true).
  { destruct t; [contradiction | reflexivity]. }
  rewrite Hpresent. change (textOf (Some t)) with t. cbv zeta.
  rewrite (estimatePages_bounded t Hw), num_of_Z.
  assert (Hp : (0 <= Z.of_N p < 2 ^ 53)%Z).
  { split; [lia|]. apply N2Z.inj_lt in Hlt. now rewrite N2Z.inj_pow in Hlt. }
  assert (Hpages : (0 <= pagesOf (Z.of_nat (countWords t)) <= 168)%Z).
  { unfold pagesOf. split.
    - apply Z.div_pos; lia.
    - apply Z.div_le_upper_bound; lia. }
  rewrite of_Z_gt by lia.
  f_equal.
  destruct (Z.ltb_spec (Z.of_N p) (pagesOf (Z.of_nat (countWords t))))
    as [Hover | Hwithin];
    destruct (Z.ltb_spec (300 * Z.of_N p) (Z.of_nat (countWords t)))
    as [Hover' | Hwithin'];
    try reflexivity; unfold pagesOf in *; exfalso;
    Z.to_euclidean_division_equations; lia.
Qed.

End SectionLimits.

(** X11: the word limit of a section whose text is resolved (and, for a required
    section, at least 50 characters long): with a limit of [m] words the
    iteration emits one [fail] finding when the text has more than [m]
    words; otherwise one [warn] finding when the count exceeds [m * 0.9],
    one [pass] finding when the text has a word at all, and nothing for a
    text without words.  The findings are among the results of the run. *)
Theorem word_limit_outcomes :
  forall (toLocaleString toString : Binary64.number -> string)
         (proposalText : option string) (sections : option (list (string * string)))
         (fd : Templates.funderData) (idx : option Z)
         (budget duration : jsval Binary64.number) (scheme : Templates.scheme)
         (sects : list Templates.section) (r : Templates.section)
         (t : string) (m : N),
    Templates.selectedScheme fd idx = Some scheme ->
    Templates.sections scheme = Some sects -> In r sects ->
    Templates.findSection sections proposalText (Templates.name r) = Some t ->
    t <> "" -> (Z.of_nat (String.length t) < 2 ^ 53)%Z ->
    (Templates.required r = true -> (50 <= String.length (JsString.trim t))%nat) ->
    Templates.maxWords r = Some (Templates.num m) -> (0 < m)%N -> (m < 2 ^ 53)%N ->
    let emitted := Templates.wordLimit toString r (Some t) in
    Templates.sectionChecks toString sections proposalText r
    = ((if Templates.required r then [Templates.presentSection r] else [])
       ++ emitted ++ Templates.pageLimit toString r (Some t))%list
    /\ map Templates.status emitted
       = (if (Z.of_N m <? Z.of_nat (Templates.countWords t))%Z then [Templates.fail]
          else if Binary64.gt (Templates.wordCount t)
                    (Binary64.mul (Templates.num m) (Binary64.of_decimal false 9 (-1)))
               then [Templates.warn]
               else if (0 <? Templates.countWords t)%nat then [Templates.pass] else [])
    /\ Forall (fun f =>
                 Templates.check f = "Section: " ++ Templates.name r ++ " (Word Limit)"
                 /\ In f (Templates.results
                            (Templates.runComplianceChecks toLocaleString toString
                               proposalText sections fd idx budget duration)))
              emitted.
Proof.
  intros tls ts pt secs fd idx b d s sects r t m Hsel Hsects Hr Hfound Hne Hlen Hlong
         Hmax Hpos Hlt emitted.
  pose proof (sectionChecks_resolved ts secs pt r t Hfound Hne Hlong) as Hshape.
  split; [exact Hshape|]. split.
  - now apply wordLimit_statuses.
  - apply List.Forall_forall. intros f Hf. split.
    + subst emitted. unfold Templates.wordLimit in Hf.
      destruct (Templates.declared (Templates.maxWords r)); [|destruct Hf].
      destruct (Templates.present (Some t)); [|destruct Hf]. cbv zeta in Hf.
      repeat match type of Hf with
             | In _ (if ?c then _ else _) => destruct c
             end;
        try destruct Hf as [<- | []]; try reflexivity; destruct Hf.
    + apply (sectionChecks_in_results tls ts pt secs fd idx b d s sects r f Hsel Hsects Hr).
      rewrite Hshape. rewrite !in_app_iff. right. left. exact Hf.
Qed.

Lemma word_limit_outcomes_witness :
  map Templates.status
      (Templates.wordLimit Examples.digits Samples.methods
         (Some "We count four words."))
  = [Templates.fail].
Proof.
  apply (proj1 (proj2
           (word_limit_outcomes Examples.digits Examples.digits None
              (Some [("Methods", "We count four words.")])
              (Examples.funder Samples.limitedScheme) None JUndefined JUndefined
              Samples.limitedScheme [Samples.methods] Samples.methods
              "We count four words." 3%N
              eq_refl eq_refl (or_introl eq_refl) eq_refl
              ltac:(discriminate) ltac:(cbn; lia) ltac:(discriminate)
              eq_refl eq_refl eq_refl))).
Defined.

(** X12: the page limit of a section whose text is resolved: a text of up to
    50000 words is estimated at [ceil (words / 300)] pages, and with a limit
    of [p] pages the iteration emits one finding, [fail] exactly when the
    text has more than [300 * p] words and [pass] otherwise, also for a text
    without words. *)
Theorem page_limit_outcomes :
  forall (toLocaleString toString : Binary64.number -> string)
         (proposalText : option string) (sections : option (list (string * string)))
         (fd : Templates.funderData) (idx : option Z)
         (budget duration : jsval Binary64.number) (scheme : Templates.scheme)
         (sects : list Templates.section) (r : Templates.section)
         (t : string) (p : N),
    Templates.selectedScheme fd idx = Some scheme ->
    Templates.sections scheme = Some sects -> In r sects ->
    Templates.findSection sections proposalText (Templates.name r) = Some t ->
    t <> "" -> (Z.of_nat (Templates.countWords t) <= 50000)%Z ->
    (Templates.required r = true -> (50 <= String.length (JsString.trim t))%nat) ->
    Templates.maxPages r = Some (Templates.num p) -> (0 < p)%N -> (p < 2 ^ 53)%N ->
    let emitted := Templates.pageLimit toString r (Some t) in
    Templates.estimatePages t
    = Binary64.of_Z ((Z.of_nat (Templates.countWords t) + 299) / 300)
    /\ map Templates.status emitted
       = [if (300 * Z.of_N p <? Z.of_nat (Templates.countWords t))%Z
          then Templates.fail else Templates.pass]
    /\ Forall (fun f =>
                 Templates.check f = "Section: " ++ Templates.name r ++ " (Page Limit)"
                 /\ In f (Templates.results
                            (Templates.runComplianceChecks toLocaleString toString
                               proposalText sections fd idx budget duration)))
              emitted.
Proof.
  intros tls ts pt secs fd idx b d s sects r t p Hsel Hsects Hr Hfound Hne Hw Hlong
         Hmax Hpos Hlt emitted.
  pose proof (sectionChecks_resolved ts secs pt r t Hfound Hne Hlong) as Hshape.
  split; [exact (estimatePages_bounded t Hw)|]. split.
  - now apply pageLimit_statuses.
  - apply List.Forall_forall. intros f Hf. split.
    + subst emitted. unfold Templates.pageLimit in Hf.
      destruct (Templates.declared (Templates.maxPages r)); [|destruct Hf].
      destruct (Templates.present (Some t)); [|destruct Hf]. cbv zeta in Hf.
      repeat match type of Hf with
             | In _ (if ?c then _ else _) => destruct c
             end;
        try destruct Hf as [<- | []]; reflexivity.
    + apply (sectionChecks_in_results tls ts pt secs fd idx b d s sects r f Hsel Hsects Hr).
      rewrite Hshape. rewrite !in_app_iff. right. right. exact Hf.
Qed.

Lemma page_limit_outcomes_witness :
  map Templates.status
      (Templates.pageLimit Examples.digits Samples.methods
         (Some "We count four words."))
  = [Templates.pass].
Proof.
  apply (proj1 (proj2
           (page_limit_outcomes Examples.digits Examples.digits None
              (Some [("Methods", "We count four words.")])
              (Examples.funder Samples.limitedScheme) None JUndefined JUndefined
              Samples.limitedScheme [Samples.methods] Samples.methods
              "We count four words." 1%N
              eq_refl eq_refl (or_introl eq_refl) eq_refl
              ltac:(discriminate) ltac:(vm_compute; discriminate) ltac:(discriminate)
              eq_refl eq_refl eq_refl))).
Defined.

(** ** The cost models and the staff items *)

Section CostModels.
Context {num : Type} `{JsNumber num}.
Import Requests.

Lemma default_model (bd : Budget.budgetData num) (model : string) :
  default "fEC" (Budget.costModel bd) = model ->
  Budget.costModel bd = Some model \/ (Budget.costModel bd = None /\ model = "fEC").
Proof. destruct (Budget.costModel bd); cbn; intros <-; auto. Qed.

End CostModels.

(** X13: the cost model selects the one rate that is read: [customRate] only
    under the model 'custom' and [fecRate] under every model but 'full' and
    'custom'.  A model that is not one of 'fEC', 'full' and 'custom' is
    computed as 'fEC' and only echoed in the summary.  Under 'full' the
    funder pays the full economic cost at a rate of [round(1 * 100)]. *)
Theorem cost_model_selects_the_rate :
  forall (num : Type) (ops : JsNumber num) (bd : Budget.budgetData num),
    (forall rate, Budget.costModel bd <> Some "custom" ->
                  Budget.calculateBudget (Requests.withCustomRate bd rate)
                  = Budget.calculateBudget bd)
    /\ (forall rate, Budget.costModel bd = Some "full"
                     \/ Budget.costModel bd = Some "custom" ->
                     Budget.calculateBudget (Requests.withFecRate bd rate)
                     = Budget.calculateBudget bd)
    /\ (forall model, Budget.costModel bd = Some model ->
                      model <> "full" -> model <> "custom" ->
                      let out := Budget.calculateBudget bd in
                      let fec :=
                        Budget.calculateBudget (Requests.withCostModel bd (Some "fEC")) in
                      Budget.out_categories out = Budget.out_categories fec
                      /\ Budget.out_summary out
                         = {| Budget.directCosts := Budget.directCosts (Budget.out_summary fec);
                              Budget.indirectCosts :=
                                Budget.indirectCosts (Budget.out_summary fec);
                              Budget.sum_overheadRate :=
                                Budget.sum_overheadRate (Budget.out_summary fec);
                              Budget.fullEconomicCost :=
                                Budget.fullEconomicCost (Budget.out_summary fec);
                              Budget.sum_costModel := model;
                              Budget.funderRate := Budget.funderRate (Budget.out_summary fec);
                              Budget.funderContribution :=
                                Budget.funderContribution (Budget.out_summary fec);
                              Budget.institutionContribution :=
                                Budget.institutionContribution (Budget.out_summary fec) |})
    /\ (Budget.costModel bd = Some "full" ->
        let s := Budget.out_summary (Budget.calculateBudget bd) in
        Budget.funderContribution s = Budget.fullEconomicCost s
        /\ Budget.institutionContribution s = Budget.lit 0
        /\ Budget.funderRate s = Budget.round (Budget.lit 1 * Budget.lit 100)%js).
Proof.
  intros num ops bd.
  assert (Hcalc : forall model, Budget.costModel bd = Some model ->
                                default "fEC" (Budget.costModel bd) = model)
    by now intros model ->.
  split; [|split; [|split]].
  - intros rate Hmodel. unfold Budget.calculateBudget.
    cbn [Requests.withCustomRate Budget.staff Budget.travel Budget.equipment
         Budget.consumables Budget.other Budget.subcontracting Budget.costModel
         Budget.fecRate Budget.overheadRate Budget.customRate].
    destruct (default_model bd _ eq_refl) as [Hm | (Hm & Hfec)].
    + destruct (String.eqb_spec (default "fEC" (Budget.costModel bd)) "fEC");
        [reflexivity|].
      destruct (String.eqb_spec (default "fEC" (Budget.costModel bd)) "full");
        [reflexivity|].
      destruct (String.eqb_spec (default "fEC" (Budget.costModel bd)) "custom")
        as [Hc|]; [|reflexivity].
      rewrite Hc in Hm. contradiction.
    + rewrite Hfec. reflexivity.
  - intros rate Hmodel. unfold Budget.calculateBudget.
    cbn [Requests.withFecRate Budget.staff Budget.travel Budget.equipment
         Budget.consumables Budget.other Budget.subcontracting Budget.costModel
         Budget.fecRate Budget.overheadRate Budget.customRate].
    destruct Hmodel as [-> | ->]; reflexivity.
  - intros model Hmodel Hfull Hcustom. cbv zeta. unfold Budget.calculateBudget.
    cbn [Requests.withCostModel Budget.staff Budget.travel Budget.equipment
         Budget.consumables Budget.other Budget.subcontracting Budget.costModel
         Budget.fecRate Budget.overheadRate Budget.customRate].
    rewrite (Hcalc model Hmodel). cbn [from_option id].
    destruct (String.eqb_spec model "fEC") as [->|]; [split; reflexivity|].
    destruct (String.eqb_spec model "full"); [contradiction|].
    destruct (String.eqb_spec model "custom"); [contradiction|].
    split; reflexivity.
  - intros Hmodel. cbv zeta. unfold Budget.calculateBudget.
    rewrite (Hcalc "full" Hmodel). repeat split.
Qed.

Lemma cost_model_selects_the_rate_witness :
  let s :=
    Budget.out_summary
      (Budget.calculateBudget
         (Requests.withCostModel
            (Examples.request [Examples.costOf (Binary64.of_Z 1000)] [] [])
            (Some "full"))) in
  Budget.funderContribution s = Budget.fullEconomicCost s
  /\ Budget.institutionContribution s = Budget.lit 0
  /\ Budget.funderRate s = Budget.round (Budget.lit 1 * Budget.lit 100)%js.
Proof.
  apply (proj2 (proj2 (proj2 (cost_model_selects_the_rate Binary64.number _
           (Requests.withCostModel
              (Examples.request [Examples.costOf (Binary64.of_Z 1000)] [] [])
              (Some "full")))))).
  reflexivity.
Defined.

Section StaffShare.
Import Requests Numbers.

Lemma same_refl (x : Binary64.number) : same x x = true.
Proof.
  destruct x as [[]|[]| |[] m e]; cbn [same Bool.eqb andb]; try reflexivity;
    now rewrite Pos.eqb_refl, Z.eqb_refl.
Qed.

Lemma same_iff (x y : Binary64.number) : same x y = true <-> x = y.
Proof. split; [apply same_eq | intros ->; apply same_refl]. Qed.

Lemma fte_agrees_up_to_100 :
  forallb fteAgrees (map N.of_nat (seq 1 100)) = true.
Proof. vm_compute. reflexivity. Qed.

Lemma existsb_N_In (p : N) (l : list N) : existsb (N.eqb p) l = true <-> In p l.
Proof.
  rewrite existsb_exists. split.
  - intros (q & Hin & ->%N.eqb_eq). exact Hin.
  - intros Hin. exists p. split; [exact Hin | apply N.eqb_refl].
Qed.

End StaffShare.

(** X14: the share of time of a staff item does not always come back as it was
    given: [fte] is read, divided by 100 and written back multiplied by
    100, on the Numbers of the program.  Among the whole percentages from 1
    to 100 the Number written back is the one given except for 7, 14, 28,
    29, 55, 56, 57 and 58. *)
Theorem staff_fte_written_back :
  forall (item : gmap string (jsval Binary64.number)) (p : N),
    (1 <= p <= 100)%N ->
    item !! "fte" = Some (JNumber (Budget.lit p)) ->
    let written := numberOf (Budget.staffItem item) "fte" in
    written = (Budget.lit p / Budget.lit 100 * Budget.lit 100)%js
    /\ (written = Budget.lit p <-> ~ In p Requests.unstablePercentages).
Proof.
  intros item p Hp Hfte written.
  pose proof fte_agrees_up_to_100 as Hall. rewrite forallb_forall in Hall.
  assert (Hin : In p (map N.of_nat (seq 1 100))).
  { apply in_map_iff. exists (N.to_nat p). split; [apply N2Nat.id|].
    apply in_seq. lia. }
  apply Hall in Hin. unfold Requests.fteAgrees in Hin. cbv zeta in Hin.
  apply andb_prop in Hin as (Hread & Hstable).
  apply same_eq in Hread.
  assert (Hwritten : written = (Budget.lit p / Budget.lit 100 * Budget.lit 100)%js).
  { subst written. unfold Budget.staffItem. cbv zeta.
    unfold numberOf. rewrite !lookup_insert_ne by discriminate.
    rewrite lookup_insert_eq. unfold prop. rewrite Hfte. cbn [from_option id].
    now rewrite Hread. }
  split; [exact Hwritten|].
  rewrite Hwritten, <- same_iff, <- existsb_N_In.
  rewrite Hread in Hstable.
  destruct (Numbers.same _ _), (existsb _ _); cbn in Hstable; try discriminate;
    split; congruence.
Qed.

Lemma staff_fte_written_back_witness :
  let written : Binary64.number :=
    numberOf (Budget.staffItem {[ "fte" := JNumber (Budget.lit 7) ]}) "fte" in
  written = (Budget.lit 7 / Budget.lit 100 * Budget.lit 100)%js
  /\ (written = Budget.lit 7 <-> ~ In 7%N Requests.unstablePercentages).
Proof.
  apply (staff_fte_written_back {[ "fte" := JNumber (Budget.lit 7) ]} 7%N);
    [lia | reflexivity].
Defined.

Section RateFacts.
Import Rates.

Lemma rates_agree_up_to_100 :
  Numbers.holdsFrom rateAgrees (Z.to_nat 10000) 0 = true.
Proof. vm_compute. reflexivity. Qed.

Lemma rate_reported (p : N) :
  (p <= 10000)%N ->
  let given := Binary64.of_decimal false p (-2) in
  Budget.round (given / Budget.lit 100 * Budget.lit 100)%js = given.
Proof.
  intros Hp given. apply same_eq.
  pose proof (holdsFrom_spec rateAgrees (Z.to_nat 10000) 0 (Z.of_N p)
                rates_agree_up_to_100 ltac:(lia)) as Hall.
  unfold rateAgrees in Hall. cbv zeta in Hall. now rewrite N2Z.id in Hall.
Qed.

End RateFacts.

(** X15: the rate of the funder comes back as it was given.  For a share
    between 0 and 100 with up to two decimals, given as [fecRate] under the
    model 'fEC' or under a model that is not recognised, or as [customRate]
    under the model 'custom', the [funderRate] of the summary is the Number
    that was given: the division by 100 and the multiplication by 100 are
    undone by the rounding to two decimals. *)
Theorem funder_rate_is_the_rate_given :
  forall (bd : Budget.budgetData Binary64.number) (p : N),
    (p <= 10000)%N ->
    let given := Binary64.of_decimal false p (-2) in
    let reported := Budget.funderRate (Budget.out_summary (Budget.calculateBudget bd)) in
    (Budget.costModel bd <> Some "full" -> Budget.costModel bd <> Some "custom" ->
     Budget.fecRate bd = Some given -> reported = given)
    /\ (Budget.costModel bd = Some "custom" ->
        Budget.customRate bd = Some given -> reported = given).
Proof.
  intros bd p Hp given reported. subst reported.
  pose proof (rate_reported p Hp) as Hrate. cbv zeta in Hrate. fold given in Hrate.
  unfold Budget.calculateBudget. split.
  - intros Hfull Hcustom ->. cbn [from_option id].
    destruct (Budget.costModel bd) as [model|]; cbn [from_option id].
    + destruct (String.eqb_spec model "fEC"); [exact Hrate|].
      destruct (String.eqb_spec model "full"); [congruence|].
      destruct (String.eqb_spec model "custom"); [congruence|].
      exact Hrate.
    + exact Hrate.
  - intros -> ->. exact Hrate.
Qed.

Lemma funder_rate_is_the_rate_given_witness :
  Budget.funderRate
    (Budget.out_summary
       (Budget.calculateBudget
          (Requests.withFecRate (Examples.request [] [] [])
             (Some (Binary64.of_decimal false 6275 (-2))))))
  = Binary64.of_decimal false 6275 (-2).
Proof.
  apply (proj1 (funder_rate_is_the_rate_given
                  (Requests.withFecRate (Examples.request [] [] [])
                     (Some (Binary64.of_decimal false 6275 (-2))))
                  6275%N ltac:(lia)));
    [discriminate | discriminate | reflexivity].
Defined.

Section PlainRequests.
Import Amounts.
Implicit Types (item : gmap string (jsval Exact.number)).

Lemma notNegative_inv (x : Exact.number) :
  notNegative x -> exists q, x = Exact.XFin q /\ (0 <= q)%Q.
Proof. destruct x; try contradiction. eauto. Qed.

Lemma add_notNegative (x y : Exact.number) :
  notNegative x -> notNegative y -> notNegative (x + y)%js.
Proof.
  intros (p & -> & Hp)%notNegative_inv (q & -> & Hq)%notNegative_inv.
  rewrite exact_add. cbn [notNegative].
  change 0%Q with (0 + 0)%Q. now apply Qplus_le_compat.
Qed.

Lemma mul_notNegative (x y : Exact.number) :
  notNegative x -> notNegative y -> notNegative (x * y)%js.
Proof.
  intros (p & -> & Hp)%notNegative_inv (q & -> & Hq)%notNegative_inv.
  rewrite exact_mul. cbn [notNegative]. now apply Qmult_le_0_compat.
Qed.

Lemma div_lit_notNegative (x : Exact.number) (p : positive) :
  notNegative x -> notNegative (x / Budget.lit (Npos p))%js.
Proof.
  intros (q & -> & Hq)%notNegative_inv. rewrite exact_div_lit. cbn [notNegative].
  apply Qle_shift_div_l; [reflexivity|]. now rewrite Qmult_0_l.
Qed.

Lemma Qfloor_notNegative (q : Q) : (0 <= q)%Q -> (0 <= Qfloor q)%Z.
Proof. intros Hq. change 0%Z with (Qfloor 0). now apply Qfloor_resp_le. Qed.

Lemma hundredths_notNegative (a : Z) :
  (0 <= a)%Z -> (0 <= inject_Z a / (inject_Z 100 * 1))%Q.
Proof.
  intros Ha. apply Qle_shift_div_l; [reflexivity|]. rewrite Qmult_0_l.
  change 0%Q with (inject_Z 0). now rewrite <- Zle_Qle.
Qed.

Lemma round_notNegative (x : Exact.number) :
  notNegative x -> notNegative (Budget.round x).
Proof.
  intros (q & -> & Hq)%notNegative_inv. rewrite round_exact. cbn [notNegative].
  apply hundredths_notNegative, Qfloor_notNegative.
  change 0%Q with (0 + 0)%Q. apply Qplus_le_compat; [|discriminate].
  apply Qmult_le_0_compat; [exact Hq | discriminate].
Qed.

Lemma default_notNegative (item : gmap string (jsval Exact.number)) (k : string)
      (d : Exact.number) :
  plainItem item -> notNegative d ->
  notNegative (parseFloat (prop item k) ||| d)%js.
Proof.
  intros Hitem Hd. specialize (Hitem k).
  destruct (parseFloat (prop item k)) as [| |q]; [exact Hd | contradiction |].
  cbn [ToBoolean exact Exact.truthy]. now destruct (negb (Exact.isZero q)).
Qed.

Lemma lit_notNegative (n : N) : notNegative (Budget.lit n).
Proof.
  rewrite lit_exact. cbn [notNegative]. rewrite Qmult_1_r.
  change 0%Q with (inject_Z 0). rewrite <- Zle_Qle. lia.
Qed.

Lemma staffItem_notNegative item :
  plainItem item -> notNegative (numberOf (Budget.staffItem item) "total").
Proof.
  intros Hitem. rewrite staffItem_total. cbv zeta.
  apply round_notNegative.
  assert (Hbase : notNegative
            ((parseFloat (prop item "salary") ||| Budget.lit 0)
             * ((parseFloat (prop item "fte") ||| Budget.lit 100) / Budget.lit 100)
             / Budget.lit 12
             * (parseFloat (prop item "months") ||| Budget.lit 0))%js).
  { apply mul_notNegative;
      [apply div_lit_notNegative, mul_notNegative; [|apply div_lit_notNegative]|];
      apply default_notNegative; auto using lit_notNegative. }
  apply add_notNegative; [exact Hbase|].
  apply mul_notNegative; [exact Hbase|].
  apply default_notNegative; [exact Hitem|].
  unfold Budget.DEFAULT_ON_COST_RATE. cbn. discriminate.
Qed.

Lemma travelItem_notNegative item :
  plainItem item -> notNegative (numberOf (Budget.travelItem item) "total").
Proof.
  intros Hitem. rewrite travelItem_total.
  apply round_notNegative, mul_notNegative; apply default_notNegative;
    auto using lit_notNegative.
Qed.

Lemma costItem_notNegative item :
  plainItem item -> notNegative (numberOf (Budget.costItem item) "total").
Proof.
  intros Hitem. rewrite costItem_total.
  apply round_notNegative, default_notNegative; auto using lit_notNegative.
Qed.

Lemma fold_notNegative (l : list Exact.number) (acc : Exact.number) :
  Forall notNegative l -> notNegative acc ->
  notNegative (fold_left (fun a b => a + b)%js l acc).
Proof.
  intros Hl. revert acc. induction Hl as [|x l Hx _ IH]; intros acc Hacc; [exact Hacc|].
  cbn [fold_left]. apply IH. now apply add_notNegative.
Qed.

Lemma sum_notNegative
      (f : gmap string (jsval Exact.number) -> gmap string (jsval Exact.number))
      (l : list (gmap string (jsval Exact.number))) :
  (forall item, plainItem item -> notNegative (numberOf (f item) "total")) ->
  Forall plainItem l ->
  notNegative (Budget.sum (Budget.totals (map f l))).
Proof.
  intros Hf Hl. unfold Budget.sum, Budget.totals.
  apply round_notNegative, fold_notNegative; [|apply lit_notNegative].
  induction Hl as [|item l Hitem _ IH]; cbn [map]; constructor; auto.
Qed.

(** The split of a full economic cost that is not negative, at a share
    between 0 and 1. *)
Lemma split_bounds (q rate : Q) :
  (0 <= q)%Q -> (0 <= rate)%Q -> (rate <= 1)%Q ->
  let fullEconomicCost := Budget.round (Exact.XFin q) in
  let funderContribution := Budget.round (fullEconomicCost * Exact.XFin rate)%js in
  let institutionContribution :=
    Budget.round (fullEconomicCost - funderContribution)%js in
  notNegative funderContribution /\ notNegative institutionContribution
  /\ atMost funderContribution fullEconomicCost.
Proof.
  intros Hq Hlow Hhigh. cbv zeta. rewrite (round_exact q).
  set (a := Qfloor (q * (inject_Z 100 * 1) + (1 # 2))).
  assert (Ha : (0 <= a)%Z).
  { apply Qfloor_notNegative. change 0%Q with (0 + 0)%Q.
    apply Qplus_le_compat; [|discriminate].
    apply Qmult_le_0_compat; [exact Hq | discriminate]. }
  assert (HaQ : (0 <= inject_Z a)%Q).
  { change 0%Q with (inject_Z 0). now rewrite <- Zle_Qle. }
  rewrite exact_mul, round_exact.
  set (b := Qfloor (inject_Z a / (inject_Z 100 * 1) * rate * (inject_Z 100 * 1) + (1 # 2))).
  assert (Harg : (inject_Z a / (inject_Z 100 * 1) * rate * (inject_Z 100 * 1) + (1 # 2)
                  == inject_Z a * rate + (1 # 2))%Q) by field.
  assert (Hb : (0 <= b)%Z).
  { apply Qfloor_notNegative. rewrite Harg. change 0%Q with (0 + 0)%Q.
    apply Qplus_le_compat; [|discriminate]. now apply Qmult_le_0_compat. }
  assert (Hba : (b <= a)%Z).
  { rewrite <- (Qfloor_half a). apply Qfloor_resp_le. rewrite Harg.
    apply Qplus_le_compat; [|apply Qle_refl].
    rewrite <- (Qmult_1_r (inject_Z a)) at 2.
    rewrite (Qmult_comm (inject_Z a) rate), (Qmult_comm (inject_Z a) 1).
    now apply Qmult_le_compat_r. }
  rewrite exact_sub, round_exact.
  assert (Hd : Qfloor ((inject_Z a / (inject_Z 100 * 1)
                        + - (inject_Z b / (inject_Z 100 * 1)))
                       * (inject_Z 100 * 1) + (1 # 2)) = (a - b)%Z).
  { rewrite <- (Qfloor_half (a - b)). apply Qfloor_comp.
    unfold Z.sub. rewrite inject_Z_plus, inject_Z_opp. field. }
  rewrite Hd. cbn [notNegative atMost].
  split; [now apply hundredths_notNegative|].
  split; [apply hundredths_notNegative; lia|].
  apply Qmult_le_compat_r; [now rewrite <- Zle_Qle | discriminate].
Qed.

Lemma share_bounds (rate : option Exact.number) (n : N) :
  plainShare rate -> (n <= 100)%N ->
  exists r, (default (Budget.lit n) rate / Budget.lit 100)%js = Exact.XFin r
            /\ (0 <= r)%Q /\ (r <= 1)%Q.
Proof.
  intros Hrate Hn.
  assert (Hq : exists q, default (Budget.lit n) rate = Exact.XFin q
                         /\ (0 <= q)%Q /\ (q <= 100)%Q).
  { destruct rate as [[| |q]|]; try contradiction.
    - exists q. split; [reflexivity | exact Hrate].
    - exists (inject_Z (Z.of_N n) * 1)%Q. split; [reflexivity|].
      rewrite Qmult_1_r. change 0%Q with (inject_Z 0). change 100%Q with (inject_Z 100).
      rewrite <- !Zle_Qle. lia. }
  destruct Hq as (q & -> & Hlow & Hhigh).
  rewrite exact_div_lit. eexists. split; [reflexivity|]. split.
  - apply Qle_shift_div_l; [reflexivity|]. now rewrite Qmult_0_l.
  - apply Qle_shift_div_r; [reflexivity|]. now rewrite Qmult_1_l, Qmult_1_r.
Qed.

Lemma overhead_notNegative (rate : option Exact.number) (n : N) :
  plainOverhead rate -> notNegative (default (Budget.lit n) rate).
Proof. destruct rate as [x|]; [intros Hx; exact Hx | intros _; apply lit_notNegative]. Qed.

Lemma atMost_refl (x : Exact.number) : notNegative x -> atMost x x.
Proof. destruct x; try contradiction. intros _. apply Qle_refl. Qed.

Lemma contributions_bounded (bd : Budget.budgetData Exact.number) :
  plainRequest bd ->
  let s := Budget.out_summary (Budget.calculateBudget bd) in
  notNegative (Budget.fullEconomicCost s)
  /\ notNegative (Budget.funderContribution s)
  /\ notNegative (Budget.institutionContribution s)
  /\ atMost (Budget.funderContribution s) (Budget.fullEconomicCost s).
Proof.
  intros (Hitems & Hover & Hfec & Hcustom).
  unfold Budget.lineItems in Hitems.
  repeat (apply Forall_app in Hitems; destruct Hitems as [? Hitems]).
  unfold Budget.calculateBudget. cbv zeta.
  match goal with
  | |- context [Budget.round (?d + Budget.round (?d * ?r))%js] =>
      assert (Hdirect : notNegative d)
        by (repeat apply add_notNegative;
            auto using sum_notNegative, staffItem_notNegative,
              travelItem_notNegative, costItem_notNegative);
      assert (Hfull : notNegative (d + Budget.round (d * r))%js)
        by (apply add_notNegative; [exact Hdirect|];
            apply round_notNegative, mul_notNegative; [exact Hdirect|];
            apply div_lit_notNegative, overhead_notNegative; assumption);
      destruct (notNegative_inv _ Hfull) as (q & -> & Hq)
  end.
  destruct (share_bounds _ 80 Hfec ltac:(lia)) as (rf & Hrf & Hrf0 & Hrf1).
  destruct (share_bounds _ 100 Hcustom ltac:(lia)) as (rc & Hrc & Hrc0 & Hrc1).
  pose proof (round_notNegative (Exact.XFin q) Hq) as Hround.
  pose proof (split_bounds q rf Hq Hrf0 Hrf1) as Hsplitf.
  pose proof (split_bounds q rc Hq Hrc0 Hrc1) as Hsplitc.
  cbv zeta in Hsplitf, Hsplitc.
  rewrite Hrf, Hrc.
  destruct (String.eqb _ "fEC"); [split; [exact Hround | exact Hsplitf]|].
  destruct (String.eqb _ "full").
  { split; [exact Hround|]. split; [exact Hround|]. split;
      [apply lit_notNegative | now apply atMost_refl]. }
  destruct (String.eqb _ "custom"); (split; [exact Hround|]); assumption.
Qed.

End PlainRequests.


Lemma plainItem_of_values (item : gmap string (jsval Exact.number)) :
  map_Forall (fun _ v => match v with
                         | JNumber (Exact.XFin q) => (0 <= q)%Q
                         | _ => False
                         end) item ->
  Amounts.plainItem item.
Proof.
  intros Hall k. unfold prop. destruct (item !! k) as [v|] eqn:Hk; [|exact I].
  specialize (Hall k v Hk). cbn [from_option id].
  destruct v as [| | |[| |q]|]; try contradiction. exact Hall.
Qed.


(** ** The printed page *)

Section EscapeFacts.
Import JsString Pdf Printed.

Lemma append_assoc (a b c : string) : (a ++ b) ++ c = a ++ b ++ c.
Proof. induction a as [|d a IH]; [reflexivity|]. rewrite !append_cons. now rewrite IH. Qed.

Lemma append_nil_r (a : string) : a ++ "" = a.
Proof. induction a as [|d a IH]; [reflexivity|]. rewrite append_cons. now rewrite IH. Qed.

Lemma replaceAll_append (c : ascii) (by_ a b : string) :
  replaceAll c by_ (a ++ b) = replaceAll c by_ a ++ replaceAll c by_ b.
Proof.
  induction a as [|d a IH]; [reflexivity|].
  rewrite append_cons. cbn [replaceAll]. destruct (Ascii.eqb d c).
  - now rewrite IH, append_assoc.
  - now rewrite IH, append_cons.
Qed.

Lemma escapeHtml_append (a b : string) :
  escapeHtml (a ++ b) = escapeHtml a ++ escapeHtml b.
Proof. unfold escapeHtml. now rewrite !replaceAll_append. Qed.

Lemma escapeHtml_unit (c : ascii) : escapeHtml (String c "") = entityOf c.
Proof.
  unfold escapeHtml, entityOf. cbn [replaceAll].
  destruct (Ascii.eqb_spec c "&") as [->|Hamp]; [reflexivity|].
  cbn [replaceAll].
  destruct (Ascii.eqb_spec c "<") as [->|Hlt]; [reflexivity|].
  cbn [replaceAll].
  destruct (Ascii.eqb_spec c ">") as [->|Hgt]; [reflexivity|].
  cbn [replaceAll].
  destruct (Ascii.eqb_spec c "034") as [->|Hquot]; reflexivity.
Qed.

Lemma escapeHtml_entities (s : string) : escapeHtml s = entities s.
Proof.
  induction s as [|c s IH]; [reflexivity|].
  change (String c s) with (String c "" ++ s).
  rewrite escapeHtml_append, escapeHtml_unit, IH. reflexivity.
Qed.

Lemma codeUnits_append (a b : string) :
  Printed.codeUnits (a ++ b) = (Printed.codeUnits a ++ Printed.codeUnits b)%list.
Proof.
  induction a as [|c a IH]; [reflexivity|].
  rewrite append_cons. cbn [Printed.codeUnits app]. now rewrite IH.
Qed.

Lemma entityOf_safe (c : ascii) :
  Forall (fun d => d <> "<"%char /\ d <> ">"%char /\ d <> "034"%char)
         (Printed.codeUnits (entityOf c)).
Proof.
  special_cases c; cbn [Printed.codeUnits];
    repeat constructor; solve [discriminate | assumption].
Qed.

Lemma entityOf_cancel (c d : ascii) (x y : string) :
  entityOf c ++ x = entityOf d ++ y -> c = d /\ x = y.
Proof.
  special_cases c; special_cases d; intros Heq;
    rewrite ?append_cons, ?append_nil_l in Heq;
    try discriminate Heq;
    try (injection Heq; intros; subst; solve [auto | contradiction | congruence]).
Qed.

Lemma entities_injective (a b : string) : entities a = entities b -> a = b.
Proof.
  revert b. induction a as [|c a IH]; intros [|d b] Heq; cbn [entities] in Heq.
  - reflexivity.
  - exfalso. revert Heq. special_cases d; rewrite ?append_cons; discriminate.
  - exfalso. revert Heq. special_cases c; rewrite ?append_cons; discriminate.
  - apply entityOf_cancel in Heq as (-> & Heq). f_equal. now apply IH.
Qed.

End EscapeFacts.

(** X17: [escapeHtml] makes four passes over the text, one for each special
    code unit, and the ampersand first: the result is what a single pass
    gives that writes the entity of every special code unit and copies the
    others.  It follows that escaping distributes over concatenation and
    leaves a text without special code units as it is. *)
Theorem escapeHtml_is_one_pass :
  (forall s : string, Pdf.escapeHtml s = Printed.entities s)
  /\ (forall a b : string, Pdf.escapeHtml (a ++ b) = Pdf.escapeHtml a ++ Pdf.escapeHtml b)
  /\ (forall s : string,
         Forall (fun c => ~ In c ["&"; "<"; ">"; "034"]%char) (Printed.codeUnits s) ->
         Pdf.escapeHtml s = s).
Proof.
  split; [exact escapeHtml_entities|]. split; [exact escapeHtml_append|].
  intros s Hs. rewrite escapeHtml_entities.
  induction s as [|c s IH]; [reflexivity|].
  cbn [Printed.codeUnits] in Hs. apply Forall_cons in Hs as (Hc & Hs).
  cbn [Printed.entities]. rewrite (IH Hs). cbn [In] in Hc.
  unfold Printed.entityOf.
  destruct (Ascii.eqb_spec c "&"); [subst; tauto|].
  destruct (Ascii.eqb_spec c "<"); [subst; tauto|].
  destruct (Ascii.eqb_spec c ">"); [subst; tauto|].
  destruct (Ascii.eqb_spec c "034"); [subst; tauto|].
  reflexivity.
Qed.

(** X18: escaped text is safe and nothing is lost: it holds no [<], no [>] and
    no double quote, and two texts with the same escaped text are the same
    text. *)
Theorem escapeHtml_is_safe_and_lossless :
  (forall s : string,
      Forall (fun c => c <> "<"%char /\ c <> ">"%char /\ c <> "034"%char)
             (Printed.codeUnits (Pdf.escapeHtml s)))
  /\ (forall a b : string, Pdf.escapeHtml a = Pdf.escapeHtml b -> a = b).
Proof.
  split.
  - intros s. rewrite escapeHtml_entities.
    induction s as [|c s IH]; [constructor|].
    cbn [Printed.entities]. rewrite codeUnits_append.
    apply Forall_app_2; [apply entityOf_safe | exact IH].
  - intros a b. rewrite !escapeHtml_entities. apply entities_injective.
Qed.

Example mdToHtml_renders_markdown :
  Pdf.mdToHtml ("# Aims & scope" ++ JsString.newline ++ "We **will** test *two* <ideas>."
                ++ JsString.newline ++ JsString.newline ++ "- one" ++ JsString.newline
                ++ "- two")
  = "<p><h2>Aims &amp; scope</h2><br>We <strong>will</strong> test <em>two</em> &lt;ideas&gt;.</p><p><ul><li>one</li><br><li>two</li></ul></p>".
Proof. vm_compute. reflexivity. Qed.

Section MarkdownFacts.
Import JsString RegExp Pdf Printed.

Lemma headed_lit (c : ascii) : headed (RLit c) c.
Proof.
  intros A prev s k Hs. cbn [rmatch RLit]. destruct s as [|d s']; [reflexivity|].
  destruct (Ascii.eqb_spec c d) as [<-|]; [|reflexivity].
  now destruct (Hs s').
Qed.

Lemma headed_seq (r1 r2 : regex) (c : ascii) : headed r1 c -> headed (RSeq r1 r2) c.
Proof. intros H1 A prev s k Hs. cbn [rmatch]. now apply H1. Qed.

Lemma headed_str (c : ascii) (w : string) : headed (RStr RLit (String c w)) c.
Proof. cbn [RStr]. apply headed_seq, headed_lit. Qed.

Lemma headed_plus (greedy : bool) (r : regex) (c : ascii) :
  headed r c -> headed (RPlus greedy r) c.
Proof. intros Hr. unfold RPlus. now apply headed_seq. Qed.

Lemma replaceMatches_nowhere lineStart r f prev s :
  nowhere lineStart r prev s -> replaceMatches lineStart r f prev s 0 = s.
Proof.
  revert prev. induction s as [|c s IH]; intros prev (Hhere & Hrest);
    cbn [replaceMatches]; rewrite Hhere; [reflexivity|].
  now rewrite IH.
Qed.

(** A pattern headed by a code unit that the text does not hold matches
    nowhere in it. *)
Lemma nowhere_absent lineStart r c prev s :
  headed r c -> Forall (fun d => d <> c) (Printed.codeUnits s) -> nowhere lineStart r prev s.
Proof.
  intros Hr. revert prev. induction s as [|d s IH]; intros prev Hs.
  - split; [|exact I]. unfold matchHere, matchAt.
    destruct (lineStart && _); [reflexivity|]. now apply Hr.
  - cbn [Printed.codeUnits] in Hs. apply Forall_cons in Hs as (Hd & Hs).
    split; [|now apply IH]. unfold matchHere, matchAt.
    destruct (lineStart && _); [reflexivity|]. apply Hr. intros s' [= -> _].
    now apply Hd.
Qed.

(** A pattern anchored at the start of a line and headed by a code unit
    that does not open the text matches nowhere in a text of one line. *)
Lemma nowhere_in_a_line r c s :
  headed r c -> (forall s', s <> String c s') ->
  Forall (fun d => isLineTerminator d = false) (Printed.codeUnits s) ->
  nowhere true r None s.
Proof.
  intros Hr Hhead Hline.
  assert (Hlater : forall s' d, isLineTerminator d = false ->
                     Forall (fun d => isLineTerminator d = false) (Printed.codeUnits s') ->
                     nowhere true r (Some d) s').
  { induction s' as [|e s' IH]; intros d Hd Hs'; (split; [|]).
    - unfold matchHere. cbn [atLineStart]. now rewrite Hd.
    - exact I.
    - unfold matchHere. cbn [atLineStart]. now rewrite Hd.
    - cbn [Printed.codeUnits] in Hs'. apply Forall_cons in Hs' as (He & Hs').
      now apply IH. }
  destruct s as [|d s].
  - split; [|exact I]. unfold matchHere, matchAt. cbn [atLineStart negb andb].
    now apply Hr.
  - cbn [Printed.codeUnits] in Hline. apply Forall_cons in Hline as (Hd & Hline).
    split; [|now apply Hlater].
    unfold matchHere, matchAt. cbn [atLineStart negb andb]. now apply Hr.
Qed.

Lemma replaceAll_absent (c : ascii) (by_ s : string) :
  Forall (fun d => d <> c) (Printed.codeUnits s) -> replaceAll c by_ s = s.
Proof.
  induction s as [|d s IH]; [reflexivity|].
  cbn [Printed.codeUnits]. intros (Hd & Hs)%Forall_cons. cbn [replaceAll].
  destruct (Ascii.eqb_spec d c); [contradiction|]. now rewrite IH.
Qed.

(** What holds of the code units of a text and of a replacement holds of
    the code units of the text after the replacement. *)
Lemma replaceAll_units (P : ascii -> Prop) (c : ascii) (by_ s : string) :
  Forall P (Printed.codeUnits by_) -> Forall P (Printed.codeUnits s) ->
  Forall P (Printed.codeUnits (replaceAll c by_ s)).
Proof.
  intros Hby. induction s as [|d s IH]; [constructor|].
  cbn [Printed.codeUnits]. intros (Hd & Hs)%Forall_cons. cbn [replaceAll].
  destruct (Ascii.eqb d c).
  - rewrite codeUnits_append. apply Forall_app_2; auto.
  - cbn [Printed.codeUnits]. constructor; auto.
Qed.

Lemma replaceAll_removes (c : ascii) (by_ s : string) :
  Forall (fun d => d <> c) (Printed.codeUnits by_) ->
  Forall (fun d => d <> c) (Printed.codeUnits (replaceAll c by_ s)).
Proof.
  intros Hby. induction s as [|d s IH]; [constructor|].
  cbn [replaceAll]. destruct (Ascii.eqb_spec d c).
  - rewrite codeUnits_append. apply Forall_app_2; auto.
  - cbn [Printed.codeUnits]. constructor; auto.
Qed.

(** The first code unit after a replacement: the one of the text, or the
    one of the replacement. *)
Lemma replaceAll_head (c e : ascii) (by_ s : string) :
  (forall s', by_ <> String e s') -> by_ <> "" ->
  (forall s', s <> String e s') ->
  forall s', replaceAll c by_ s <> String e s'.
Proof.
  intros Hby Hne Hs s'. destruct s as [|d s]; [discriminate|].
  cbn [replaceAll]. destruct (Ascii.eqb d c).
  - destruct by_ as [|b by']; [contradiction|]. rewrite append_cons.
    intros [= -> _]. now apply (Hby by').
  - intros [= -> _]. now apply (Hs s).
Qed.

End MarkdownFacts.

(** X19: [mdToHtml] on a line of plain text, that is a text without line
    terminator and without asterisk that starts neither with [#] nor with
    [-]: the three special code units [&], [<] and [>] are written as
    entities and the line is wrapped in one paragraph.  No tag typed by the
    author reaches the page. *)
Theorem mdToHtml_of_a_plain_line :
  forall text : string,
    text <> "" ->
    Forall (fun c => c <> "*"%char /\ Pdf.isLineTerminator c = false) (Printed.codeUnits text) ->
    (forall s', text <> String "#" s') ->
    (forall s', text <> String "-" s') ->
    Pdf.mdToHtml text
    = "<p>"
      ++ Pdf.replaceAll ">" "&gt;"
           (Pdf.replaceAll "<" "&lt;" (Pdf.replaceAll "&" "&amp;" text))
      ++ "</p>"
    /\ Forall (fun c => c <> "<"%char /\ c <> ">"%char)
              (Printed.codeUnits
                 (Pdf.replaceAll ">" "&gt;"
                    (Pdf.replaceAll "<" "&lt;" (Pdf.replaceAll "&" "&amp;" text)))).
Proof.
  intros text Hne Hunits Hhash Hdash.
  set (t3 := Pdf.replaceAll ">" "&gt;"
               (Pdf.replaceAll "<" "&lt;" (Pdf.replaceAll "&" "&amp;" text))).
  assert (Hstar : Forall (fun c => c <> "*"%char) (Printed.codeUnits t3)).
  { subst t3. repeat apply replaceAll_units;
      try (cbn [Printed.codeUnits]; repeat constructor; discriminate).
    eapply List.Forall_impl; [|exact Hunits]. cbv beta. tauto. }
  assert (Hline : Forall (fun c => Pdf.isLineTerminator c = false) (Printed.codeUnits t3)).
  { subst t3. repeat apply replaceAll_units;
      try (cbn [Printed.codeUnits]; repeat constructor; reflexivity).
    eapply List.Forall_impl; [|exact Hunits]. cbv beta. tauto. }
  assert (Hlt : Forall (fun c => c <> "<"%char) (Printed.codeUnits t3)).
  { subst t3. apply replaceAll_units;
      [cbn [Printed.codeUnits]; repeat constructor; discriminate|].
    apply replaceAll_removes. cbn [Printed.codeUnits]. repeat constructor; discriminate. }
  assert (Hgt : Forall (fun c => c <> ">"%char) (Printed.codeUnits t3)).
  { subst t3. apply replaceAll_removes. cbn [Printed.codeUnits].
    repeat constructor; discriminate. }
  assert (Hnl : Forall (fun c => c <> "010"%char) (Printed.codeUnits t3)).
  { eapply List.Forall_impl; [|exact Hline]. cbv beta. intros c Hc ->. discriminate Hc. }
  assert (Hhash3 : forall s', t3 <> String "#" s').
  { subst t3. repeat apply replaceAll_head; try discriminate; assumption. }
  assert (Hdash3 : forall s', t3 <> String "-" s').
  { subst t3. repeat apply replaceAll_head; try discriminate; assumption. }
  split.
  - unfold Pdf.mdToHtml.
    destruct text as [|c text']; [contradiction|]. cbn [JsString.isEmpty].
    fold t3. cbv zeta.
    rewrite (replaceMatches_nowhere true _ _ None t3)
      by (apply (nowhere_in_a_line _ "#"); auto; apply headed_seq, headed_str).
    rewrite (replaceMatches_nowhere true _ _ None t3)
      by (apply (nowhere_in_a_line _ "#"); auto; apply headed_seq, headed_str).
    rewrite (replaceMatches_nowhere true _ _ None t3)
      by (apply (nowhere_in_a_line _ "#"); auto; apply headed_seq, headed_str).
    rewrite (replaceMatches_nowhere false _ _ None t3)
      by (apply (nowhere_absent _ _ "*"); auto; apply headed_seq, headed_str).
    rewrite (replaceMatches_nowhere false _ _ None t3)
      by (apply (nowhere_absent _ _ "*"); auto; apply headed_seq, headed_lit).
    rewrite (replaceMatches_nowhere true _ _ None t3)
      by (apply (nowhere_in_a_line _ "-"); auto; apply headed_seq, headed_str).
    rewrite (replaceMatches_nowhere false _ _ None t3)
      by (apply (nowhere_absent _ _ "<"); auto;
          apply headed_plus, headed_seq, headed_str).
    rewrite (replaceMatches_nowhere false _ _ None t3)
      by (apply (nowhere_absent _ _ "010"); auto; apply headed_str).
    now rewrite (replaceAll_absent "010" "<br>" t3 Hnl).
  - apply List.Forall_forall. intros c Hc.
    rewrite List.Forall_forall in Hlt, Hgt. split; auto.
Qed.

Lemma mdToHtml_of_a_plain_line_witness :
  Pdf.mdToHtml "x < y & <b>z</b>" = "<p>x &lt; y &amp; &lt;b&gt;z&lt;/b&gt;</p>".
Proof.
  refine (proj1 (mdToHtml_of_a_plain_line "x < y & <b>z</b>" _ _ _ _));
    try discriminate.
  cbn [Printed.codeUnits]. repeat constructor; discriminate.
Defined.

Example sectionsHtml_numbers_the_sections :
  Pdf.sectionsHtml [("Appendix", "Tables"); ("References", ""); ("Case for Support", "Why")]
  = (Pdf.sectionBlock 1 "Case for Support" "Why" ++ Pdf.sectionBlock 2 "Appendix" "Tables",
     3%N).
Proof. vm_compute. reflexivity. Qed.

Section PrintFacts.
Import JsString Pdf Printed.

Lemma numbered_app (k : N) (l1 l2 : list (string * string)) :
  numbered k (l1 ++ l2)
  = numbered k l1 ++ numbered (k + N.of_nat (length l1)) l2.
Proof.
  revert k. induction l1 as [|[n c] l1 IH]; intros k.
  - cbn [app numbered length]. rewrite append_nil_l. f_equal. lia.
  - cbn [app numbered length]. rewrite IH, append_assoc. do 3 f_equal. lia.
Qed.

Lemma fold_standard (sections : list (string * string)) (names : list string)
      (st : string * N) :
  let chosen :=
    flat_map (fun name =>
                match Templates.lookup_key sections name with
                | Some c => if isEmpty c then [] else [(name, c)]
                | None => []
                end) names in
  fold_left (fun st name => addSection name (Templates.lookup_key sections name) st)
            names st
  = (fst st ++ numbered (snd st) chosen, (snd st + N.of_nat (length chosen))%N).
Proof.
  revert st. induction names as [|name names IH]; intros [html k]; cbv zeta in *.
  - cbn. rewrite append_nil_r. f_equal. lia.
  - cbn [fold_left flat_map]. rewrite IH. unfold addSection.
    destruct (Templates.lookup_key sections name) as [c|].
    + destruct (isEmpty c).
      * reflexivity.
      * cbn [fst snd app length numbered]. rewrite append_assoc. f_equal. lia.
    + reflexivity.
Qed.

Lemma fold_others (entries : list (string * string)) (st : string * N) :
  let chosen :=
    List.filter (fun entry =>
                   negb (existsb (String.eqb (fst entry)) sectionOrder)
                   && negb (isEmpty (snd entry))) entries in
  fold_left (fun st entry =>
               if existsb (String.eqb (fst entry)) sectionOrder then st
               else addSection (fst entry) (Some (snd entry)) st)
            entries st
  = (fst st ++ numbered (snd st) chosen, (snd st + N.of_nat (length chosen))%N).
Proof.
  revert st. induction entries as [|[name c] entries IH]; intros [html k]; cbv zeta in *.
  - cbn. rewrite append_nil_r. f_equal. lia.
  - cbn [fold_left List.filter fst snd]. rewrite IH.
    destruct (existsb (String.eqb name) sectionOrder); cbn [negb andb].
    + reflexivity.
    + unfold addSection. destruct (isEmpty c); cbn [negb].
      * reflexivity.
      * cbn [fst snd length numbered]. rewrite append_assoc. f_equal. lia.
Qed.

Lemma sectionsHtml_numbered (sections : list (string * string)) :
  sectionsHtml sections
  = (numbered 1 (rendered sections), (1 + N.of_nat (length (rendered sections)))%N).
Proof.
  unfold sectionsHtml, rendered. cbv zeta.
  rewrite fold_standard, fold_others. cbn [fst snd].
  rewrite append_nil_l, numbered_app, length_app. f_equal. lia.
Qed.

Lemma lookup_key_first (l : list (string * string)) (k v : string) :
  List.NoDup (map fst l) -> In (k, v) l -> Templates.lookup_key l k = Some v.
Proof.
  induction l as [|[k' v'] l IH]; [intros _ []|].
  cbn [map fst]. intros Hnd [Heq | Hin]; cbn [Templates.lookup_key].
  - injection Heq as -> ->. now rewrite String.eqb_refl.
  - apply List.NoDup_cons_iff in Hnd as (Hk' & Hnd).
    destruct (String.eqb_spec k' k) as [->|Hne]; [|now apply IH].
    exfalso. apply Hk'. apply in_map_iff. now exists (k, v).
Qed.

Lemma existsb_eqb_In (k : string) (l : list string) :
  existsb (String.eqb k) l = true <-> In k l.
Proof.
  rewrite existsb_exists. split.
  - intros (x & Hin & ->%String.eqb_eq). exact Hin.
  - intros Hin. exists k. split; [exact Hin | apply String.eqb_refl].
Qed.

Lemma isEmpty_false (s : string) : isEmpty s = false <-> s <> "".
Proof. destruct s; cbn; split; congruence. Qed.

Lemma rendered_In (sections : list (string * string)) (n c : string) :
  List.NoDup (map fst sections) ->
  In (n, c) (rendered sections) <-> In (n, c) sections /\ c <> "".
Proof.
  intros Hnd. unfold rendered. rewrite in_app_iff, in_flat_map, List.filter_In.
  cbn [fst snd]. split.
  - intros [(name & Hname & Hin) | (Hin & Hkeep)].
    + destruct (Templates.lookup_key sections name) as [v|] eqn:Hv; [|destruct Hin].
      destruct (isEmpty v) eqn:Hempty; [destruct Hin|].
      destruct Hin as [[= <- <-] | []].
      split; [now apply lookup_key_In | now apply isEmpty_false].
    + apply andb_prop in Hkeep as (_ & Hc). split; [exact Hin|].
      apply isEmpty_false. now destruct (isEmpty c).
  - intros (Hin & Hc). apply isEmpty_false in Hc.
    destruct (existsb (String.eqb n) sectionOrder) eqn:Hstd.
    + left. exists n. split; [now apply existsb_eqb_In|].
      rewrite (lookup_key_first sections n c Hnd Hin), Hc. now left.
    + right. split; [exact Hin|]. now rewrite Hc.
Qed.

Lemma standard_keys (sections : list (string * string)) (names : list string) :
  List.NoDup names ->
  let chosen :=
    flat_map (fun name =>
                match Templates.lookup_key sections name with
                | Some c => if isEmpty c then [] else [(name, c)]
                | None => []
                end) names in
  List.NoDup (map fst chosen) /\ (forall k, In k (map fst chosen) -> In k names).
Proof.
  induction 1 as [|name names Hname Hnd (IHnd & IHin)]; cbv zeta in *.
  - split; [constructor | intros k []].
  - cbn [flat_map].
    destruct (Templates.lookup_key sections name) as [c|];
      [destruct (isEmpty c)|]; cbn [app map fst].
    + split; [exact IHnd | intros k Hk; right; auto].
    + split.
      * constructor; [|exact IHnd]. intros Hin. apply Hname. auto.
      * intros k [<- | Hk]; [now left | right; auto].
    + split; [exact IHnd | intros k Hk; right; auto].
Qed.

Lemma filter_keys (p : string * string -> bool) (l : list (string * string)) :
  List.NoDup (map fst l) -> List.NoDup (map fst (List.filter p l)).
Proof.
  induction l as [|[k v] l IH]; [constructor|].
  cbn [map fst List.filter]. intros (Hk & Hnd)%List.NoDup_cons_iff.
  destruct (p (k, v)); [|auto].
  cbn [map fst]. constructor; [|auto].
  intros Hin. apply Hk. apply in_map_iff in Hin as ([k' v'] & Heq & Hin).
  apply List.filter_In in Hin as (Hin & _). cbn in Heq. subst k'.
  apply in_map_iff. now exists (k, v').
Qed.

Lemma sectionOrder_NoDup : List.NoDup sectionOrder.
Proof.
  unfold sectionOrder.
  repeat (constructor; [cbn [In]; intuition discriminate|]). constructor.
Qed.

Lemma rendered_keys (sections : list (string * string)) :
  List.NoDup (map fst sections) -> List.NoDup (map fst (rendered sections)).
Proof.
  intros Hnd. unfold rendered. rewrite map_app.
  destruct (standard_keys sections sectionOrder sectionOrder_NoDup) as (Hstd & Hin).
  apply List.NoDup_app.
  - exact Hstd.
  - now apply filter_keys.
  - intros k Hk Hother. apply Hin in Hk.
    apply in_map_iff in Hother as ([k' v] & Heq & Hother). cbn in Heq. subst k'.
    apply List.filter_In in Hother as (_ & Hkeep). cbn [fst] in Hkeep.
    apply andb_prop in Hkeep as (Hnot & _).
    apply existsb_eqb_In in Hk. rewrite Hk in Hnot. discriminate.
Qed.

End PrintFacts.

(** X20: the sections of the printed page: [generatePrintHTML] renders the
    sections whose content is not empty, those of the standard order first
    and in that order, then the others in the order of the object, and
    numbers them 1, 2, 3, ... without a gap.  When the keys are distinct
    every section that is not empty is rendered exactly once. *)
Theorem printed_sections_are_numbered_in_order :
  (forall sections : list (string * string),
      Pdf.sectionsHtml sections
      = (Printed.numbered 1 (Printed.rendered sections),
         (1 + N.of_nat (length (Printed.rendered sections)))%N))
  /\ (forall sections : list (string * string),
         List.NoDup (map fst sections) ->
         (forall name content : string,
             In (name, content) (Printed.rendered sections)
             <-> In (name, content) sections /\ content <> "")
         /\ List.NoDup (map fst (Printed.rendered sections))).
Proof.
  split; [exact sectionsHtml_numbered|].
  intros sections Hnd. split.
  - intros name content. now apply rendered_In.
  - now apply rendered_keys.
Qed.

Lemma printed_sections_are_numbered_in_order_witness :
  In ("Appendix", "Tables")
     (Printed.rendered
        [("Appendix", "Tables"); ("References", ""); ("Case for Support", "Why")])
  /\ List.NoDup
       (map fst
          (Printed.rendered
             [("Appendix", "Tables"); ("References", ""); ("Case for Support", "Why")])).
Proof.
  destruct (proj2 printed_sections_are_numbered_in_order
              [("Appendix", "Tables"); ("References", ""); ("Case for Support", "Why")])
    as [Hin Hnodup].
  - repeat constructor; cbn [In]; intros H; intuition discriminate.
  - split; [| exact Hnodup].
    apply Hin. split; [left; reflexivity | discriminate].
Defined.

